(** * MADB storage layer (src/js/db.js): a shallow embedding and its properties

    The file models the IndexedDB wrapper of the farm record keeper:
    the four object stores, the farm / expense / settings operations,
    the legacy migration, the task-completion tracker and backup / restore.

    Conventions of the embedding
    - an [async] function is a state transformer over the database that
      either resolves with a value or rejects with an exception; what was
      written before a rejection stays written (every IndexedDB call is
      its own transaction);
    - a request fails where the IndexedDB specification says it must (a
      DataError for a bad key); quota and device failures are outside the
      model;
    - the wall clock, the local time zone and the JSON codec belong to the
      browser and are taken from a [Platform] record;
    - records keep the fields the code reads or writes; a field the code
      tests by truthiness is an [option] ([None] is a missing, undefined
      or null property), a field the code only copies is a [jsval];
    - strings are byte strings; on ASCII text their order and length are
      those of JavaScript;
    - the two read-only queries by category and by date range are not
      needed below and are left out. *)

From Stdlib Require Import ZArith QArith String Ascii List Lia.
From stdpp Require Import gmap strings list fin_maps sorting pretty.

Local Open Scope string_scope.
Local Open Scope Z_scope.

#[local] Set Warnings "-register-all".

(** ** JavaScript values *)

(** Values that are only carried around (JSON-shaped). *)
Inductive jsval : Type :=
| JUndef
| JNull
| JBool (b : bool)
| JNum (q : Q)
| JStr (s : string)
| JArr (items : list jsval)
| JObj (props : list (string * jsval)).

(** ToBoolean. *)
Definition truthy (v : jsval) : bool :=
  match v with
  | JUndef | JNull => false
  | JBool b => b
  | JNum q => negb (Qeq_bool q 0)
  | JStr s => negb (String.eqb s "")
  | JArr _ | JObj _ => true
  end.

(** Truthiness of a property that holds a string when present. *)
Definition truthy_str (o : option string) : bool :=
  match o with
  | Some s => negb (String.eqb s "")
  | None => false
  end.

Fixpoint assoc (k : string) (props : list (string * jsval)) : jsval :=
  match props with
  | [] => JUndef
  | (k', v) :: rest => if String.eqb k k' then v else assoc k rest
  end.

(** [v.k] for the own data properties of a parsed JSON value; primitives
    and arrays have none of the names the code asks for. *)
Definition get_prop (v : jsval) (k : string) : jsval :=
  match v with
  | JObj props => assoc k props
  | _ => JUndef
  end.

(** ** Dates

    A time value is the number of milliseconds since the epoch, as in
    ECMAScript; the arithmetic below is exact on the whole range of valid
    time values. *)

Definition msPerDay : Z := 86400000.

Definition Day (t : Z) : Z := t / msPerDay.
Definition TimeWithinDay (t : Z) : Z := t mod msPerDay.

(** Gregorian date of a day number (days since 1970-01-01). *)
Definition civil_from_days (z0 : Z) : Z * Z * Z :=
  let z := z0 + 719468 in
  let era := z / 146097 in
  let doe := z - era * 146097 in
  let yoe := (doe - doe / 1460 + doe / 36524 - doe / 146096) / 365 in
  let doy := doe - (365 * yoe + yoe / 4 - yoe / 100) in
  let mp := (5 * doy + 2) / 153 in
  let d := doy - (153 * mp + 2) / 5 + 1 in
  let m := if mp <? 10 then mp + 3 else mp - 9 in
  let y := yoe + era * 400 in
  (if m <=? 2 then y + 1 else y, m, d).

(** Day number of a Gregorian date. *)
Definition days_from_civil (y0 m d : Z) : Z :=
  let y := if m <=? 2 then y0 - 1 else y0 in
  let era := y / 400 in
  let yoe := y - era * 400 in
  let mp := if 2 <? m then m - 3 else m + 9 in
  let doy := (153 * mp + 2) / 5 + d - 1 in
  let doe := yoe * 365 + yoe / 4 - yoe / 100 + doy in
  era * 146097 + doe - 719468.

Definition is_leap (y : Z) : bool :=
  ((y mod 4 =? 0) && negb (y mod 100 =? 0)) || (y mod 400 =? 0).

Definition DaysInMonth (y m : Z) : Z :=
  if m =? 2 then (if is_leap y then 29 else 28)
  else if (m =? 4) || (m =? 6) || (m =? 9) || (m =? 11) then 30
  else 31.

(** The last [width] decimal digits of [n], most significant first: the
    zero-padded fields of an ISO timestamp. *)
Definition digit_char (d : Z) : ascii := ascii_of_N (Z.to_N (48 + d)).

Fixpoint digits (width : nat) (n : Z) : list ascii :=
  match width with
  | O => []
  | S w => (digits w (n / 10) ++ [digit_char (n mod 10)])%list
  end.

Definition pad (width : nat) (n : Z) : string :=
  string_of_list_ascii (digits width n).

(** [Date.prototype.toISOString]. *)
Definition toISOString (t : Z) : string :=
  let '(y, m, d) := civil_from_days (Day t) in
  let r := TimeWithinDay t in
  let year :=
    if (0 <=? y) && (y <=? 9999) then pad 4 y
    else (if y <? 0 then "-" else "+") +:+ pad 6 (Z.abs y) in
  year +:+ "-" +:+ pad 2 m +:+ "-" +:+ pad 2 d +:+ "T"
    +:+ pad 2 (r / 3600000) +:+ ":" +:+ pad 2 (r / 60000 mod 60) +:+ ":"
    +:+ pad 2 (r / 1000 mod 60) +:+ "." +:+ pad 3 (r mod 1000) +:+ "Z".

Definition digit (c : ascii) : option Z :=
  let n := Z.of_N (N_of_ascii c) in
  if (48 <=? n) && (n <=? 57) then Some (n - 48) else None.

Fixpoint number (acc : Z) (cs : list ascii) : option Z :=
  match cs with
  | [] => Some acc
  | c :: rest =>
      match digit c with
      | Some n => number (10 * acc + n) rest
      | None => None
      end
  end.

Definition MakeDay (y m d : Z) : option Z :=
  if (1 <=? m) && (m <=? 12) && (1 <=? d) && (d <=? DaysInMonth y m)
  then Some (days_from_civil y m d) else None.

Definition MakeTime (h mi s ms : Z) : option Z :=
  if ((h <=? 23) && (mi <=? 59) && (s <=? 59))
     || ((h =? 24) && (mi =? 0) && (s =? 0) && (ms =? 0))
  then Some (h * 3600000 + mi * 60000 + s * 1000 + ms) else None.

(** [setHours(0, 0, 0, 0)]: the time value of midnight of the local
    calendar day of [t].  [tza t true] is the offset of local time from UTC
    at the UTC time value [t], [tza t false] the offset at the local time
    value [t] (ECMAScript LocalTZA). *)
Definition LocalTime (tza : Z → bool → Z) (t : Z) : Z := t + tza t true.
Definition UTC (tza : Z → bool → Z) (t : Z) : Z := t - tza t false.
Definition setHours0 (tza : Z → bool → Z) (t : Z) : Z :=
  UTC tza (Day (LocalTime tza t) * msPerDay).

(** [TimeClip]: a time value out of the range of [Date] is the Invalid
    Date. *)
Definition TimeClip (t : Z) : option Z :=
  if Z.abs t <=? 8640000000000000 then Some t else None.

(** *** The Date Time String Format

    [YYYY-MM-DDTHH:mm:ss.sssZ] and its shorter forms (ECMAScript, Date Time
    String Format).  The date is [YYYY], [YYYY-MM] or [YYYY-MM-DD], the year
    with four digits or, expanded, with a sign and six digits ([-000000] is
    not a year).  A time [THH:mm], [THH:mm:ss] or [THH:mm:ss.sss] may
    follow, and after it [Z] or an offset [+HH:mm] or [-HH:mm].  A missing
    month or day is 01, a missing second or millisecond 0. *)

(** Month and day after the year [y]: the day number and the rest of the
    text. *)
Definition parse_month_day (y : Z) (cs : list ascii) : option (Z * list ascii) :=
  match cs with
  | "-"%char :: m1 :: m2 :: "-"%char :: d1 :: d2 :: rest =>
      match number 0 [m1; m2], number 0 [d1; d2] with
      | Some m, Some d => (λ day, (day, rest)) <$> MakeDay y m d
      | _, _ => None
      end
  | "-"%char :: m1 :: m2 :: rest =>
      match number 0 [m1; m2] with
      | Some m => (λ day, (day, rest)) <$> MakeDay y m 1
      | None => None
      end
  | rest => (λ day, (day, rest)) <$> MakeDay y 1 1
  end.

Definition parse_date (cs : list ascii) : option (Z * list ascii) :=
  match cs with
  | y1 :: y2 :: y3 :: y4 :: rest =>
      match number 0 [y1; y2; y3; y4] with
      | Some y => parse_month_day y rest
      | None =>
          match cs with
          | sign :: e1 :: e2 :: e3 :: e4 :: e5 :: e6 :: rest =>
              match number 0 [e1; e2; e3; e4; e5; e6] with
              | Some y =>
                  if Ascii.eqb sign "+" then parse_month_day y rest
                  else if Ascii.eqb sign "-" && negb (y =? 0)
                  then parse_month_day (- y) rest
                  else None
              | None => None
              end
          | _ => None
          end
      end
  | _ => None
  end.

(** The time after the [T]: the milliseconds since midnight and the rest
    of the text. *)
Definition parse_time (cs : list ascii) : option (Z * list ascii) :=
  match cs with
  | h1 :: h2 :: ":"%char :: n1 :: n2 :: rest =>
      match number 0 [h1; h2], number 0 [n1; n2] with
      | Some h, Some mi =>
          match rest with
          | ":"%char :: s1 :: s2 :: "."%char :: f1 :: f2 :: f3 :: rest' =>
              match number 0 [s1; s2], number 0 [f1; f2; f3] with
              | Some sec, Some ms => (λ tm, (tm, rest')) <$> MakeTime h mi sec ms
              | _, _ => None
              end
          | ":"%char :: s1 :: s2 :: rest' =>
              match number 0 [s1; s2] with
              | Some sec => (λ tm, (tm, rest')) <$> MakeTime h mi sec 0
              | None => None
              end
          | rest' => (λ tm, (tm, rest')) <$> MakeTime h mi 0 0
          end
      | _, _ => None
      end
  | _ => None
  end.

(** What follows the time: nothing (local time), [Z], or an offset from
    UTC in milliseconds. *)
Inductive zone : Type :=
| LocalZone
| OffsetZone (offset : Z).

Definition parse_zone (cs : list ascii) : option zone :=
  match cs with
  | [] => Some LocalZone
  | ["Z"%char] => Some (OffsetZone 0)
  | [sign; h1; h2; ":"%char; m1; m2] =>
      match number 0 [h1; h2], number 0 [m1; m2] with
      | Some h, Some m =>
          if (h <=? 23) && (m <=? 59) then
            if Ascii.eqb sign "+" then Some (OffsetZone (h * 3600000 + m * 60000))
            else if Ascii.eqb sign "-"
            then Some (OffsetZone (- (h * 3600000 + m * 60000)))
            else None
          else None
      | _, _ => None
      end
  | _ => None
  end.

(** The time value of a text in the Date Time String Format; [None] for a
    text that is not an instance of it with values in range.  Without an
    offset a date-only form is UTC and a date-time form is local time. *)
Definition Date_Time_String_Format (tza : Z → bool → Z) (s : string) : option Z :=
  match parse_date (list_ascii_of_string s) with
  | Some (day, []) => TimeClip (day * msPerDay)
  | Some (day, "T"%char :: rest) =>
      match parse_time rest with
      | Some (tm, rest') =>
          match parse_zone rest' with
          | Some LocalZone => TimeClip (UTC tza (day * msPerDay + tm))
          | Some (OffsetZone offset) => TimeClip (day * msPerDay + tm - offset)
          | None => None
          end
      | None => None
      end
  | _ => None
  end.

(** ** Records *)

Record TaskCompletion : Type := mkTaskCompletion {
  stageIndex : Z;
  taskIndex : Z;
  scheduledDate : string;
  completedDate : string;
  delayDays : option Z;          (* [None] is NaN *)
  timestamp : string
}.

Record Farm : Type := mkFarm {
  farm_id : option string;
  farm_name : jsval;
  farm_size : jsval;
  farm_startDate : jsval;
  farm_cropping : jsval;
  farm_completed : option bool;
  farm_completedDate : option string;
  farm_createdAt : option string;
  farm_updatedAt : option string;
  farm_taskCompletions : option (list TaskCompletion)
}.

Record Expense : Type := mkExpense {
  exp_id : option string;
  exp_farmId : option string;
  exp_name : jsval;
  exp_category : jsval;
  exp_amount : jsval;
  exp_date : jsval
}.

(** The backup document. *)
Record Backup : Type := mkBackup {
  version : jsval;
  exportDate : jsval;
  selectedFarmId : jsval;
  farms : option (list Farm);      (* [None]: missing or not an array *)
  expenses : option (list Expense)
}.

Record ImportStats : Type := mkStats {
  farmsImported : nat;
  expensesImported : nat
}.

(** Property assignments [farm.x = v]. *)
Definition set_id (v : option string) (f : Farm) : Farm :=
  mkFarm v (farm_name f) (farm_size f) (farm_startDate f) (farm_cropping f)
    (farm_completed f) (farm_completedDate f) (farm_createdAt f)
    (farm_updatedAt f) (farm_taskCompletions f).
Definition set_completed (v : option bool) (f : Farm) : Farm :=
  mkFarm (farm_id f) (farm_name f) (farm_size f) (farm_startDate f)
    (farm_cropping f) v (farm_completedDate f) (farm_createdAt f)
    (farm_updatedAt f) (farm_taskCompletions f).
Definition set_completedDate (v : option string) (f : Farm) : Farm :=
  mkFarm (farm_id f) (farm_name f) (farm_size f) (farm_startDate f)
    (farm_cropping f) (farm_completed f) v (farm_createdAt f)
    (farm_updatedAt f) (farm_taskCompletions f).
Definition set_updatedAt (v : option string) (f : Farm) : Farm :=
  mkFarm (farm_id f) (farm_name f) (farm_size f) (farm_startDate f)
    (farm_cropping f) (farm_completed f) (farm_completedDate f)
    (farm_createdAt f) v (farm_taskCompletions f).
Definition set_taskCompletions (v : option (list TaskCompletion)) (f : Farm) : Farm :=
  mkFarm (farm_id f) (farm_name f) (farm_size f) (farm_startDate f)
    (farm_cropping f) (farm_completed f) (farm_completedDate f)
    (farm_createdAt f) (farm_updatedAt f) v.
Definition set_farmId (v : option string) (e : Expense) : Expense :=
  mkExpense (exp_id e) v (exp_name e) (exp_category e) (exp_amount e) (exp_date e).

(** ** The database *)

(** [STORES]. *)
Inductive STORES : Type := FARMS | FARM_INFO | EXPENSES | SETTINGS.

(** The object stores as [initDB] creates them: [farms] and [expenses]
    keep their records under the in-line key [id]; [farmInfo] and
    [settings] take the key beside the value. *)
Definition keyPath (s : STORES) : option string :=
  match s with
  | FARMS => Some "id"
  | FARM_INFO => None
  | EXPENSES => Some "id"
  | SETTINGS => None
  end.

Record DB : Type := mkDB {
  st_farms : gmap string Farm;
  st_farmInfo : gmap string jsval;
  st_expenses : gmap string Expense;
  st_settings : gmap string jsval
}.

Definition with_farms (m : gmap string Farm) (d : DB) : DB :=
  mkDB m (st_farmInfo d) (st_expenses d) (st_settings d).
Definition with_farmInfo (m : gmap string jsval) (d : DB) : DB :=
  mkDB (st_farms d) m (st_expenses d) (st_settings d).
Definition with_expenses (m : gmap string Expense) (d : DB) : DB :=
  mkDB (st_farms d) (st_farmInfo d) m (st_settings d).
Definition with_settings (m : gmap string jsval) (d : DB) : DB :=
  mkDB (st_farms d) (st_farmInfo d) (st_expenses d) m.

(** The world an operation runs in: the database and the number of times
    the clock has been read so far. *)
Record World : Type := mkWorld {
  db : DB;
  ticks : nat
}.

Definition with_db (d : DB) (w : World) : World := mkWorld d (ticks w).

(** What the browser supplies. *)
Record Platform : Type := mkPlatform {
  clock : nat → Z;                    (* the n-th reading of [Date.now()] *)
  LocalTZA : Z → bool → Z;            (* the local time zone *)
  JSON_parse : jsval → option jsval;  (* [None]: throws a SyntaxError *)
  JSON_stringify : jsval → jsval;
  Date_parse_other : string → option Z
    (* [Date.parse] on a text that is not in the Date Time String Format:
       implementation-defined; [None] is NaN *)
}.

(** ** Asynchronous operations *)

Inductive exn : Type :=
| DataError                 (* DOMException raised by IndexedDB *)
| Error (message : string). (* [new Error(message)] *)

Definition NotFound : exn := Error "Farm not found".
Definition InvalidFormat : exn := Error "Invalid backup file format".

Inductive outcome (A : Type) : Type :=
| Resolved (a : A)
| Rejected (e : exn).
Arguments Resolved {A} a.
Arguments Rejected {A} e.

Definition Async (A : Type) : Type := World → outcome A * World.

Definition ret {A} (a : A) : Async A := λ w, (Resolved a, w).
Definition throw {A} (e : exn) : Async A := λ w, (Rejected e, w).
Definition bind {A B} (m : Async A) (k : A → Async B) : Async B :=
  λ w, match m w with
       | (Resolved a, w') => k a w'
       | (Rejected e, w') => (Rejected e, w')
       end.
(** [try { m } catch (error) { h }]. *)
Definition try_catch {A} (m : Async A) (h : exn → Async A) : Async A :=
  λ w, match m w with
       | (Resolved a, w') => (Resolved a, w')
       | (Rejected e, w') => h e w'
       end.

Declare Scope async_scope.
Delimit Scope async_scope with async.
Notation "x <- m ;; k" := (bind m (λ x, k))
  (at level 100, m at next level, right associativity) : async_scope.
Notation "m ;;; k" := (bind m (λ _, k))
  (at level 100, right associativity) : async_scope.
Local Open Scope async_scope.

(** [for (const x of l) { await body(x) }]. *)
Fixpoint for_of {A} (l : list A) (body : A → Async unit) : Async unit :=
  match l with
  | [] => ret tt
  | x :: rest => body x ;;; for_of rest body
  end.

Definition read_db : Async DB := λ w, (Resolved (db w), w).
Definition write_db (f : DB → DB) : Async unit :=
  λ w, (Resolved tt, with_db (f (db w)) w).

(** *** IndexedDB requests *)

(** The argument check of [IDBObjectStore.put(value, key)], made before the
    value is looked at: a store with in-line keys refuses a key argument,
    a store with out-of-line keys needs one. *)
Definition put_key_check (s : STORES) (key : option string) : option exn :=
  match keyPath s, key with
  | Some _, Some _ => Some DataError
  | None, None => Some DataError
  | _, _ => None
  end.

(** [put(value)] on a store with key path [id]: the key is read from the
    record; a record without one is refused. *)
Definition put_inline {V} (key_of : V → option string) (value : V)
    (m : gmap string V) : outcome (gmap string V) :=
  match key_of value with
  | Some k => Resolved (<[k := value]> m)
  | None => Rejected DataError
  end.

(** Records come out of [getAll()] in ascending key order. *)
Definition key_le {V} (a b : string * V) : Prop := String.leb a.1 b.1 = true.
#[local] Instance key_le_dec {V} (a b : string * V) : Decision (key_le a b).
Proof. unfold key_le. apply _. Defined.

Definition getAll {V} (m : gmap string V) : list V :=
  (merge_sort key_le (map_to_list m)).*2.

(** ** The operations of db.js

    A [catch] block that logs and rethrows is the identity and is left
    out; a [catch] that swallows the error is kept as [try_catch]. *)

(** [getStoreName]. *)
Definition getStoreName (key : string) : STORES :=
  if String.eqb key "farmInfo" then FARM_INFO
  else if String.eqb key "expenseData" || String.prefix "expense" key then EXPENSES
  else SETTINGS.

(** Reading and writing the two stores with out-of-line keys. *)
Definition outofline_get (s : STORES) (key : string) (d : DB) : option jsval :=
  match s with
  | FARM_INFO => st_farmInfo d !! key
  | SETTINGS => st_settings d !! key
  | FARMS | EXPENSES => None
  end.

Definition outofline_put (s : STORES) (key : string) (value : jsval) (d : DB) : DB :=
  match s with
  | FARM_INFO => with_farmInfo (<[key := value]> (st_farmInfo d)) d
  | SETTINGS => with_settings (<[key := value]> (st_settings d)) d
  | FARMS | EXPENSES => d
  end.

Definition js_of_id (o : option string) : jsval :=
  match o with
  | Some s => JStr s
  | None => JUndef
  end.

(** [findIndex] with the predicate of [saveTaskCompletion]; [None] is -1. *)
Definition same_task (si ti : Z) (tc : TaskCompletion) : bool :=
  (stageIndex tc =? si) && (taskIndex tc =? ti).

Fixpoint findIndex {A} (p : A → bool) (l : list A) : option nat :=
  match l with
  | [] => None
  | x :: rest => if p x then Some O else S <$> findIndex p rest
  end.

Section Operations.
Context (P : Platform).

(** [new Date(s).getTime()] for a string [s]: [Date.parse] reads the Date
    Time String Format and may read any other text in a way of its own.
    [None] is the Invalid Date (NaN). *)
Definition Date_parse (s : string) : option Z :=
  match Date_Time_String_Format (LocalTZA P) s with
  | Some t => Some t
  | None => Date_parse_other P s
  end.

(** [Date.now()]. *)
Definition Date_now : Async Z :=
  λ w, (Resolved (clock P (ticks w)), mkWorld (db w) (S (ticks w))).

(** [new Date().toISOString()]. *)
Definition now_ISO : Async string :=
  t <- Date_now ;; ret (toISOString t).

(** [setItem]. *)
Definition setItem (key : string) (value : jsval) : Async unit :=
  let store := getStoreName key in
  let serializedValue := JSON_stringify P value in
  match put_key_check store (Some key) with
  | Some e => throw e
  | None => write_db (outofline_put store key serializedValue)
  end.

(** [getItem]: every failure is caught and turned into [null].  A key that
    is routed to the expenses store finds either nothing or an expense
    object, on which [JSON.parse] throws. *)
Definition getItem (key : string) : Async jsval :=
  d <- read_db ;;
  match getStoreName key with
  | FARMS | EXPENSES => ret JNull
  | store =>
      match outofline_get store key d with
      | None | Some JUndef => ret JNull
      | Some result =>
          match JSON_parse P result with
          | Some parsedValue => ret parsedValue
          | None => ret JNull
          end
      end
  end.

(** [removeItem]. *)
Definition removeItem (key : string) : Async unit :=
  write_db (λ d,
    match getStoreName key with
    | FARMS => with_farms (delete key (st_farms d)) d
    | FARM_INFO => with_farmInfo (delete key (st_farmInfo d)) d
    | EXPENSES => with_expenses (delete key (st_expenses d)) d
    | SETTINGS => with_settings (delete key (st_settings d)) d
    end).

(** [clearStore], for the name of one of the four stores. *)
Definition clearStore (storeName : STORES) : Async unit :=
  write_db (λ d,
    match storeName with
    | FARMS => with_farms ∅ d
    | FARM_INFO => with_farmInfo ∅ d
    | EXPENSES => with_expenses ∅ d
    | SETTINGS => with_settings ∅ d
    end).

(** [getAllExpenses]. *)
Definition getAllExpenses : Async (list Expense) :=
  d <- read_db ;; ret (getAll (st_expenses d)).

(** [saveExpense]. *)
Definition saveExpense (expense : Expense) : Async unit :=
  d <- read_db ;;
  match put_inline exp_id expense (st_expenses d) with
  | Resolved m => write_db (with_expenses m)
  | Rejected e => throw e
  end.

(** [deleteExpense]; [undefined] is not a valid key. *)
Definition deleteExpense (expenseId : option string) : Async unit :=
  match expenseId with
  | Some k => write_db (λ d, with_expenses (delete k (st_expenses d)) d)
  | None => throw DataError
  end.

(** [getAllFarms]. *)
Definition getAllFarms : Async (list Farm) :=
  d <- read_db ;; ret (getAll (st_farms d)).

(** [getFarm]: [result || null]. *)
Definition getFarm (farmId : string) : Async (option Farm) :=
  d <- read_db ;; ret (st_farms d !! farmId).

(** [saveFarm]; resolves with [farm.id] as it is after the call. *)
Definition saveFarm (farm : Farm) : Async (option string) :=
  farm <- (if negb (truthy_str (farm_id farm))
           then now <- Date_now ;; ret (set_id (Some ("farm_" +:+ pretty now)) farm)
           else ret farm) ;;
  d <- read_db ;;
  match put_inline farm_id farm (st_farms d) with
  | Resolved m => write_db (with_farms m) ;;; ret (farm_id farm)
  | Rejected e => throw e
  end.

(** [deleteFarm]. *)
Definition deleteFarm (farmId : string) : Async unit :=
  write_db (λ d, with_farms (delete farmId (st_farms d)) d).

(** [getSelectedFarmId]: [result || null]. *)
Definition getSelectedFarmId : Async jsval :=
  d <- read_db ;;
  match st_settings d !! "selectedFarmId" with
  | Some result => ret (if truthy result then result else JNull)
  | None => ret JNull
  end.

(** [setSelectedFarmId]. *)
Definition setSelectedFarmId (farmId : jsval) : Async unit :=
  match put_key_check SETTINGS (Some "selectedFarmId") with
  | Some e => throw e
  | None => write_db (outofline_put SETTINGS "selectedFarmId" farmId)
  end.

(** [getExpensesByFarm]: the records filed in the [farmId] index under the
    given key. *)
Definition getExpensesByFarm (farmId : string) : Async (list Expense) :=
  d <- read_db ;;
  ret (filter (λ e, exp_farmId e = Some farmId) (getAll (st_expenses d))).

(** [deleteExpensesByFarm]. *)
Definition deleteExpensesByFarm (farmId : string) : Async unit :=
  expenses <- getExpensesByFarm farmId ;;
  for_of expenses (λ expense, deleteExpense (exp_id expense)).

(** [migrateLegacyData].  [saveFarm] works on the very object [newFarm], so
    the id used afterwards is the one it resolves with. *)
Definition migrateLegacyData : Async unit :=
  try_catch
    (legacyFarm <- getItem "farmInfo" ;;
     if negb (truthy legacyFarm) then ret tt else
     farms <- getAllFarms ;;
     if (0 <? length farms)%nat then ret tt else
     now <- Date_now ;;
     createdAt <- now_ISO ;;
     let newFarm :=
       mkFarm (Some ("farm_" +:+ pretty now))
         (get_prop legacyFarm "name") (get_prop legacyFarm "size")
         (get_prop legacyFarm "startDate") (get_prop legacyFarm "cropping")
         None None (Some createdAt) None None in
     newFarm_id <- saveFarm newFarm ;;
     setSelectedFarmId (js_of_id newFarm_id) ;;;
     allExpenses <- getAllExpenses ;;
     for_of allExpenses (λ expense,
       if negb (truthy_str (exp_farmId expense))
       then saveExpense (set_farmId newFarm_id expense)
       else ret tt))
    (λ _, ret tt).

(** [markFarmCompleted]. *)
Definition markFarmCompleted (farmId : string) : Async unit :=
  farm <- getFarm farmId ;;
  match farm with
  | None => throw NotFound
  | Some farm =>
      completedDate <- now_ISO ;;
      updatedAt <- now_ISO ;;
      saveFarm (set_updatedAt (Some updatedAt)
                 (set_completedDate (Some completedDate)
                   (set_completed (Some true) farm))) ;;;
      ret tt
  end.

(** [markFarmActive]. *)
Definition markFarmActive (farmId : string) : Async unit :=
  farm <- getFarm farmId ;;
  match farm with
  | None => throw NotFound
  | Some farm =>
      updatedAt <- now_ISO ;;
      saveFarm (set_updatedAt (Some updatedAt)
                 (set_completedDate None
                   (set_completed (Some false) farm))) ;;;
      ret tt
  end.

(** [getActiveFarms] and [getCompletedFarms]. *)
Definition is_completed (farm : Farm) : bool := default false (farm_completed farm).

Definition getActiveFarms : Async (list Farm) :=
  allFarms <- getAllFarms ;; ret (List.filter (λ farm, negb (is_completed farm)) allFarms).

Definition getCompletedFarms : Async (list Farm) :=
  allFarms <- getAllFarms ;; ret (List.filter is_completed allFarms).

(** The delay computed by [saveTaskCompletion]:
    [Math.floor((completed - scheduled) / (1000 * 60 * 60 * 24))] after
    [setHours(0, 0, 0, 0)] on both dates. *)
Definition compute_delayDays (scheduledDate completedDate : string) : option Z :=
  match Date_parse scheduledDate, Date_parse completedDate with
  | Some scheduled, Some completed =>
      Some ((setHours0 (LocalTZA P) completed - setHours0 (LocalTZA P) scheduled)
              / (1000 * 60 * 60 * 24))
  | _, _ => None
  end.

(** [saveTaskCompletion]. *)
Definition saveTaskCompletion (farmId : string) (stageIndex taskIndex : Z)
    (scheduledDate completedDate : string) : Async TaskCompletion :=
  farm <- getFarm farmId ;;
  match farm with
  | None => throw NotFound
  | Some farm =>
      let taskCompletions := default [] (farm_taskCompletions farm) in
      let delayDays := compute_delayDays scheduledDate completedDate in
      let existingIndex := findIndex (same_task stageIndex taskIndex) taskCompletions in
      timestamp <- now_ISO ;;
      let completion :=
        mkTaskCompletion stageIndex taskIndex scheduledDate completedDate
          delayDays timestamp in
      let taskCompletions :=
        match existingIndex with
        | Some i => <[i := completion]> taskCompletions
        | None => (taskCompletions ++ [completion])%list
        end in
      updatedAt <- now_ISO ;;
      saveFarm (set_updatedAt (Some updatedAt)
                 (set_taskCompletions (Some taskCompletions) farm)) ;;;
      ret completion
  end.

(** [getTaskCompletions]. *)
Definition getTaskCompletions (farmId : string) : Async (list TaskCompletion) :=
  farm <- getFarm farmId ;;
  match farm with
  | None => ret []
  | Some farm => ret (default [] (farm_taskCompletions farm))
  end.

(** [deleteTaskCompletion]. *)
Definition deleteTaskCompletion (farmId : string) (stageIndex taskIndex : Z)
    : Async unit :=
  farm <- getFarm farmId ;;
  match farm with
  | None => ret tt
  | Some farm =>
      match farm_taskCompletions farm with
      | None => ret tt
      | Some taskCompletions =>
          let taskCompletions :=
            List.filter (λ tc, negb (same_task stageIndex taskIndex tc))
              taskCompletions in
          updatedAt <- now_ISO ;;
          saveFarm (set_updatedAt (Some updatedAt)
                     (set_taskCompletions (Some taskCompletions) farm)) ;;;
          ret tt
      end
  end.

(** [exportAllData]. *)
Definition exportAllData : Async Backup :=
  farms <- getAllFarms ;;
  expenses <- getAllExpenses ;;
  selectedFarmId <- getSelectedFarmId ;;
  exportDate <- now_ISO ;;
  ret (mkBackup (JStr "1.0") (JStr exportDate) selectedFarmId
         (Some farms) (Some expenses)).

(** [importAllData]; [None] is a [null] or [undefined] argument. *)
Definition importAllData (data : option Backup) : Async ImportStats :=
  match data with
  | None => throw InvalidFormat
  | Some data =>
      if negb (truthy (version data)) then throw InvalidFormat else
      write_db (λ d, with_expenses ∅ (with_farms ∅ d)) ;;;
      match farms data with
      | Some l => for_of l (λ farm, saveFarm farm ;;; ret tt)
      | None => ret tt
      end ;;;
      match expenses data with
      | Some l => for_of l saveExpense
      | None => ret tt
      end ;;;
      (if truthy (selectedFarmId data)
       then setSelectedFarmId (selectedFarmId data)
       else ret tt) ;;;
      ret (mkStats (default O (length <$> farms data))
                   (default O (length <$> expenses data)))
  end.

End Operations.

(** ** Predicates used in the statements *)

(** IndexedDB files a record of a store with key path [id] under the key
    it reads from the record. *)
Definition keyed {V} (key_of : V → option string) (m : gmap string V) : Prop :=
  map_Forall (λ k v, key_of v = Some k) m.

(** The states of the database this program can be in: records sit under
    their own [id], and no farm has the empty id ([saveFarm], the only
    writer of the farms store, replaces it). *)
Definition db_ok (d : DB) : Prop :=
  keyed farm_id (st_farms d)
  ∧ map_Forall (λ k _, k ≠ "") (st_farms d)
  ∧ keyed exp_id (st_expenses d).

(** The entries behind [getAll]. *)
Definition sorted_entries {V} (m : gmap string V) : list (string * V) :=
  merge_sort key_le (map_to_list m).

(** At most one completion per (stage, task) pair. *)
Definition task_key (tc : TaskCompletion) : Z * Z := (stageIndex tc, taskIndex tc).
Definition unique_tasks (l : list TaskCompletion) : Prop := NoDup (task_key <$> l).

(** [new Date(a) < new Date(b)], both dates valid. *)
Definition Date_lt (P : Platform) (a b : string) : Prop :=
  match Date_parse P a, Date_parse P b with
  | Some x, Some y => x < y
  | _, _ => False
  end.

(** Time values whose year has four digits (0000 to 9999). *)
Definition four_digit_year (t : Z) : Prop :=
  -62167219200000 <= t < 253402300800000.

(** The selected farm as [exportAllData] reads it. *)
Definition exported_selection (d : DB) : jsval :=
  match st_settings d !! "selectedFarmId" with
  | Some result => if truthy result then result else JNull
  | None => JNull
  end.

(** What [migrateLegacyData] does to an expense. *)
Definition relink (newId : option string) (e : Expense) : Expense :=
  if truthy_str (exp_farmId e) then e else set_farmId newId e.

(** ** Sample platforms and data *)

Definition msPerHour : Z := 3600000.

Definition quoted (s : string) : string :=
  String (ascii_of_nat 34) s +:+ String (ascii_of_nat 34) "".

(** The text of the legacy record of the migration scenario. *)
Definition legacy_text : string :=
  "{" +:+ quoted "name" +:+ ":" +:+ quoted "Plot A" +:+ ","
      +:+ quoted "size" +:+ ":1.5,"
      +:+ quoted "startDate" +:+ ":" +:+ quoted "2025-01-01" +:+ ","
      +:+ quoted "cropping" +:+ ":" +:+ quoted "first" +:+ "}".

Definition legacy_record : jsval :=
  JObj [("name", JStr "Plot A"); ("size", JNum (3 # 2));
        ("startDate", JStr "2025-01-01"); ("cropping", JStr "first")].

(** A JSON codec that knows the texts used below. *)
Definition sample_parse (v : jsval) : option jsval :=
  match v with
  | JStr s => if String.eqb s legacy_text then Some legacy_record else None
  | _ => None
  end.

Definition sample_stringify (v : jsval) : jsval :=
  match v with
  | JStr s => JStr (quoted s)
  | JUndef => JUndef
  | _ => JStr "null"
  end.

(** A clock that advances one millisecond per reading, from
    2025-11-02T01:01:01.042Z. *)
Definition ticking_clock (n : nat) : Z := 1762045261042 + Z.of_nat n.

(** A clock read four times within each millisecond. *)
Definition fast_clock (n : nat) : Z := 1762045261042 + Z.of_nat (n / 4).

(** Asia/Manila: UTC+8 all year. *)
Definition manila_tza (t : Z) (isUTC : bool) : Z := 8 * msPerHour.

(** America/New_York in 2025: UTC-5, and UTC-4 from 2025-03-09T07:00Z to
    2025-11-02T06:00Z (in local time values: from 03:00 on March 9 to
    02:00 on November 2). *)
Definition new_york_tza (t : Z) (isUTC : bool) : Z :=
  if isUTC
  then (if (1741503600000 <=? t) && (t <? 1762063200000)
        then -4 * msPerHour else -5 * msPerHour)
  else (if (1741489200000 <=? t) && (t <? 1762048800000)
        then -4 * msPerHour else -5 * msPerHour).

(** A [Date.parse] that reads the Date Time String Format and nothing
    else, as the standard allows.  An engine that also reads other texts
    (US dates, an out-of-range day rolled over, ...) is a platform with
    another [Date_parse_other]; the theorems hold for every platform. *)
Definition strict_dates (s : string) : option Z := None.

Definition manila : Platform :=
  mkPlatform ticking_clock manila_tza sample_parse sample_stringify strict_dates.
Definition new_york : Platform :=
  mkPlatform ticking_clock new_york_tza sample_parse sample_stringify strict_dates.
Definition manila_fast : Platform :=
  mkPlatform fast_clock manila_tza sample_parse sample_stringify strict_dates.

Definition blank_farm : Farm :=
  mkFarm None JUndef JUndef JUndef JUndef None None None None None.

Definition plot_b : Farm :=
  mkFarm (Some "farm_1700000000000") (JStr "Plot B") (JNum 2)
    (JStr "2025-02-01") (JStr "second") (Some false) None
    (Some "2025-02-01T00:00:00.000Z") (Some "2025-02-01T00:00:00.000Z")
    (Some [mkTaskCompletion 0 1 "2025-02-03" "2025-02-04" (Some 1)
             "2025-02-04T09:00:00.000Z"]).

Definition expense (id : string) (farmId : option string) : Expense :=
  mkExpense (Some id) farmId (JStr "seeds") (JStr "inputs") (JNum 1200)
    (JStr "2025-02-02").

Definition empty_db : DB := mkDB ∅ ∅ ∅ ∅.

(** One farm with two expenses, one expense of another farm. *)
Definition sample_db : DB :=
  mkDB {[ "farm_1700000000000" := plot_b ]} ∅
    (<[ "e1" := expense "e1" (Some "farm_1700000000000") ]>
       (<[ "e2" := expense "e2" (Some "farm_1700000000000") ]>
          {[ "e3" := expense "e3" (Some "farm_1600000000000") ]}))
    {[ "selectedFarmId" := JStr "farm_1700000000000" ]}.

(** The migration scenario: a legacy record, no farm, two expenses without
    [farmId]. *)
Definition legacy_db : DB :=
  mkDB ∅ {[ "farmInfo" := JStr legacy_text ]}
    (<[ "e1" := expense "e1" None ]> {[ "e2" := expense "e2" None ]}) ∅.

(** The predicates above can be decided by computation. *)
#[local] Instance keyed_dec {V} (key_of : V → option string) (m : gmap string V)
  : Decision (keyed key_of m).
Proof. unfold keyed. apply _. Defined.

#[local] Instance db_ok_dec (d : DB) : Decision (db_ok d).
Proof. unfold db_ok. apply _. Defined.

#[local] Instance unique_tasks_dec (l : list TaskCompletion) : Decision (unique_tasks l).
Proof. unfold unique_tasks. apply _. Defined.

(** The list update of [saveTaskCompletion]: overwrite the first entry of
    the pair, or push. *)
Definition upsert (si ti : Z) (c : TaskCompletion) (l : list TaskCompletion)
    : list TaskCompletion :=
  match findIndex (same_task si ti) l with
  | Some i => <[i := c]> l
  | None => (l ++ [c])%list
  end.

(** An operation keeps the database well formed, whether it resolves or
    rejects. *)
Definition keeps_db_ok {A} (m : Async A) : Prop :=
  ∀ w, db_ok (db w) → db_ok (db (m w).2).

(** ** The indexed queries of db.js *)

(** [getExpensesByCategory]: the records filed in the [category] index
    under the given string, in key order. *)
Definition getExpensesByCategory (category : string) : Async (list Expense) :=
  d <- read_db ;;
  ret (List.filter
         (λ e, match exp_category e with
               | JStr s => String.eqb s category
               | _ => false
               end)
         (getAll (st_expenses d))).

(** The key of an expense in the [date] index.  The bounds of
    [getExpensesByDateRange] are strings, and among the keys IndexedDB
    accepts only strings lie between two strings. *)
Definition date_key (e : Expense) : option string :=
  match exp_date e with
  | JStr s => Some s
  | _ => None
  end.

Definition in_bound (lower upper : string) (e : Expense) : bool :=
  match date_key e with
  | Some s => String.leb lower s && String.leb s upper
  | None => false
  end.

(** Index order: by index key, then by primary key. *)
Definition date_index_leb (a b : string * Expense) : bool :=
  match date_key a.2, date_key b.2 with
  | Some da, Some db =>
      match String.compare da db with
      | Lt => true
      | Eq => String.leb a.1 b.1
      | Gt => false
      end
  | _, _ => true
  end.

Definition date_index_le (a b : string * Expense) : Prop :=
  date_index_leb a b = true.

#[local] Instance date_index_le_dec (a b : string * Expense)
  : Decision (date_index_le a b).
Proof. unfold date_index_le. apply _. Defined.

(** Two expenses in the order of their dates. *)
Definition date_ordered (a b : Expense) : Prop :=
  match date_key a, date_key b with
  | Some da, Some db => String.leb da db = true
  | _, _ => True
  end.

(** [getExpensesByDateRange]; the arguments are the time values of the two
    [Date] objects, [None] for an invalid date.  [toISOString] throws on an
    invalid date and [IDBKeyRange.bound] on a lower bound above the upper
    one; the function catches both and returns no expense. *)
Definition getExpensesByDateRange (startDate endDate : option Z)
    : Async (list Expense) :=
  try_catch
    (match startDate, endDate with
     | Some s, Some e =>
         let lower := toISOString s in
         let upper := toISOString e in
         if String.ltb upper lower then throw DataError else
         d <- read_db ;;
         ret (merge_sort date_index_le
                (filter (λ p, in_bound lower upper p.2 = true)
                   (map_to_list (st_expenses d)))).*2
     | _, _ => throw (Error "Invalid time value")
     end)
    (λ _, ret []).

(** ** The schema upgrade of [initDB] *)

Record IndexSpec : Type := mkIndex {
  index_name : string;
  index_keyPath : string;
  index_unique : bool
}.

Record StoreSpec : Type := mkStore {
  store_keyPath : option string;
  store_indexes : list IndexSpec
}.

(** The name of a store, as in [STORES]. *)
Definition store_name (s : STORES) : string :=
  match s with
  | FARMS => "farms"
  | FARM_INFO => "farmInfo"
  | EXPENSES => "expenses"
  | SETTINGS => "settings"
  end.

(** [createObjectStore] unless [objectStoreNames.contains]. *)
Definition create_if_missing (name : string) (spec : StoreSpec)
    (stores : gmap string StoreSpec) : gmap string StoreSpec :=
  match stores !! name with
  | Some _ => stores
  | None => <[name := spec]> stores
  end.

(** [request.onupgradeneeded], on the object stores of the database. *)
Definition onupgradeneeded (stores : gmap string StoreSpec) : gmap string StoreSpec :=
  let stores :=
    create_if_missing "farms"
      (mkStore (Some "id") [mkIndex "name" "name" false]) stores in
  let stores := create_if_missing "farmInfo" (mkStore None []) stores in
  let stores :=
    create_if_missing "expenses"
      (mkStore (Some "id")
         [mkIndex "date" "date" false; mkIndex "category" "category" false;
          mkIndex "farmId" "farmId" false]) stores in
  create_if_missing "settings" (mkStore None []) stores.

(** ** rice-stages.js *)

Record Task : Type := mkTask {
  task_text : string;
  task_offset : Z
}.

(** A stage descriptor, with the fields the scripts read. *)
Record Stage : Type := mkStage {
  stage_title : string;
  stage_tasks : list Task;
  stage_offset : Z;
  stage_dashboardLabel : string
}.

Definition RICE_CULTIVATION_STAGES : list Stage :=
  [ mkStage "1. Land Cultivation Phase"
      [ mkTask "Perform deep plowing (deep tillage to break soil and incorporate organic matter and wait for soil to settle)" 0;
        mkTask "Level the field (create uniform water depth and smooth surface)" 25 ]
      0 "Land Prep";
    mkStage "2. Seed Preparation Phase"
      [ mkTask "Start soaking seeds (soak 2 days)" 3;
        mkTask "Transfer sprouted seeds to nursery bed. Nurture seedlings in nursery for 25 days" 5;
        mkTask "Seedlings ready for transplanting (25 days old)" 30 ]
      3 "Seeds";
    mkStage "3. Pre-Transplantation (Field Treatment)"
      [ mkTask "Verify soil is leveled (Phase 1)" 25;
        mkTask "Verify seedlings are ready (Phase 2)" 30;
        mkTask "Apply pesticide on the entire field to eliminate remaining pests" 30 ]
      30 "Treatment";
    mkStage "4. Transplanting"
      [ mkTask "Transplant seedlings to main field" 31;
        mkTask "Plant at proper spacing for optimal growth" 31;
        mkTask "Record transplanting date (start of 90-day growth period)" 31 ]
      31 "Planting";
    mkStage "5. Fertilizer & Pesticide Management"
      [ mkTask "Apply pesticide every 2 weeks and adjust applications depending on the condition of the rice crop" 45;
        mkTask "Apply first fertilizer - wait 15 days for side dressing" 46;
        mkTask "Apply side dressing - wait 15 days for top dressing " 61;
        mkTask "Apply top dressing " 76 ]
      46 "Growth";
    mkStage "6. Harvesting"
      [ mkTask "Inspect crop maturity (look for golden grains)" 113;
        mkTask "Harvest your rice crops with reaper" 120;
        mkTask "Dry grains to proper moisture content" 121;
        mkTask "Store dried grains in clean, dry bags" 123 ]
      113 "Harvest" ].

Definition MS_PER_DAY : Z := 1000 * 60 * 60 * 24.

(** [daysElapsed >= stage.offset]; the comparison is false on NaN. *)
Definition reached (daysElapsed : option Z) (stage : Stage) : bool :=
  match daysElapsed with
  | Some d => stage_offset stage <=? d
  | None => false
  end.

(** The [forEach] of [getCurrentStageIndex], from position [index] on. *)
Fixpoint forEach_stage (stages : list Stage) (index : nat)
    (daysElapsed : option Z) (currentIdx : nat) : nat :=
  match stages with
  | [] => currentIdx
  | stage :: rest =>
      forEach_stage rest (S index) daysElapsed
        (if reached daysElapsed stage then index else currentIdx)
  end.

(** [Math.max(0, Math.floor((today - start) / MS_PER_DAY))]; [None] is
    NaN, the result for a start date that does not parse. *)
Definition days_elapsed (start : option Z) (today : Z) : option Z :=
  match start with
  | Some s => Some (Z.max 0 ((today - s) / MS_PER_DAY))
  | None => None
  end.

Section Stages.
Context (P : Platform).

(** [getCurrentStageIndex]. *)
Definition getCurrentStageIndex (startDate : string) : Async nat :=
  let start := Date_parse P startDate in
  today <- Date_now P ;;
  let daysElapsed := days_elapsed start today in
  ret (forEach_stage RICE_CULTIVATION_STAGES 0 daysElapsed 0).

End Stages.

(** ** The reminders of NotificationManager *)

(** The farm object as the reminders read it; [startDate] is a string
    when it is there. *)
Record FarmDates : Type := mkFarmDates {
  fd_name : jsval;
  fd_startDate : option string
}.

Record Upcoming : Type := mkUpcoming {
  up_stage : Stage;
  up_date : option Z;           (* the [Date] of the stage *)
  up_daysUntil : Z;
  up_farmName : jsval
}.

(** [d.setDate(d.getDate() + n)]: the same local time of day, [n] local
    calendar days later. *)
Definition addDays (tza : Z → bool → Z) (t n : Z) : option Z :=
  TimeClip (UTC tza (LocalTime tza t + n * msPerDay)).

(** [d.setHours(0, 0, 0, 0)] on a [Date] object. *)
Definition atMidnight (tza : Z → bool → Z) (d : option Z) : option Z :=
  match d with
  | Some t => TimeClip (setHours0 tza t)
  | None => None
  end.

Section Reminders.
Context (P : Platform).

(** [daysUntil], for a [Date] argument ([None] when it is invalid);
    [None] is the result NaN. *)
Definition daysUntil (targetDate : option Z) : Async (option Z) :=
  now <- Date_now P ;;
  let today := atMidnight (LocalTZA P) (Some now) in
  let target := atMidnight (LocalTZA P) targetDate in
  ret (match target, today with
       | Some target, Some today => Some ((target - today) / (1000 * 60 * 60 * 24))
       | _, _ => None
       end).

(** The [forEach] of [getUpcomingStages]. *)
Fixpoint upcoming_stages (farmName : jsval) (startDate : option Z)
    (stages : list Stage) : Async (list Upcoming) :=
  match stages with
  | [] => ret []
  | stage :: rest =>
      let stageDate :=
        match startDate with
        | Some t => addDays (LocalTZA P) t (stage_offset stage)
        | None => None
        end in
      days <- daysUntil stageDate ;;
      upcoming <- upcoming_stages farmName startDate rest ;;
      match days with
      | Some n =>
          if (0 <=? n) && (n <=? 3)
          then ret (mkUpcoming stage stageDate n farmName :: upcoming)
          else ret upcoming
      | None => ret upcoming
      end
  end.

(** [getUpcomingStages]. *)
Definition getUpcomingStages (farmInfo : option FarmDates) (stages : list Stage)
    : Async (list Upcoming) :=
  match farmInfo with
  | None => ret []
  | Some farmInfo =>
      if negb (truthy_str (fd_startDate farmInfo)) then ret [] else
      let startDate := default "" (fd_startDate farmInfo) in
      upcoming_stages (fd_name farmInfo) (Date_parse P startDate) stages
  end.

(** [shouldCheckToday], on the content of [localStorage].
    [toDateString] names the local calendar day, so two valid dates have
    the same one exactly when their local day numbers agree, and the
    invalid date has one of its own. *)
Definition shouldCheckToday (localStorage : gmap string string) : Async bool :=
  match localStorage !! "lastNotificationCheck" with
  | None => ret true
  | Some lastCheck =>
      if String.eqb lastCheck "" then ret true else
      now <- Date_now P ;;
      match Date_parse P lastCheck with
      | Some t =>
          ret (negb (Day (LocalTime (LocalTZA P) now)
                     =? Day (LocalTime (LocalTZA P) t)))
      | None => ret true
      end
  end.

(** [markCheckedToday]. *)
Definition markCheckedToday (localStorage : gmap string string)
    : Async (gmap string string) :=
  stamp <- now_ISO P ;;
  ret (<["lastNotificationCheck" := stamp]> localStorage).

End Reminders.

(** ** More sample data *)

(** A JSON codec that knows the number 12. *)
Definition twelve_parse (v : jsval) : option jsval :=
  match v with
  | JStr s => if String.eqb s "12" then Some (JNum 12) else None
  | _ => None
  end.

Definition twelve_stringify (v : jsval) : jsval :=
  match v with
  | JNum _ => JStr "12"
  | JUndef => JUndef
  | _ => JStr "null"
  end.

Definition manila_twelve : Platform :=
  mkPlatform ticking_clock manila_tza twelve_parse twelve_stringify strict_dates.

(** An expense whose id starts with [expense], next to one whose id does
    not. *)
Definition expense_key_db : DB :=
  mkDB ∅ ∅
    (<[ "expense1" := expense "expense1" None ]> {[ "e2" := expense "e2" None ]}) ∅.

(** A backup with one farm and two expenses, and one whose second expense
    has no id. *)
Definition sample_backup : Backup :=
  mkBackup (JStr "1.0") (JStr "2025-11-02T01:01:01.042Z")
    (JStr "farm_1700000000000") (Some [plot_b])
    (Some [expense "e7" (Some "farm_1700000000000");
           expense "e8" (Some "farm_1700000000000")]).

Definition broken_backup : Backup :=
  mkBackup (JStr "1.0") (JStr "2025-11-02T01:01:01.042Z") JNull (Some [plot_b])
    (Some [expense "e7" (Some "farm_1700000000000");
           mkExpense None None (JStr "seeds") (JStr "inputs") (JNum 5) JUndef;
           expense "e9" None]).

(** ** The outcome of a restore *)

(** The records of a list, each with the key it is filed under. *)
Definition id_entries {V} (key_of : V → option string) (l : list V)
    : list (string * V) :=
  (λ v, (default "" (key_of v), v)) <$> l.

(** Filing the entries of a list in order: a later entry replaces an
    earlier one with the same key. *)
Definition put_entries {V} (l : list (string * V)) (m : gmap string V)
    : gmap string V :=
  foldl (λ m' p, <[p.1 := p.2]> m') m l.

(** The database after [importAllData] has run through a document whose
    farms and expenses all carry an id. *)
Definition restored (data : Backup) (d : DB) : DB :=
  mkDB (put_entries (id_entries farm_id (default [] (farms data))) ∅)
    (st_farmInfo d)
    (put_entries (id_entries exp_id (default [] (expenses data))) ∅)
    (if truthy (selectedFarmId data)
     then <["selectedFarmId" := selectedFarmId data]> (st_settings d)
     else st_settings d).


(** ** Sequences of calls *)

(** A call of one of the functions that [IndexedDBStorage] exports. *)
Inductive Call : Type :=
  | call_setItem (key : string) (value : jsval)
  | call_getItem (key : string)
  | call_removeItem (key : string)
  | call_clearStore (storeName : STORES)
  | call_getAllExpenses
  | call_saveExpense (expense : Expense)
  | call_deleteExpense (expenseId : option string)
  | call_getExpensesByCategory (category : string)
  | call_getExpensesByDateRange (startDate endDate : option Z)
  | call_getExpensesByFarm (farmId : string)
  | call_deleteExpensesByFarm (farmId : string)
  | call_getAllFarms
  | call_getFarm (farmId : string)
  | call_saveFarm (farm : Farm)
  | call_deleteFarm (farmId : string)
  | call_getSelectedFarmId
  | call_setSelectedFarmId (farmId : jsval)
  | call_markFarmCompleted (farmId : string)
  | call_markFarmActive (farmId : string)
  | call_getActiveFarms
  | call_getCompletedFarms
  | call_migrateLegacyData
  | call_exportAllData
  | call_importAllData (data : option Backup)
  | call_saveTaskCompletion (farmId : string) (stageIndex taskIndex : Z)
      (scheduledDate completedDate : string)
  | call_getTaskCompletions (farmId : string)
  | call_deleteTaskCompletion (farmId : string) (stageIndex taskIndex : Z).

(** The world after an operation has settled, resolved or rejected. *)
Definition settle {A} (m : Async A) (w : World) : World := (m w).2.

Definition perform (P : Platform) (c : Call) : World → World :=
  match c with
  | call_setItem key value => settle (setItem P key value)
  | call_getItem key => settle (getItem P key)
  | call_removeItem key => settle (removeItem key)
  | call_clearStore storeName => settle (clearStore storeName)
  | call_getAllExpenses => settle getAllExpenses
  | call_saveExpense expense => settle (saveExpense expense)
  | call_deleteExpense expenseId => settle (deleteExpense expenseId)
  | call_getExpensesByCategory category => settle (getExpensesByCategory category)
  | call_getExpensesByDateRange startDate endDate =>
      settle (getExpensesByDateRange startDate endDate)
  | call_getExpensesByFarm farmId => settle (getExpensesByFarm farmId)
  | call_deleteExpensesByFarm farmId => settle (deleteExpensesByFarm farmId)
  | call_getAllFarms => settle getAllFarms
  | call_getFarm farmId => settle (getFarm farmId)
  | call_saveFarm farm => settle (saveFarm P farm)
  | call_deleteFarm farmId => settle (deleteFarm farmId)
  | call_getSelectedFarmId => settle getSelectedFarmId
  | call_setSelectedFarmId farmId => settle (setSelectedFarmId farmId)
  | call_markFarmCompleted farmId => settle (markFarmCompleted P farmId)
  | call_markFarmActive farmId => settle (markFarmActive P farmId)
  | call_getActiveFarms => settle getActiveFarms
  | call_getCompletedFarms => settle getCompletedFarms
  | call_migrateLegacyData => settle (migrateLegacyData P)
  | call_exportAllData => settle (exportAllData P)
  | call_importAllData data => settle (importAllData P data)
  | call_saveTaskCompletion farmId stageIndex taskIndex scheduledDate completedDate =>
      settle (saveTaskCompletion P farmId stageIndex taskIndex scheduledDate completedDate)
  | call_getTaskCompletions farmId => settle (getTaskCompletions farmId)
  | call_deleteTaskCompletion farmId stageIndex taskIndex =>
      settle (deleteTaskCompletion P farmId stageIndex taskIndex)
  end.

(** The calls of a list, one after the other. *)
Definition run_calls (P : Platform) (calls : list Call) (w : World) : World :=
  foldl (λ w c, perform P c w) w calls.

(** The calls that only read. *)
Definition reads (c : Call) : bool :=
  match c with
  | call_getItem _ | call_getAllExpenses | call_getExpensesByCategory _
  | call_getExpensesByDateRange _ _ | call_getExpensesByFarm _ | call_getAllFarms
  | call_getFarm _ | call_getSelectedFarmId | call_getActiveFarms
  | call_getCompletedFarms | call_getTaskCompletions _ | call_exportAllData => true
  | _ => false
  end.

(** * Properties *)

(** ** The model on concrete inputs *)

Example toISOString_ex : toISOString 1741564800000 = "2025-03-10T00:00:00.000Z".
Proof. vm_compute. reflexivity. Qed.

Example Date_parse_date_only : Date_parse manila "2025-03-10" = Some 1741564800000.
Proof. vm_compute. reflexivity. Qed.

Example Date_parse_timestamp :
  Date_parse manila "2025-11-02T01:01:01.042Z" = Some 1762045261042.
Proof. vm_compute. reflexivity. Qed.

(** The shorter forms: without milliseconds, without seconds, year and
    month only, the year only, an expanded year, an offset. *)
Example Date_parse_short_forms :
  Date_parse manila "2025-07-01T00:00:00Z" = Some 1751328000000
  ∧ Date_parse manila "2025-07-01T12:30Z" = Some 1751373000000
  ∧ Date_parse manila "2025-07" = Some 1751328000000
  ∧ Date_parse manila "2025" = Some 1735689600000
  ∧ Date_parse manila "+002025-03-10" = Some 1741564800000
  ∧ Date_parse manila "2025-03-10T10:00:00+05:30" = Some 1741581000000.
Proof. vm_compute. repeat split. Qed.

(** The delay is computed for every such form. *)
Example compute_delayDays_short_forms :
  compute_delayDays manila "2025-03-10T00:00:00Z" "2025-03-13T08:00:00Z" = Some 3
  ∧ compute_delayDays manila "2025-03-10T09:30" "2025-03-10T23:59:59" = Some 0.
Proof. vm_compute. repeat split. Qed.

(** A date-time form without offset is local time: 10:00 in Manila is
    02:00 UTC, and 10:00 in New York on March 10 is 14:00 UTC. *)
Example Date_parse_local_time :
  Date_parse manila "2025-03-10T10:00" = Some 1741572000000
  ∧ Date_parse new_york "2025-03-10T10:00:00" = Some 1741615200000.
Proof. vm_compute. repeat split. Qed.

Example getStoreName_ex :
  getStoreName "farmInfo" = FARM_INFO ∧ getStoreName "expenseData" = EXPENSES
  ∧ getStoreName "expenses_2025" = EXPENSES ∧ getStoreName "exp" = SETTINGS
  ∧ getStoreName "notificationSettings" = SETTINGS.
Proof. repeat split. Qed.

Example getExpensesByFarm_ex :
  (getExpensesByFarm "farm_1700000000000" (mkWorld sample_db 0)).1
  = Resolved [expense "e1" (Some "farm_1700000000000");
              expense "e2" (Some "farm_1700000000000")].
Proof. vm_compute. reflexivity. Qed.

(** ** Maps and [getAll] *)

Section Entries.
Context {V : Type}.
Implicit Types (m : gmap string V) (l : list (string * V)).

Lemma sorted_entries_perm m : sorted_entries m ≡ₚ map_to_list m.
Proof. apply merge_sort_Permutation. Qed.

Lemma getAll_entries m : getAll m = (sorted_entries m).*2.
Proof. reflexivity. Qed.

Lemma elem_of_sorted_entries m k v : (k, v) ∈ sorted_entries m ↔ m !! k = Some v.
Proof. rewrite sorted_entries_perm. apply elem_of_map_to_list. Qed.

Lemma NoDup_sorted_keys m : NoDup (sorted_entries m).*1.
Proof. rewrite sorted_entries_perm. apply NoDup_fst_map_to_list. Qed.

Lemma list_to_map_sorted m : list_to_map (sorted_entries m) = m.
Proof.
  rewrite <- (list_to_map_to_list m) at 2.
  apply list_to_map_proper; [apply NoDup_sorted_keys | apply sorted_entries_perm].
Qed.

Lemma elem_of_getAll m v : v ∈ getAll m ↔ ∃ k, m !! k = Some v.
Proof.
  rewrite getAll_entries, list_elem_of_fmap. split.
  - intros [[k v'] [-> Hin]]. exists k. by apply elem_of_sorted_entries.
  - intros [k Hk]. exists (k, v). split; [done | by apply elem_of_sorted_entries].
Qed.

(** Writing the entries of a list one after the other, some of them
    changed on the way. *)
Lemma foldl_upd_lookup (c : V → bool) (g : V → V) l m k :
  NoDup l.*1 →
  foldl (λ m' p, if c p.2 then <[p.1 := g p.2]> m' else m') m l !! k
  = match (list_to_map l : gmap string V) !! k with
    | Some v => if c v then Some (g v) else m !! k
    | None => m !! k
    end.
Proof.
  revert m. induction l as [|[k0 v0] l IH]; intros m Hnd; simpl.
  - by rewrite lookup_empty.
  - inversion Hnd as [|? ? Hnotin Hnd']; subst. rewrite IH by done.
    destruct (decide (k0 = k)) as [->|Hne].
    + rewrite lookup_insert_eq.
      rewrite (not_elem_of_list_to_map_1 _ k) by done.
      destruct (c v0); [by rewrite lookup_insert_eq | done].
    + rewrite lookup_insert_ne by done.
      destruct (list_to_map l !! k) as [v|] eqn:E.
      * destruct (c v); [done|]. destruct (c v0); [by rewrite lookup_insert_ne | done].
      * destruct (c v0); [by rewrite lookup_insert_ne | done].
Qed.

Lemma foldl_delete_lookup l m k :
  foldl (λ m' p, delete p.1 m') m l !! k
  = if decide (k ∈ l.*1) then None else m !! k.
Proof.
  revert m. induction l as [|[k0 v0] l IH]; intros m.
  - rewrite decide_False; [done | apply not_elem_of_nil].
  - cbn [foldl]. rewrite IH, fmap_cons. cbn [fst].
    destruct (decide (k0 = k)) as [->|Hne].
    + rewrite lookup_delete_eq, (decide_True (P := k ∈ k :: l.*1)) by left.
      by destruct (decide (k ∈ l.*1)).
    + rewrite lookup_delete_ne by done.
      destruct (decide (k ∈ l.*1)) as [H1|H1].
      * rewrite decide_True; [done | by right].
      * rewrite decide_False; [done|].
        intros [?|?]%elem_of_cons; [congruence | done].
Qed.

End Entries.

(** ** How the operations run *)

Lemma with_db_id w : with_db (db w) w = w.
Proof. by destruct w. Qed.

Lemma with_farms_id d : with_farms (st_farms d) d = d.
Proof. by destruct d. Qed.

Lemma with_expenses_id d : with_expenses (st_expenses d) d = d.
Proof. by destruct d. Qed.

Lemma with_settings_id d : with_settings (st_settings d) d = d.
Proof. by destruct d. Qed.

Lemma truthy_str_Some k : k ≠ "" → truthy_str (Some k) = true.
Proof.
  intros Hk. unfold truthy_str. destruct (String.eqb_spec k ""); [done | reflexivity].
Qed.

Lemma truthy_str_true o : truthy_str o = true → ∃ k, o = Some k ∧ k ≠ "".
Proof.
  destruct o as [k|]; [|done]. unfold truthy_str.
  destruct (String.eqb_spec k ""); [done|]. intros _. by exists k.
Qed.

Lemma farm_id_nonempty (t : Z) : "farm_" +:+ pretty t ≠ "".
Proof. done. Qed.

Lemma farm_id_inj (t1 t2 : Z) :
  "farm_" +:+ pretty t1 = "farm_" +:+ pretty t2 → t1 = t2.
Proof. intros H. simpl in H. injection H as H. by apply (inj pretty). Qed.

Lemma bind_resolved {A B} (m : Async A) (k : A → Async B) w a w' :
  m w = (Resolved a, w') → bind m k w = k a w'.
Proof. intros H. unfold bind. by rewrite H. Qed.

Lemma bind_rejected {A B} (m : Async A) (k : A → Async B) w e w' :
  m w = (Rejected e, w') → bind m k w = (Rejected e, w').
Proof. intros H. unfold bind. by rewrite H. Qed.

(** Run the first operation of a sequence, given how it resolves. *)
Ltac run_by tac := erewrite bind_resolved by (tac).
Ltac run := run_by ltac:(reflexivity).

Section Runs.
Context (P : Platform).

Lemma saveFarm_kept farm k w :
  farm_id farm = Some k → k ≠ "" →
  saveFarm P farm w
  = (Resolved (Some k), with_db (with_farms (<[k := farm]> (st_farms (db w))) (db w)) w).
Proof.
  intros Hid Hk. unfold saveFarm, bind.
  rewrite Hid, (truthy_str_Some k Hk). simpl.
  unfold put_inline. by rewrite Hid.
Qed.

Lemma saveFarm_fresh farm w :
  truthy_str (farm_id farm) = false →
  saveFarm P farm w
  = (Resolved (Some ("farm_" +:+ pretty (clock P (ticks w)))),
     mkWorld (with_farms (<["farm_" +:+ pretty (clock P (ticks w))
                             := set_id (Some ("farm_" +:+ pretty (clock P (ticks w)))) farm]>
                            (st_farms (db w))) (db w))
             (S (ticks w))).
Proof. intros Hid. unfold saveFarm, bind. rewrite Hid. reflexivity. Qed.

Lemma saveExpense_run e k w :
  exp_id e = Some k →
  saveExpense e w
  = (Resolved tt, with_db (with_expenses (<[k := e]> (st_expenses (db w))) (db w)) w).
Proof. intros Hid. unfold saveExpense, bind, put_inline. simpl. by rewrite Hid. Qed.

Lemma now_ISO_run w :
  now_ISO P w = (Resolved (toISOString (clock P (ticks w))), mkWorld (db w) (S (ticks w))).
Proof. reflexivity. Qed.

(** A loop whose body always resolves and only rewrites the database. *)
Lemma for_of_fold {V} (l : list (string * V)) (body : V → Async unit)
    (step : string * V → DB → DB) w :
  (∀ p w', p ∈ l → body p.2 w' = (Resolved tt, with_db (step p (db w')) w')) →
  for_of l.*2 body w = (Resolved tt, with_db (foldl (λ d p, step p d) (db w) l) w).
Proof.
  revert w. induction l as [|p l IH]; intros w Hbody.
  - simpl. unfold ret. by rewrite with_db_id.
  - rewrite fmap_cons. cbn [for_of foldl]. unfold bind.
    rewrite Hbody by left. rewrite IH by (intros; apply Hbody; by right).
    by destruct w.
Qed.

Lemma foldl_with_farms (l : list (string * Farm))
    (f : string * Farm → gmap string Farm → gmap string Farm) d :
  foldl (λ d p, with_farms (f p (st_farms d)) d) d l
  = with_farms (foldl (λ m p, f p m) (st_farms d) l) d.
Proof.
  revert d. induction l as [|p l IH]; intros d; simpl.
  - by rewrite with_farms_id.
  - rewrite IH. by destruct d.
Qed.

Lemma foldl_with_expenses (l : list (string * Expense))
    (f : string * Expense → gmap string Expense → gmap string Expense) d :
  foldl (λ d p, with_expenses (f p (st_expenses d)) d) d l
  = with_expenses (foldl (λ m p, f p m) (st_expenses d) l) d.
Proof.
  revert d. induction l as [|p l IH]; intros d; simpl.
  - by rewrite with_expenses_id.
  - rewrite IH. by destruct d.
Qed.

End Runs.

(** ** Farms of a well-formed database *)

Lemma db_ok_farm d k farm :
  db_ok d → st_farms d !! k = Some farm → farm_id farm = Some k ∧ k ≠ "".
Proof.
  intros (Hkey & Hne & _) Hk. split.
  - by apply (Hkey k farm).
  - by apply (Hne k farm).
Qed.

Section Marking.
Context (P : Platform).

Lemma markFarmCompleted_run w fid farm :
  db_ok (db w) → st_farms (db w) !! fid = Some farm →
  markFarmCompleted P fid w
  = (Resolved tt,
     mkWorld (with_farms
                (<[fid := set_updatedAt (Some (toISOString (clock P (S (ticks w)))))
                            (set_completedDate (Some (toISOString (clock P (ticks w))))
                               (set_completed (Some true) farm))]>
                   (st_farms (db w))) (db w))
             (S (S (ticks w)))).
Proof.
  intros Hok Hf. destruct (db_ok_farm _ _ _ Hok Hf) as [Hid Hne].
  unfold markFarmCompleted, bind at 1. unfold getFarm, bind at 1, read_db, ret at 1.
  rewrite Hf. unfold bind at 1. rewrite now_ISO_run.
  unfold bind at 1. rewrite now_ISO_run. unfold bind.
  erewrite saveFarm_kept; [reflexivity | exact Hid | exact Hne].
Qed.

Lemma markFarmActive_run w fid farm :
  db_ok (db w) → st_farms (db w) !! fid = Some farm →
  markFarmActive P fid w
  = (Resolved tt,
     mkWorld (with_farms
                (<[fid := set_updatedAt (Some (toISOString (clock P (ticks w))))
                            (set_completedDate None (set_completed (Some false) farm))]>
                   (st_farms (db w))) (db w))
             (S (ticks w))).
Proof.
  intros Hok Hf. destruct (db_ok_farm _ _ _ Hok Hf) as [Hid Hne].
  unfold markFarmActive, bind at 1. unfold getFarm, bind at 1, read_db, ret at 1.
  rewrite Hf. unfold bind at 1. rewrite now_ISO_run. unfold bind.
  erewrite saveFarm_kept; [reflexivity | exact Hid | exact Hne].
Qed.

Lemma markFarm_not_found w fid :
  st_farms (db w) !! fid = None →
  markFarmCompleted P fid w = (Rejected NotFound, w)
  ∧ markFarmActive P fid w = (Rejected NotFound, w).
Proof.
  intros Hf. unfold markFarmCompleted, markFarmActive, getFarm, bind, read_db, ret.
  by rewrite Hf.
Qed.

End Marking.

(** Saving a record under its own key keeps the database well formed. *)
Lemma db_ok_insert_farm d k farm :
  db_ok d → farm_id farm = Some k → k ≠ "" →
  db_ok (with_farms (<[k := farm]> (st_farms d)) d).
Proof.
  intros (Hkey & Hne & Hexp) Hid Hk. repeat split; simpl.
  - by apply map_Forall_insert_2.
  - by apply map_Forall_insert_2.
  - done.
Qed.

(** ** ISO timestamps can be read back *)

Lemma civil_from_days_inv z y m d :
  civil_from_days z = (y, m, d) →
  days_from_civil y m d = z ∧ 1 <= m <= 12 ∧ 1 <= d <= DaysInMonth y m
  ∧ (-719528 <= z < 2932897 → 0 <= y <= 9999).
Proof.
  unfold civil_from_days, days_from_civil. cbv zeta.
  remember (z + 719468) as zz eqn:Ezz.
  remember (zz / 146097) as era eqn:Eera.
  remember (zz - era * 146097) as doe eqn:Edoe.
  assert (Hdoe : 0 <= doe < 146097) by (subst doe era; Z.div_mod_to_equations; lia).
  remember ((doe - doe / 1460 + doe / 36524 - doe / 146096) / 365) as yoe eqn:Eyoe.
  assert (Hyoe : 0 <= yoe <= 399) by (subst yoe; Z.div_mod_to_equations; lia).
  remember (doe - (365 * yoe + yoe / 4 - yoe / 100)) as doy eqn:Edoy.
  assert (Hdoy : 0 <= doy <= 365) by (subst doy yoe; Z.div_mod_to_equations; lia).
  assert (Hleap : doy = 365 → yoe mod 4 = 3 ∧ (yoe mod 100 ≠ 99 ∨ yoe = 399)).
  { subst doy yoe. Z.div_mod_to_equations. lia. }
  assert (Hlo : era = -1 → -60 <= zz → yoe = 399 ∧ 306 <= doy).
  { subst doy yoe. Z.div_mod_to_equations. lia. }
  assert (Hhi : era = 24 → zz < 3652365 → yoe < 399 ∨ (yoe = 399 ∧ doy < 306)).
  { subst doy yoe. Z.div_mod_to_equations. lia. }
  assert (Hrange : -60 <= zz < 3652365 → -1 <= era <= 24).
  { subst era. Z.div_mod_to_equations. lia. }
  clear Eyoe.
  remember ((5 * doy + 2) / 153) as mp eqn:Emp.
  assert (Hmp : 0 <= mp <= 11) by (subst mp; Z.div_mod_to_equations; lia).
  assert (Hmp10 : 306 <= doy ↔ 10 <= mp) by (subst mp; Z.div_mod_to_equations; lia).
  remember (doy - (153 * mp + 2) / 5 + 1) as dd eqn:Ed.
  assert (Hd : 1 <= dd <= 31) by (subst dd mp; Z.div_mod_to_equations; lia).
  assert (Hdoy2 : (153 * mp + 2) / 5 + dd - 1 = doy) by (subst dd; lia).
  assert (Hera : (yoe + era * 400) / 400 = era) by (Z.div_mod_to_equations; lia).
  remember (if mp <? 10 then mp + 3 else mp - 9) as m' eqn:Em.
  assert (Hm : (mp < 10 ∧ m' = mp + 3) ∨ (10 <= mp ∧ m' = mp - 9))
    by (subst m'; destruct (Z.ltb_spec mp 10); lia).
  clear Em.
  remember (if m' <=? 2 then yoe + era * 400 + 1 else yoe + era * 400) as y' eqn:Ey.
  assert (Hy : (m' <= 2 ∧ y' = yoe + era * 400 + 1) ∨ (2 < m' ∧ y' = yoe + era * 400))
    by (subst y'; destruct (Z.leb_spec m' 2); lia).
  clear Ey.
  intros [= <- <- <-].
  split; [|split; [|split]].
  - destruct (Z.leb_spec m' 2), (Z.ltb_spec 2 m'); try lia.
    + replace (y' - 1) with (yoe + era * 400) by lia. rewrite Hera.
      replace (yoe + era * 400 - era * 400) with yoe by lia.
      replace (m' + 9) with mp by lia. rewrite Hdoy2. lia.
    + replace y' with (yoe + era * 400) by lia. rewrite Hera.
      replace (yoe + era * 400 - era * 400) with yoe by lia.
      replace (m' - 3) with mp by lia. rewrite Hdoy2. lia.
  - lia.
  - split; [lia|].
    unfold DaysInMonth, is_leap.
    destruct (Z.eqb_spec m' 2) as [E2|N2].
    + assert (mp = 11) by lia.
      assert (Hd29 : dd <= 29) by (subst dd mp; Z.div_mod_to_equations; lia).
      assert (Hd29' : dd = 29 → doy = 365) by (subst dd; Z.div_mod_to_equations; lia).
      destruct (Z.eq_dec dd 29) as [E29|N29].
      * destruct (Hleap (Hd29' E29)) as [H4 H100].
        assert (y' mod 4 = 0) by (Z.div_mod_to_equations; lia).
        assert (y' mod 100 ≠ 0 ∨ y' mod 400 = 0) by (Z.div_mod_to_equations; lia).
        replace (y' mod 4 =? 0) with true by (symmetry; apply Z.eqb_eq; lia).
        destruct (Z.eqb_spec (y' mod 100) 0), (Z.eqb_spec (y' mod 400) 0); cbn; lia.
      * destruct ((y' mod 4 =? 0) && negb (y' mod 100 =? 0) || (y' mod 400 =? 0)); lia.
    + destruct (Z.eqb_spec m' 4), (Z.eqb_spec m' 6), (Z.eqb_spec m' 9), (Z.eqb_spec m' 11);
        cbn [orb]; try lia; subst dd; Z.div_mod_to_equations; lia.
  - intros Hz. assert (Hzz : -60 <= zz < 3652365) by lia.
    specialize (Hrange Hzz).
    assert (era ≠ -1 ∨ 10 <= mp) by (destruct (Z.eq_dec era (-1)) as [He|]; [destruct (Hlo He); lia | lia]).
    assert (era = 24 → yoe < 399 ∨ mp < 10).
    { intros He. destruct (Hhi He) as [?|[? ?]]; lia. }
    lia.
Qed.

Lemma digit_digit_char d : 0 <= d <= 9 → digit (digit_char d) = Some d.
Proof.
  intros Hd.
  assert (d = 0 ∨ d = 1 ∨ d = 2 ∨ d = 3 ∨ d = 4 ∨ d = 5 ∨ d = 6 ∨ d = 7 ∨ d = 8 ∨ d = 9)
    as [->|[->|[->|[->|[->|[->|[->|[->|[->| ->]]]]]]]]] by lia; reflexivity.
Qed.

Lemma number_app l1 l2 acc :
  number acc (l1 ++ l2) = number acc l1 ≫= λ a, number a l2.
Proof.
  revert acc. induction l1 as [|c l1 IH]; intros acc; simpl; [done|].
  destruct (digit c); [apply IH | done].
Qed.

Lemma number_digits w n acc :
  0 <= n < 10 ^ Z.of_nat w →
  number acc (digits w n) = Some (acc * 10 ^ Z.of_nat w + n).
Proof.
  revert n acc. induction w as [|w IH]; intros n acc Hn.
  - simpl in *. f_equal. lia.
  - rewrite Nat2Z.inj_succ, Z.pow_succ_r in * by lia.
    cbn [digits]. rewrite number_app, IH by (Z.div_mod_to_equations; lia).
    cbn. rewrite digit_digit_char by (Z.div_mod_to_equations; lia).
    f_equal. Z.div_mod_to_equations. lia.
Qed.

Lemma MakeDay_civil z y m d :
  civil_from_days z = (y, m, d) → MakeDay y m d = Some z.
Proof.
  intros H. destruct (civil_from_days_inv _ _ _ _ H) as (Hz & Hm & Hd & _).
  unfold MakeDay.
  replace (1 <=? m) with true by (symmetry; apply Z.leb_le; lia).
  replace (m <=? 12) with true by (symmetry; apply Z.leb_le; lia).
  replace (1 <=? d) with true by (symmetry; apply Z.leb_le; lia).
  replace (d <=? DaysInMonth y m) with true by (symmetry; apply Z.leb_le; lia).
  simpl. by rewrite Hz.
Qed.

Lemma MakeTime_within_day r :
  0 <= r < msPerDay →
  MakeTime (r / 3600000) (r / 60000 mod 60) (r / 1000 mod 60) (r mod 1000) = Some r.
Proof.
  unfold msPerDay. intros Hr. unfold MakeTime.
  replace (r / 3600000 <=? 23) with true
    by (symmetry; apply Z.leb_le; Z.div_mod_to_equations; lia).
  replace (r / 60000 mod 60 <=? 59) with true
    by (symmetry; apply Z.leb_le; Z.div_mod_to_equations; lia).
  replace (r / 1000 mod 60 <=? 59) with true
    by (symmetry; apply Z.leb_le; Z.div_mod_to_equations; lia).
  cbn [andb orb]. f_equal. Z.div_mod_to_equations. lia.
Qed.

Lemma append_String c s s' : String c s +:+ s' = String c (s +:+ s').
Proof. reflexivity. Qed.

Lemma append_empty s : "" +:+ s = s.
Proof. reflexivity. Qed.

Lemma TimeClip_in_range t :
  -8640000000000000 <= t <= 8640000000000000 → TimeClip t = Some t.
Proof.
  intros Ht. unfold TimeClip.
  destruct (Z.leb_spec (Z.abs t) 8640000000000000); [done | lia].
Qed.

(** A timestamp written by [toISOString] is read back by [new Date] as the
    time value it was written from, in every time zone. *)
Lemma Date_Time_String_Format_toISOString tza t :
  four_digit_year t → Date_Time_String_Format tza (toISOString t) = Some t.
Proof.
  unfold four_digit_year. intros Ht.
  assert (HDay : -719528 <= Day t < 2932897)
    by (unfold Day, msPerDay; Z.div_mod_to_equations; lia).
  assert (Hr : 0 <= TimeWithinDay t < msPerDay)
    by (unfold TimeWithinDay, msPerDay; Z.div_mod_to_equations; lia).
  assert (Ht' : t = Day t * msPerDay + TimeWithinDay t)
    by (unfold Day, TimeWithinDay, msPerDay; Z.div_mod_to_equations; lia).
  unfold toISOString.
  destruct (civil_from_days (Day t)) as [[y m] d] eqn:Ec.
  destruct (civil_from_days_inv _ _ _ _ Ec) as (_ & Hm & Hd & Hy).
  specialize (Hy HDay).
  assert (Hd31 : d <= 31).
  { unfold DaysInMonth in Hd.
    destruct (m =? 2); [destruct (is_leap y); lia|].
    destruct ((m =? 4) || (m =? 6) || (m =? 9) || (m =? 11)); lia. }
  replace (0 <=? y) with true by (symmetry; apply Z.leb_le; lia).
  replace (y <=? 9999) with true by (symmetry; apply Z.leb_le; lia).
  cbn [andb]. generalize dependent (TimeWithinDay t). intros r Hr Ht'.
  pose proof (number_digits 4 y 0) as Ny.
  pose proof (number_digits 2 m 0) as Nm.
  pose proof (number_digits 2 d 0) as Nd.
  pose proof (number_digits 2 (r / 3600000) 0) as Nh.
  pose proof (number_digits 2 (r / 60000 mod 60) 0) as Nmi.
  pose proof (number_digits 2 (r / 1000 mod 60) 0) as Ns.
  pose proof (number_digits 3 (r mod 1000) 0) as Nms.
  rewrite Z.mul_0_l, Z.add_0_l in Ny, Nm, Nd, Nh, Nmi, Ns, Nms.
  unfold msPerDay in Hr.
  unfold Date_Time_String_Format, pad.
  cbn [digits app string_of_list_ascii] in *.
  repeat (rewrite append_String || rewrite append_empty).
  cbn [list_ascii_of_string].
  unfold parse_date. rewrite Ny by (simpl; lia).
  unfold parse_month_day. rewrite Nm, Nd by (simpl; lia).
  rewrite (MakeDay_civil _ _ _ _ Ec). cbn [fmap option_fmap option_map].
  unfold parse_time.
  rewrite Nh, Nmi, Ns, Nms by (simpl; Z.div_mod_to_equations; lia).
  rewrite MakeTime_within_day by (unfold msPerDay; lia).
  cbn [fmap option_fmap option_map parse_zone].
  rewrite Z.sub_0_r, <- Ht'. apply TimeClip_in_range. lia.
Qed.

Lemma Date_parse_toISOString (P : Platform) t :
  four_digit_year t → Date_parse P (toISOString t) = Some t.
Proof.
  intros Ht. unfold Date_parse. by rewrite Date_Time_String_Format_toISOString.
Qed.

Lemma Date_lt_toISOString (P : Platform) t1 t2 :
  four_digit_year t1 → four_digit_year t2 →
  (Date_lt P (toISOString t1) (toISOString t2) ↔ t1 < t2).
Proof.
  intros H1 H2. unfold Date_lt. by rewrite !Date_parse_toISOString.
Qed.

Lemma Date_lt_irrefl (P : Platform) s : ¬ Date_lt P s s.
Proof. unfold Date_lt. destruct (Date_parse P s); simpl; [lia | tauto]. Qed.

(** ** Restore refuses a document without version tag *)

Lemma importAllData_falsy_version (P : Platform) (d : Backup) (w : World) :
  truthy (version d) = false →
  importAllData P (Some d) w = (Rejected InvalidFormat, w).
Proof. intros Hv. unfold importAllData. by rewrite Hv. Qed.

(** C2. For every store state and every document that is null or has no
    [version] field, [importAllData] rejects with the invalid-format error
    and the world is the one it started in: nothing was cleared or
    written. *)
Theorem importAllData_invalid_format (P : Platform) (data : option Backup) (w : World) :
  (data = None ∨ ∃ d, data = Some d ∧ version d = JUndef) →
  importAllData P data w = (Rejected InvalidFormat, w).
Proof.
  intros [-> | (d & -> & Hv)].
  - reflexivity.
  - apply importAllData_falsy_version. by rewrite Hv.
Qed.

Lemma importAllData_invalid_format_witness :
  importAllData manila
    (Some (mkBackup JUndef (JStr "2025-11-02T01:01:01.042Z") JNull
             (Some [plot_b]) (Some [])))
    (mkWorld sample_db 0)
  = (Rejected InvalidFormat, mkWorld sample_db 0).
Proof.
  apply importAllData_invalid_format. right.
  eexists. split; reflexivity.
Defined.

(** ** The key/value mode and the expenses store *)

Lemma getStoreName_expenses key :
  getStoreName key = EXPENSES
  ↔ key ≠ "farmInfo" ∧ (key = "expenseData" ∨ String.prefix "expense" key = true).
Proof.
  unfold getStoreName.
  destruct (String.eqb_spec key "farmInfo") as [->|Hne].
  - split; [done | by intros [? _]].
  - destruct (String.eqb_spec key "expenseData") as [->|Hne'].
    + simpl. split; [intros _; split; [done | by left] | done].
    + simpl. destruct (String.prefix "expense" key) eqn:E.
      * split; [intros _; split; [done | by right] | done].
      * split; [done | intros [_ [?|?]]; done].
Qed.

Lemma prefix_expense_not_farmInfo key :
  key = "expenseData" ∨ String.prefix "expense" key = true → key ≠ "farmInfo".
Proof. intros [->|H]; [done | intros ->; done]. Qed.

(** C10. For a key routed to the expenses store (the key [expenseData] or
    any key that begins with [expense]) and any value, [setItem] rejects:
    the expenses store keeps its records under the in-line key [id], and
    a put that brings its own key is a DataError there.  Nothing is
    written. *)
Theorem setItem_expense_key_rejected (P : Platform) (key : string) (value : jsval)
    (w : World) :
  key = "expenseData" ∨ String.prefix "expense" key = true →
  getStoreName key = EXPENSES ∧ setItem P key value w = (Rejected DataError, w).
Proof.
  intros Hkey.
  assert (Hs : getStoreName key = EXPENSES).
  { apply getStoreName_expenses. split; [by apply prefix_expense_not_farmInfo | done]. }
  split; [done|]. unfold setItem. by rewrite Hs.
Qed.

Lemma setItem_expense_key_rejected_witness :
  getStoreName "expenses_2025" = EXPENSES
  ∧ setItem manila "expenses_2025" (JNum 12) (mkWorld sample_db 0)
    = (Rejected DataError, mkWorld sample_db 0).
Proof. apply setItem_expense_key_rejected. right. reflexivity. Defined.

(** The other keys are stored. *)
Lemma setItem_other_key_resolves (P : Platform) (key : string) (value : jsval)
    (w : World) :
  getStoreName key ≠ EXPENSES →
  setItem P key value w
  = (Resolved tt,
     with_db (outofline_put (getStoreName key) key (JSON_stringify P value) (db w)) w).
Proof.
  intros Hs. unfold setItem, getStoreName in *.
  destruct (String.eqb key "farmInfo"); [reflexivity|].
  destruct (String.eqb key "expenseData" || String.prefix "expense" key); [done | reflexivity].
Qed.

(** ** Saving a farm *)

(** C6, as the code has it. [saveFarm] stores the record as it is passed
    and does not touch [updatedAt]; a missing or empty id is first replaced
    by [farm_] followed by the clock reading, which is not empty; fetching
    the returned id gives the passed record with that id; every other farm
    is left alone, so the id is new whenever no farm was stored under it. *)
Theorem saveFarm_stores_record (P : Platform) (farm : Farm) (w : World) :
  ∃ id w',
    saveFarm P farm w = (Resolved (Some id), w')
    ∧ id ≠ ""
    ∧ getFarm id w' = (Resolved (Some (set_id (Some id) farm)), w')
    ∧ farm_updatedAt (set_id (Some id) farm) = farm_updatedAt farm
    ∧ (if truthy_str (farm_id farm)
       then farm_id farm = Some id ∧ ticks w' = ticks w
       else id = "farm_" +:+ pretty (clock P (ticks w)) ∧ ticks w' = S (ticks w))
    ∧ (∀ k, k ≠ id → st_farms (db w') !! k = st_farms (db w) !! k)
    ∧ st_expenses (db w') = st_expenses (db w)
    ∧ st_settings (db w') = st_settings (db w)
    ∧ st_farmInfo (db w') = st_farmInfo (db w).
Proof.
  destruct (truthy_str (farm_id farm)) eqn:Hid.
  - destruct (truthy_str_true _ Hid) as (k & Hk & Hne).
    exists k. eexists. rewrite (saveFarm_kept P farm k w Hk Hne).
    split; [reflexivity|]. split; [done|].
    assert (set_id (Some k) farm = farm) as -> by (destruct farm; simpl in Hk; by subst).
    repeat split; try done.
    + unfold getFarm, bind, read_db, ret. simpl. by rewrite lookup_insert_eq.
    + intros k' Hk'. simpl. by rewrite lookup_insert_ne.
  - eexists. eexists. rewrite (saveFarm_fresh P farm w Hid).
    split; [reflexivity|]. split; [apply farm_id_nonempty|].
    repeat split; try done.
    + unfold getFarm, bind, read_db, ret. cbn [db st_farms with_farms].
      by rewrite lookup_insert_eq.
    + intros k' Hk'. cbn [db st_farms with_farms]. by rewrite lookup_insert_ne.
Qed.

(** C6 fails as stated.  A farm saved on 2025-11-02 keeps the [updatedAt]
    of 2025-02-01 it came with; and two farms saved without id within the
    same millisecond get the same id, the second replacing the first. *)
Lemma saveFarm_counterexample :
  let w0 := mkWorld empty_db 0 in
  (∃ w1 stored,
      saveFarm manila_fast plot_b w0 = (Resolved (Some "farm_1700000000000"), w1)
      ∧ st_farms (db w1) !! "farm_1700000000000" = Some stored
      ∧ farm_updatedAt stored = Some "2025-02-01T00:00:00.000Z"
      ∧ toISOString (clock manila_fast 0) = "2025-11-02T01:01:01.042Z")
  ∧ (∃ w1 w2,
      saveFarm manila_fast blank_farm w0 = (Resolved (Some "farm_1762045261042"), w1)
      ∧ saveFarm manila_fast (set_completed (Some true) blank_farm) w1
        = (Resolved (Some "farm_1762045261042"), w2)
      ∧ st_farms (db w2)
        = {[ "farm_1762045261042" :=
               set_id (Some "farm_1762045261042") (set_completed (Some true) blank_farm) ]}).
Proof.
  split.
  - eexists. eexists. split; [vm_compute; reflexivity|].
    split; [vm_compute; reflexivity|]. split; vm_compute; reflexivity.
  - eexists. eexists. split; [vm_compute; reflexivity|].
    split; [vm_compute; reflexivity|]. vm_compute. reflexivity.
Qed.

(** ** Completing and then reactivating a farm *)

(** C7, as the code has it. For a farm that exists, [markFarmCompleted]
    followed by [markFarmActive] leaves it with [completed] false and no
    [completedDate]; each call stamps [updatedAt] with its own reading of
    the clock, so the second stamp is later than the first exactly when
    the clock advanced between the two readings, and equal to it when both
    readings fall in the same millisecond.  For an id without farm both
    operations reject with the not-found error and change nothing. *)
Theorem markFarm_toggle (P : Platform) (w : World) (fid : string) :
  db_ok (db w) →
  match st_farms (db w) !! fid with
  | Some farm =>
      let t1 := clock P (S (ticks w)) in
      let t2 := clock P (S (S (ticks w))) in
      ∃ w1 w2 f1 f2,
        markFarmCompleted P fid w = (Resolved tt, w1)
        ∧ markFarmActive P fid w1 = (Resolved tt, w2)
        ∧ st_farms (db w1) !! fid = Some f1
        ∧ st_farms (db w2) !! fid = Some f2
        ∧ farm_completed f1 = Some true
        ∧ farm_completedDate f1 = Some (toISOString (clock P (ticks w)))
        ∧ farm_updatedAt f1 = Some (toISOString t1)
        ∧ f2 = set_updatedAt (Some (toISOString t2))
                 (set_completedDate None (set_completed (Some false) farm))
        ∧ farm_completed f2 = Some false
        ∧ farm_completedDate f2 = None
        ∧ farm_updatedAt f2 = Some (toISOString t2)
        ∧ (four_digit_year t1 → four_digit_year t2 →
           (Date_lt P (toISOString t1) (toISOString t2) ↔ t1 < t2))
        ∧ (t1 = t2 → farm_updatedAt f2 = farm_updatedAt f1)
  | None =>
      markFarmCompleted P fid w = (Rejected NotFound, w)
      ∧ markFarmActive P fid w = (Rejected NotFound, w)
  end.
Proof.
  intros Hok. destruct (st_farms (db w) !! fid) as [farm|] eqn:Hf.
  - intros t1 t2. destruct (db_ok_farm _ _ _ Hok Hf) as [Hid Hne].
    set (f1 := set_updatedAt (Some (toISOString t1))
                 (set_completedDate (Some (toISOString (clock P (ticks w))))
                    (set_completed (Some true) farm))).
    set (d1 := with_farms (<[fid := f1]> (st_farms (db w))) (db w)).
    set (w1 := mkWorld d1 (S (S (ticks w)))).
    assert (Hok1 : db_ok (db w1)).
    { apply db_ok_insert_farm; [done | | done]. by destruct farm. }
    assert (Hf1 : st_farms (db w1) !! fid = Some f1) by apply lookup_insert_eq.
    exists w1. eexists. exists f1. eexists.
    split; [by rewrite (markFarmCompleted_run P w fid farm Hok Hf)|].
    split; [by rewrite (markFarmActive_run P w1 fid f1 Hok1 Hf1)|].
    split; [done|].
    split; [apply lookup_insert_eq|].
    do 7 (split; [done|]). split.
    + intros Hy1 Hy2. by apply Date_lt_toISOString.
    + intros Ht. simpl. by rewrite Ht.
  - by apply markFarm_not_found.
Qed.

Lemma markFarm_toggle_witness :
  ∃ w1 w2 f2,
    markFarmCompleted manila "farm_1700000000000" (mkWorld sample_db 0) = (Resolved tt, w1)
    ∧ markFarmActive manila "farm_1700000000000" w1 = (Resolved tt, w2)
    ∧ st_farms (db w2) !! "farm_1700000000000" = Some f2
    ∧ farm_completed f2 = Some false
    ∧ farm_completedDate f2 = None
    ∧ farm_updatedAt f2 = Some "2025-11-02T01:01:01.044Z".
Proof.
  assert (Hok : db_ok (db (mkWorld sample_db 0)))
    by (apply (bool_decide_unpack _); vm_compute; exact I).
  pose proof (markFarm_toggle manila (mkWorld sample_db 0) "farm_1700000000000" Hok) as H.
  change (st_farms (db (mkWorld sample_db 0)) !! "farm_1700000000000")
    with (Some plot_b) in H.
  destruct H as (w1 & w2 & f1 & f2 & H1 & H2 & _ & H4 & _ & _ & _ & _ & H5 & H6 & H7 & _).
  exists w1, w2, f2. repeat split; try done.
Defined.

(** C7 fails as stated.  With three clock readings inside one millisecond
    the farm carries the same [updatedAt] after both calls. *)
Lemma markFarm_toggle_counterexample :
  let w0 := mkWorld sample_db 0 in
  ∃ w1 w2 f1 f2,
    markFarmCompleted manila_fast "farm_1700000000000" w0 = (Resolved tt, w1)
    ∧ markFarmActive manila_fast "farm_1700000000000" w1 = (Resolved tt, w2)
    ∧ st_farms (db w1) !! "farm_1700000000000" = Some f1
    ∧ st_farms (db w2) !! "farm_1700000000000" = Some f2
    ∧ farm_updatedAt f1 = Some "2025-11-02T01:01:01.042Z"
    ∧ farm_updatedAt f2 = Some "2025-11-02T01:01:01.042Z"
    ∧ ¬ Date_lt manila_fast "2025-11-02T01:01:01.042Z" "2025-11-02T01:01:01.042Z".
Proof.
  do 4 eexists.
  split; [vm_compute; reflexivity|].
  split; [vm_compute; reflexivity|].
  split; [vm_compute; reflexivity|].
  split; [vm_compute; reflexivity|].
  split; [reflexivity|]. split; [reflexivity|]. apply Date_lt_irrefl.
Qed.

(** ** Undoing a task completion *)

Lemma same_task_key si ti tc : same_task si ti tc = true ↔ task_key tc = (si, ti).
Proof.
  unfold same_task, task_key. rewrite andb_true_iff, !Z.eqb_eq.
  split; [intros [-> ->]; done | intros [= -> ->]; done].
Qed.

Lemma filter_none_matching si ti (l : list TaskCompletion) :
  (∀ tc, tc ∈ l → same_task si ti tc = false) →
  List.filter (λ tc, negb (same_task si ti tc)) l = l.
Proof.
  induction l as [|tc l IH]; intros H; simpl; [done|].
  rewrite (H tc) by left. simpl. f_equal. apply IH. intros tc' Hin. apply H. by right.
Qed.

Lemma set_taskCompletions_same farm l :
  farm_taskCompletions farm = Some l → set_taskCompletions (Some l) farm = farm.
Proof. destruct farm. simpl. by intros ->. Qed.

(** C9, as the code has it. When the farm has no completion for the pair,
    [deleteTaskCompletion] resolves; it writes nothing if the farm does not
    exist or has no [taskCompletions] list; otherwise it stores the farm
    again with the same [taskCompletions] and every other field as before,
    except [updatedAt], which becomes the current time. *)
Theorem deleteTaskCompletion_absent_pair (P : Platform) (w : World) (fid : string)
    (si ti : Z) :
  db_ok (db w) →
  (∀ farm l tc, st_farms (db w) !! fid = Some farm →
     farm_taskCompletions farm = Some l → tc ∈ l → same_task si ti tc = false) →
  ∃ w',
    deleteTaskCompletion P fid si ti w = (Resolved tt, w')
    ∧ match st_farms (db w) !! fid with
      | Some farm =>
          match farm_taskCompletions farm with
          | Some l =>
              let stored := set_updatedAt (Some (toISOString (clock P (ticks w)))) farm in
              db w' = with_farms (<[fid := stored]> (st_farms (db w))) (db w)
              ∧ getTaskCompletions fid w' = (Resolved l, w')
          | None => w' = w
          end
      | None => w' = w
      end.
Proof.
  intros Hok Habsent. unfold deleteTaskCompletion, getFarm, bind at 1 2, read_db, ret at 1.
  destruct (st_farms (db w) !! fid) as [farm|] eqn:Hf; [|by eexists].
  destruct (db_ok_farm _ _ _ Hok Hf) as [Hid Hne].
  destruct (farm_taskCompletions farm) as [l|] eqn:Hl; [|by eexists].
  rewrite filter_none_matching by (intros tc Hin; by apply (Habsent farm l)).
  rewrite (set_taskCompletions_same farm l Hl).
  unfold bind at 1. rewrite now_ISO_run. unfold bind.
  erewrite saveFarm_kept; [| by destruct farm | done].
  eexists. split; [reflexivity|]. split; [reflexivity|].
  unfold getTaskCompletions, getFarm, bind, read_db, ret. simpl.
  rewrite lookup_insert_eq. simpl. by rewrite Hl.
Qed.

Lemma deleteTaskCompletion_absent_pair_witness :
  ∃ w',
    deleteTaskCompletion manila "farm_1700000000000" 3 0 (mkWorld sample_db 0)
    = (Resolved tt, w')
    ∧ getTaskCompletions "farm_1700000000000" w'
      = (Resolved [mkTaskCompletion 0 1 "2025-02-03" "2025-02-04" (Some 1)
                     "2025-02-04T09:00:00.000Z"], w').
Proof.
  assert (Hok : db_ok (db (mkWorld sample_db 0)))
    by (apply (bool_decide_unpack _); vm_compute; exact I).
  destruct (deleteTaskCompletion_absent_pair manila (mkWorld sample_db 0)
              "farm_1700000000000" 3 0 Hok) as (w' & Hrun & H).
  { intros farm l tc Hf Hl Hin.
    change (st_farms (db (mkWorld sample_db 0)) !! "farm_1700000000000")
      with (Some plot_b) in Hf.
    injection Hf as <-. injection Hl as <-.
    apply list_elem_of_singleton in Hin as ->. reflexivity. }
  change (st_farms (db (mkWorld sample_db 0)) !! "farm_1700000000000")
    with (Some plot_b) in H.
  exists w'. split; [exact Hrun | exact (proj2 H)].
Defined.

(** C9 fails as stated.  The farm has one completion, for task (0, 1);
    undoing (3, 0), which it does not have, rewrites the farm with a new
    [updatedAt]. *)
Lemma deleteTaskCompletion_counterexample :
  let w0 := mkWorld sample_db 0 in
  ∃ w' stored,
    deleteTaskCompletion manila "farm_1700000000000" 3 0 w0 = (Resolved tt, w')
    ∧ st_farms (db w0) !! "farm_1700000000000" = Some plot_b
    ∧ farm_updatedAt plot_b = Some "2025-02-01T00:00:00.000Z"
    ∧ st_farms (db w') !! "farm_1700000000000" = Some stored
    ∧ farm_updatedAt stored = Some "2025-11-02T01:01:01.042Z"
    ∧ stored ≠ plot_b.
Proof.
  do 2 eexists.
  split; [vm_compute; reflexivity|].
  split; [vm_compute; reflexivity|].
  split; [reflexivity|].
  split; [vm_compute; reflexivity|].
  split; [reflexivity|]. discriminate.
Qed.

(** ** Task completions *)

Section Completions.
Context (P : Platform).

Lemma saveTaskCompletion_run w fid si ti sd cd farm :
  db_ok (db w) → st_farms (db w) !! fid = Some farm →
  saveTaskCompletion P fid si ti sd cd w
  = let c := mkTaskCompletion si ti sd cd (compute_delayDays P sd cd)
               (toISOString (clock P (ticks w))) in
    (Resolved c,
     mkWorld (with_farms
                (<[fid := set_updatedAt (Some (toISOString (clock P (S (ticks w)))))
                            (set_taskCompletions
                               (Some (upsert si ti c (default [] (farm_taskCompletions farm))))
                               farm)]>
                   (st_farms (db w))) (db w))
             (S (S (ticks w)))).
Proof.
  intros Hok Hf. destruct (db_ok_farm _ _ _ Hok Hf) as [Hid Hne].
  unfold saveTaskCompletion, getFarm, bind at 1 2, read_db, ret at 1.
  rewrite Hf. unfold bind at 1. rewrite now_ISO_run.
  unfold bind at 1. rewrite now_ISO_run. unfold bind.
  erewrite saveFarm_kept; [reflexivity | by destruct farm | done].
Qed.

Lemma saveTaskCompletion_not_found w fid si ti sd cd :
  st_farms (db w) !! fid = None →
  saveTaskCompletion P fid si ti sd cd w = (Rejected NotFound, w).
Proof.
  intros Hf. unfold saveTaskCompletion, getFarm, bind, read_db, ret. by rewrite Hf.
Qed.

Lemma setHours0_constant_offset off t :
  (∀ t b, LocalTZA P t b = off) →
  setHours0 (LocalTZA P) t = Day (t + off) * msPerDay - off.
Proof. intros H. unfold setHours0, UTC, LocalTime. by rewrite !H. Qed.

Lemma compute_delayDays_same_local_day sd cd ts tc :
  Date_parse P sd = Some ts → Date_parse P cd = Some tc →
  Day (LocalTime (LocalTZA P) ts) = Day (LocalTime (LocalTZA P) tc) →
  compute_delayDays P sd cd = Some 0.
Proof.
  intros Hs Hc Hday. unfold compute_delayDays, setHours0. rewrite Hs, Hc, Hday.
  f_equal. by rewrite Z.sub_diag.
Qed.

Lemma compute_delayDays_constant_offset off sd cd ts tc :
  (∀ t b, LocalTZA P t b = off) →
  Date_parse P sd = Some ts → Date_parse P cd = Some tc →
  compute_delayDays P sd cd = Some (Day (tc + off) - Day (ts + off)).
Proof.
  intros H Hs Hc. unfold compute_delayDays. rewrite Hs, Hc.
  rewrite !(setHours0_constant_offset off) by done. f_equal.
  unfold msPerDay, Day. Z.div_mod_to_equations. lia.
Qed.

Lemma compute_delayDays_examples off :
  (∀ t b, LocalTZA P t b = off) →
  compute_delayDays P "2025-03-10" "2025-03-13" = Some 3
  ∧ compute_delayDays P "2025-03-10" "2025-03-08" = Some (-2).
Proof.
  intros H. split.
  - rewrite (compute_delayDays_constant_offset off _ _ 1741564800000 1741824000000 H)
      by (vm_compute; reflexivity).
    f_equal. unfold Day, msPerDay. Z.div_mod_to_equations. lia.
  - rewrite (compute_delayDays_constant_offset off _ _ 1741564800000 1741392000000 H)
      by (vm_compute; reflexivity).
    f_equal. unfold Day, msPerDay. Z.div_mod_to_equations. lia.
Qed.

End Completions.

(** What [saveTaskCompletion] records in [delayDays]: the whole days
    between the local midnights of the two dates.  Two timestamps on the
    same local calendar day give 0, whatever the time of day and the time
    zone.  In a time zone with a constant offset from UTC the result is the
    number of local calendar days from the scheduled to the completed date:
    3 for 2025-03-10 and 2025-03-13, -2 for 2025-03-10 and 2025-03-08. *)
Lemma saveTaskCompletion_delayDays (P : Platform) (w : World) (fid : string)
    (si ti : Z) (sd cd : string) (farm : Farm) :
  db_ok (db w) → st_farms (db w) !! fid = Some farm →
  (∃ c w', saveTaskCompletion P fid si ti sd cd w = (Resolved c, w')
           ∧ delayDays c = compute_delayDays P sd cd)
  ∧ (∀ ts tc, Date_parse P sd = Some ts → Date_parse P cd = Some tc →
       compute_delayDays P sd cd
       = Some ((setHours0 (LocalTZA P) tc - setHours0 (LocalTZA P) ts) / msPerDay)
       ∧ (Day (LocalTime (LocalTZA P) ts) = Day (LocalTime (LocalTZA P) tc) →
          compute_delayDays P sd cd = Some 0)
       ∧ (∀ off, (∀ t b, LocalTZA P t b = off) →
          compute_delayDays P sd cd = Some (Day (tc + off) - Day (ts + off))))
  ∧ (∀ off, (∀ t b, LocalTZA P t b = off) →
       compute_delayDays P "2025-03-10" "2025-03-13" = Some 3
       ∧ compute_delayDays P "2025-03-10" "2025-03-08" = Some (-2)).
Proof.
  intros Hok Hf. split; [|split].
  - do 2 eexists. rewrite (saveTaskCompletion_run P w fid si ti sd cd farm Hok Hf).
    split; reflexivity.
  - intros ts tc Hs Hc. split; [|split].
    + unfold compute_delayDays. by rewrite Hs, Hc.
    + by apply compute_delayDays_same_local_day.
    + intros off H. by apply compute_delayDays_constant_offset.
  - apply compute_delayDays_examples.
Qed.

(** C5. The code misses the whole-day difference where a local day has 23
    hours.  In New York the clocks went forward on 2025-03-09: the dates
    2025-03-10 and 2025-03-13, read as UTC midnights, fall on the local
    days March 9 and March 12, whose midnights are 71 hours apart, and
    [saveTaskCompletion] records a delay of 2 where the days are 3 apart.
    Given as local times, noon of March 8 and noon of March 10 are two
    calendar days apart and the delay recorded is 1. *)
Theorem saveTaskCompletion_delayDays_new_york :
  setHours0 new_york_tza 1741564800000 = 1741496400000
  ∧ setHours0 new_york_tza 1741824000000 = 1741752000000
  ∧ 1741752000000 - 1741496400000 = 71 * msPerHour
  ∧ (∃ c w',
       saveTaskCompletion new_york "farm_1700000000000" 2 0 "2025-03-10" "2025-03-13"
         (mkWorld sample_db 0) = (Resolved c, w')
       ∧ delayDays c = Some 2)
  ∧ (∃ c w',
       saveTaskCompletion new_york "farm_1700000000000" 2 0
         "2025-03-08T12:00" "2025-03-10T12:00" (mkWorld sample_db 0) = (Resolved c, w')
       ∧ delayDays c = Some 1).
Proof.
  split; [vm_compute; reflexivity|]. split; [vm_compute; reflexivity|].
  split; [vm_compute; reflexivity|]. split.
  - do 2 eexists. split; [vm_compute; reflexivity|]. reflexivity.
  - do 2 eexists. split; [vm_compute; reflexivity|]. reflexivity.
Qed.

Lemma filter_none {A} (Q : A → Prop) `{!∀ x, Decision (Q x)} (l : list A) :
  (∀ x, x ∈ l → ¬ Q x) → filter Q l = [].
Proof.
  induction l as [|x l IH]; intros Hl; [done|].
  rewrite filter_cons_False by (apply Hl; left).
  apply IH. intros y Hy. apply Hl. by right.
Qed.

Section Upsert.
Context (si ti : Z) (c : TaskCompletion) (Hc : task_key c = (si, ti)).

Lemma upsert_cons x l :
  upsert si ti c (x :: l)
  = if same_task si ti x then c :: l else x :: upsert si ti c l.
Proof.
  unfold upsert. cbn [findIndex]. destruct (same_task si ti x); [reflexivity|].
  by destruct (findIndex (same_task si ti) l).
Qed.

Lemma keys_upsert l :
  task_key <$> upsert si ti c l
  = if decide ((si, ti) ∈ task_key <$> l) then task_key <$> l
    else ((task_key <$> l) ++ [(si, ti)])%list.
Proof using Hc.
  induction l as [|x l IH].
  - rewrite decide_False by apply not_elem_of_nil. cbn. by rewrite Hc.
  - rewrite upsert_cons, !fmap_cons.
    destruct (same_task si ti x) eqn:Ex.
    + apply same_task_key in Ex. rewrite decide_True by (rewrite Ex; left).
      by rewrite fmap_cons, Hc, Ex.
    + assert (task_key x ≠ (si, ti)) as Hx.
      { intros Hx. apply same_task_key in Hx. congruence. }
      rewrite fmap_cons, IH.
      destruct (decide ((si, ti) ∈ task_key <$> l)) as [Hin|Hin].
      * rewrite decide_True; [done | by right].
      * rewrite decide_False; [done|].
        intros [?|?]%elem_of_cons; [congruence | done].
Qed.

Lemma unique_upsert l : unique_tasks l → unique_tasks (upsert si ti c l).
Proof using Hc.
  unfold unique_tasks. intros Hl. rewrite keys_upsert.
  destruct (decide ((si, ti) ∈ task_key <$> l)) as [Hin|Hin]; [done|].
  apply NoDup_app. split; [done|]. split; [|apply NoDup_singleton].
  intros k Hk ->%list_elem_of_singleton. done.
Qed.

Lemma filter_upsert l :
  unique_tasks l →
  filter (λ tc, task_key tc = (si, ti)) (upsert si ti c l) = [c].
Proof using Hc.
  unfold unique_tasks. induction l as [|x l IH]; intros Hl.
  - cbn. by rewrite decide_True.
  - rewrite fmap_cons in Hl. apply NoDup_cons in Hl as [Hx Hl].
    rewrite upsert_cons. destruct (same_task si ti x) eqn:Ex.
    + apply same_task_key in Ex. rewrite filter_cons_True by done. f_equal.
      apply filter_none. intros tc Hin Htc.
      apply Hx. rewrite Ex, <- Htc. by apply list_elem_of_fmap_2.
    + rewrite filter_cons_False; [by apply IH|].
      intros Hk. apply same_task_key in Hk. congruence.
Qed.

Lemma filter_upsert_first l :
  filter (λ tc, task_key tc = (si, ti)) (upsert si ti c l)
  = c :: tail (filter (λ tc, task_key tc = (si, ti)) l).
Proof using Hc.
  induction l as [|x l IH].
  - cbn. by rewrite decide_True.
  - rewrite upsert_cons. destruct (same_task si ti x) eqn:Ex.
    + apply same_task_key in Ex. by rewrite !filter_cons_True by done.
    + assert (task_key x ≠ (si, ti)) as Hx.
      { intros Hx. apply same_task_key in Hx. congruence. }
      by rewrite !filter_cons_False by done.
Qed.

Lemma filter_upsert_others l :
  filter (λ tc, task_key tc ≠ (si, ti)) (upsert si ti c l)
  = filter (λ tc, task_key tc ≠ (si, ti)) l.
Proof using Hc.
  induction l as [|x l IH].
  - cbn. rewrite decide_False; [done|]. by intros []. 
  - rewrite upsert_cons. destruct (same_task si ti x) eqn:Ex.
    + apply same_task_key in Ex.
      rewrite !filter_cons_False; [done | by intros [] | by intros []].
    + assert (task_key x ≠ (si, ti)) as Hx.
      { intros Hx. apply same_task_key in Hx. congruence. }
      by rewrite !filter_cons_True, IH by done.
Qed.

Lemma length_upsert_present l :
  (si, ti) ∈ task_key <$> l → length (upsert si ti c l) = length l.
Proof using Hc.
  intros Hin. rewrite <- (length_fmap task_key), keys_upsert, decide_True by done.
  by rewrite length_fmap.
Qed.

End Upsert.

(** Undoing keeps the completions distinct as well. *)
Lemma unique_filter (p : TaskCompletion → bool) l :
  unique_tasks l → unique_tasks (List.filter p l).
Proof.
  unfold unique_tasks. induction l as [|x l IH]; intros Hl; simpl; [done|].
  rewrite fmap_cons in Hl. apply NoDup_cons in Hl as [Hx Hl].
  destruct (p x); [|by apply IH].
  rewrite fmap_cons. apply NoDup_cons. split; [|by apply IH].
  intros Hin. apply Hx. apply list_elem_of_fmap in Hin as (y & Hy & Hin).
  apply list_elem_of_fmap. exists y. split; [done|].
  apply list_elem_of_In, filter_In in Hin as [Hin _]. by apply list_elem_of_In.
Qed.

(** C4, as the code has it.  [saveTaskCompletion] never adds a second
    completion for a pair: it overwrites the first completion of the pair,
    or appends one when there is none.  After two calls for the same pair
    the first completion of the pair is the one the second call returned,
    with the second call's [scheduledDate], [completedDate] and
    [delayDays], and the pair has as many completions as before the calls
    (one, if it had none).  Where the farm held at most one completion per
    pair it still does after each call, and the pair then has exactly one
    completion. *)
Theorem saveTaskCompletion_upsert (P : Platform) (w : World) (fid : string)
    (si ti : Z) (sd1 cd1 sd2 cd2 : string) (farm : Farm) :
  db_ok (db w) → st_farms (db w) !! fid = Some farm →
  let l0 := default [] (farm_taskCompletions farm) in
  ∃ c1 w1 l1 c2 w2 l2,
    saveTaskCompletion P fid si ti sd1 cd1 w = (Resolved c1, w1)
    ∧ getTaskCompletions fid w1 = (Resolved l1, w1)
    ∧ saveTaskCompletion P fid si ti sd2 cd2 w1 = (Resolved c2, w2)
    ∧ getTaskCompletions fid w2 = (Resolved l2, w2)
    ∧ filter (λ tc, task_key tc = (si, ti)) l1
      = c1 :: tail (filter (λ tc, task_key tc = (si, ti)) l0)
    ∧ filter (λ tc, task_key tc = (si, ti)) l2
      = c2 :: tail (filter (λ tc, task_key tc = (si, ti)) l0)
    ∧ filter (λ tc, task_key tc ≠ (si, ti)) l2
      = filter (λ tc, task_key tc ≠ (si, ti)) l0
    ∧ (unique_tasks l0 →
       unique_tasks l1 ∧ unique_tasks l2
       ∧ filter (λ tc, task_key tc = (si, ti)) l1 = [c1]
       ∧ filter (λ tc, task_key tc = (si, ti)) l2 = [c2])
    ∧ length l2 = length l1
    ∧ scheduledDate c2 = sd2 ∧ completedDate c2 = cd2
    ∧ delayDays c2 = compute_delayDays P sd2 cd2.
Proof.
  intros Hok Hf l0. destruct (db_ok_farm _ _ _ Hok Hf) as [Hid Hne].
  set (c1 := mkTaskCompletion si ti sd1 cd1 (compute_delayDays P sd1 cd1)
               (toISOString (clock P (ticks w)))).
  set (l1 := upsert si ti c1 l0).
  set (f1 := set_updatedAt (Some (toISOString (clock P (S (ticks w)))))
               (set_taskCompletions (Some l1) farm)).
  set (w1 := mkWorld (with_farms (<[fid := f1]> (st_farms (db w))) (db w))
               (S (S (ticks w)))).
  assert (Hok1 : db_ok (db w1)).
  { apply db_ok_insert_farm; [done | by destruct farm | done]. }
  assert (Hf1 : st_farms (db w1) !! fid = Some f1) by apply lookup_insert_eq.
  set (c2 := mkTaskCompletion si ti sd2 cd2 (compute_delayDays P sd2 cd2)
               (toISOString (clock P (ticks w1)))).
  set (l2 := upsert si ti c2 l1).
  assert (Hfirst1 : filter (λ tc, task_key tc = (si, ti)) l1
                    = c1 :: tail (filter (λ tc, task_key tc = (si, ti)) l0))
    by by apply filter_upsert_first.
  assert (Hfirst2 : filter (λ tc, task_key tc = (si, ti)) l2
                    = c2 :: tail (filter (λ tc, task_key tc = (si, ti)) l0)).
  { unfold l2. rewrite filter_upsert_first by done. by rewrite Hfirst1. }
  assert (Hin1 : (si, ti) ∈ task_key <$> l1).
  { assert (c1 ∈ filter (λ tc, task_key tc = (si, ti)) l1) as Hin
      by (rewrite Hfirst1; left).
    apply list_elem_of_filter in Hin as [_ Hin].
    change (si, ti) with (task_key c1). by apply list_elem_of_fmap_2. }
  exists c1, w1, l1, c2. eexists. exists l2.
  split; [by rewrite (saveTaskCompletion_run P w fid si ti sd1 cd1 farm Hok Hf)|].
  split.
  { unfold getTaskCompletions, getFarm, bind, read_db, ret. by rewrite Hf1. }
  split; [by rewrite (saveTaskCompletion_run P w1 fid si ti sd2 cd2 f1 Hok1 Hf1)|].
  split.
  { unfold getTaskCompletions, getFarm, bind, read_db, ret.
    cbn [db st_farms with_farms]. by rewrite lookup_insert_eq. }
  split; [exact Hfirst1|]. split; [exact Hfirst2|].
  split.
  { unfold l2, l1. by rewrite !filter_upsert_others. }
  split.
  { intros Huniq. split; [by apply unique_upsert|].
    split; [by apply unique_upsert, unique_upsert|].
    split; [by apply filter_upsert | by apply filter_upsert, unique_upsert]. }
  split; [by apply length_upsert_present|]. done.
Qed.

Lemma saveTaskCompletion_upsert_witness :
  ∃ c1 w1 c2 w2 l2,
    saveTaskCompletion manila "farm_1700000000000" 0 1 "2025-03-10" "2025-03-13"
      (mkWorld sample_db 0) = (Resolved c1, w1)
    ∧ saveTaskCompletion manila "farm_1700000000000" 0 1 "2025-03-10" "2025-03-08" w1
      = (Resolved c2, w2)
    ∧ getTaskCompletions "farm_1700000000000" w2 = (Resolved l2, w2)
    ∧ filter (λ tc, task_key tc = (0, 1)) l2 = [c2]
    ∧ completedDate c2 = "2025-03-08"
    ∧ delayDays c2 = Some (-2).
Proof.
  assert (Hok : db_ok (db (mkWorld sample_db 0)))
    by (apply (bool_decide_unpack _); vm_compute; exact I).
  assert (Hf : st_farms (db (mkWorld sample_db 0)) !! "farm_1700000000000" = Some plot_b)
    by reflexivity.
  assert (Hu : unique_tasks (default [] (farm_taskCompletions plot_b)))
    by (apply (bool_decide_unpack _); vm_compute; exact I).
  destruct (saveTaskCompletion_upsert manila (mkWorld sample_db 0) "farm_1700000000000"
              0 1 "2025-03-10" "2025-03-13" "2025-03-10" "2025-03-08" plot_b Hok Hf)
    as (c1 & w1 & l1 & c2 & w2 & l2 & H1 & _ & H2 & H3 & _ & _ & _ & Huniq & _ & _ & H5 & H6).
  destruct (Huniq Hu) as (_ & _ & _ & H4).
  exists c1, w1, c2, w2, l2. repeat split; try done.
Defined.

(** C4 fails as stated.  [saveFarm] stores the completions list it is
    given: a farm saved with two completions of the pair (0, 1) is a
    well-formed record, and after two calls of [saveTaskCompletion] for
    that pair it still holds two completions of it, the second call's and
    the old second one. *)
Lemma saveTaskCompletion_upsert_counterexample :
  let old := mkTaskCompletion 0 1 "2025-02-03" "2025-02-05" (Some 2)
               "2025-02-05T09:00:00.000Z" in
  let twice :=
    set_taskCompletions (Some (default [] (farm_taskCompletions plot_b) ++ [old])%list)
      plot_b in
  ∃ w0 c1 w1 c2 w2 l2,
    saveFarm manila twice (mkWorld empty_db 0) = (Resolved (Some "farm_1700000000000"), w0)
    ∧ db_ok (db w0)
    ∧ saveTaskCompletion manila "farm_1700000000000" 0 1 "2025-03-10" "2025-03-13" w0
      = (Resolved c1, w1)
    ∧ saveTaskCompletion manila "farm_1700000000000" 0 1 "2025-03-10" "2025-03-08" w1
      = (Resolved c2, w2)
    ∧ getTaskCompletions "farm_1700000000000" w2 = (Resolved l2, w2)
    ∧ l2 = [c2; old]
    ∧ task_key <$> l2 = [(0, 1); (0, 1)]
    ∧ ¬ unique_tasks l2.
Proof.
  do 6 eexists.
  split; [vm_compute; reflexivity|].
  split; [apply (bool_decide_unpack _); vm_compute; exact I|].
  split; [vm_compute; reflexivity|].
  split; [vm_compute; reflexivity|].
  split; [vm_compute; reflexivity|].
  split; [reflexivity|]. split; [reflexivity|].
  unfold unique_tasks. intros Hnd. apply NoDup_cons in Hnd as [Hnotin _].
  apply Hnotin. left.
Qed.

(** ** Deleting the expenses of a farm *)

Lemma filter_snd_entries {V} (Q : V → Prop) `{!∀ v, Decision (Q v)}
    (l : list (string * V)) :
  filter Q l.*2 = (filter (λ p, Q p.2) l).*2.
Proof.
  induction l as [|p l IH]; [done|].
  rewrite fmap_cons. destruct (decide (Q p.2)) as [Hq|Hq].
  - rewrite !filter_cons_True by done. by rewrite fmap_cons, IH.
  - by rewrite !filter_cons_False.
Qed.

Lemma getAll_empty {V} : getAll (∅ : gmap string V) = [].
Proof. unfold getAll. by rewrite map_to_list_empty. Qed.

Lemma length_getAll {V} (m : gmap string V) : length (getAll m) = size m.
Proof.
  rewrite getAll_entries, length_fmap, sorted_entries_perm. apply length_map_to_list.
Qed.

Lemma keyed_entry {V} (key_of : V → option string) (m : gmap string V) p :
  keyed key_of m → p ∈ sorted_entries m → key_of p.2 = Some p.1.
Proof.
  intros Hk Hp. destruct p as [k v]. apply elem_of_sorted_entries in Hp.
  by apply (Hk k v).
Qed.

Lemma deleteExpensesByFarm_run (w : World) (fid : string) :
  db_ok (db w) →
  deleteExpensesByFarm fid w
  = (Resolved tt,
     with_db (with_expenses
                (foldl (λ m p, delete p.1 m) (st_expenses (db w))
                   (filter (λ p, exp_farmId p.2 = Some fid)
                      (sorted_entries (st_expenses (db w)))))
                (db w)) w).
Proof.
  intros (_ & _ & Hkey).
  unfold deleteExpensesByFarm, getExpensesByFarm, bind at 1 2, read_db, ret.
  rewrite getAll_entries, filter_snd_entries.
  rewrite (for_of_fold _ _ (λ p d, with_expenses (delete p.1 (st_expenses d)) d)).
  - by rewrite (foldl_with_expenses _ (λ p m, delete p.1 m)).
  - intros p w' [_ Hp]%list_elem_of_filter.
    by rewrite (keyed_entry _ _ _ Hkey Hp).
Qed.

(** C8. After [deleteExpensesByFarm], [getExpensesByFarm] for the same
    farm resolves with the empty list; every expense of another farm (or
    of none) is still stored, unchanged; nothing is added, and the other
    stores are left alone. *)
Theorem deleteExpensesByFarm_clears (w : World) (fid : string) :
  db_ok (db w) →
  ∃ w',
    deleteExpensesByFarm fid w = (Resolved tt, w')
    ∧ getExpensesByFarm fid w' = (Resolved [], w')
    ∧ (∀ k e, st_expenses (db w) !! k = Some e → exp_farmId e ≠ Some fid →
         st_expenses (db w') !! k = Some e)
    ∧ (∀ k e, st_expenses (db w') !! k = Some e → st_expenses (db w) !! k = Some e)
    ∧ st_farms (db w') = st_farms (db w)
    ∧ st_settings (db w') = st_settings (db w)
    ∧ st_farmInfo (db w') = st_farmInfo (db w).
Proof.
  intros Hok. eexists. split; [by apply deleteExpensesByFarm_run|].
  set (m := st_expenses (db w)).
  set (L := filter (λ p, exp_farmId p.2 = Some fid) (sorted_entries m)).
  assert (Hlook : ∀ k, foldl (λ m' p, delete p.1 m') m L !! k
                       = if decide (k ∈ L.*1) then None else m !! k)
    by (intros k; apply foldl_delete_lookup).
  assert (HL : ∀ k e, m !! k = Some e → (k ∈ L.*1 ↔ exp_farmId e = Some fid)).
  { intros k e Hk. split.
    - intros ([k' e'] & -> & [He' Hin]%list_elem_of_filter)%list_elem_of_fmap.
      apply elem_of_sorted_entries in Hin. simpl in *. congruence.
    - intros He. apply list_elem_of_fmap. exists (k, e). split; [done|].
      apply list_elem_of_filter. split; [done | by apply elem_of_sorted_entries]. }
  assert (Hsub : ∀ k e, foldl (λ m' p, delete p.1 m') m L !! k = Some e →
                        m !! k = Some e ∧ exp_farmId e ≠ Some fid).
  { intros k e. rewrite Hlook. destruct (decide (k ∈ L.*1)) as [Hin|Hin]; [done|].
    intros Hk. split; [done|]. intros He. apply Hin. by apply (HL k e). }
  split; [|split; [|split]].
  - unfold getExpensesByFarm, bind, read_db, ret. cbn [db with_db st_expenses with_expenses].
    f_equal. f_equal. apply filter_none.
    intros e [k Hk]%elem_of_getAll. by apply (Hsub k e).
  - intros k e Hk He. cbn [db with_db st_expenses with_expenses]. rewrite Hlook.
    rewrite decide_False; [done|]. intros Hin. by apply (HL k e) in Hin.
  - intros k e Hk. by apply (Hsub k e).
  - done.
Qed.

Lemma deleteExpensesByFarm_clears_witness :
  ∃ w',
    deleteExpensesByFarm "farm_1700000000000" (mkWorld sample_db 0) = (Resolved tt, w')
    ∧ getExpensesByFarm "farm_1700000000000" w' = (Resolved [], w')
    ∧ st_expenses (db w') !! "e3" = Some (expense "e3" (Some "farm_1600000000000")).
Proof.
  assert (Hok : db_ok (db (mkWorld sample_db 0)))
    by (apply (bool_decide_unpack _); vm_compute; exact I).
  destruct (deleteExpensesByFarm_clears (mkWorld sample_db 0) "farm_1700000000000" Hok)
    as (w' & Hrun & Hnone & Hkeep & _).
  exists w'. split; [exact Hrun|]. split; [exact Hnone|].
  apply Hkeep; [reflexivity | discriminate].
Defined.

(** ** Backup and restore *)

Lemma put_entries_lookup {V} (l : list (string * V)) (m : gmap string V) k :
  NoDup l.*1 →
  foldl (λ m' p, <[p.1 := p.2]> m') m l !! k
  = match (list_to_map l : gmap string V) !! k with
    | Some v => Some v
    | None => m !! k
    end.
Proof. intros Hnd. exact (foldl_upd_lookup (λ _, true) id l m k Hnd). Qed.

Lemma put_sorted_entries {V} (m : gmap string V) :
  foldl (λ m' p, <[p.1 := p.2]> m') ∅ (sorted_entries m) = m.
Proof.
  apply map_eq. intros k. rewrite put_entries_lookup by apply NoDup_sorted_keys.
  rewrite list_to_map_sorted, lookup_empty. by destruct (m !! k).
Qed.

Section Backup.
Context (P : Platform).

Lemma exportAllData_run w :
  exportAllData P w
  = (Resolved (mkBackup (JStr "1.0") (JStr (toISOString (clock P (ticks w))))
                 (exported_selection (db w))
                 (Some (getAll (st_farms (db w))))
                 (Some (getAll (st_expenses (db w))))),
     mkWorld (db w) (S (ticks w))).
Proof.
  unfold exportAllData, getAllFarms, getAllExpenses, getSelectedFarmId,
    exported_selection, bind, read_db, ret, now_ISO, Date_now.
  by destruct (st_settings (db w) !! "selectedFarmId").
Qed.

Lemma import_farms_run (m : gmap string Farm) w :
  keyed farm_id m → map_Forall (λ k _, k ≠ "") m →
  for_of (getAll m) (λ farm, saveFarm P farm ;;; ret tt) w
  = (Resolved tt,
     with_db (with_farms (foldl (λ m' p, <[p.1 := p.2]> m') (st_farms (db w))
                            (sorted_entries m)) (db w)) w).
Proof.
  intros Hkey Hne. rewrite getAll_entries.
  rewrite (for_of_fold _ _ (λ p d, with_farms (<[p.1 := p.2]> (st_farms d)) d)).
  - by rewrite (foldl_with_farms _ (λ p m', <[p.1 := p.2]> m')).
  - intros [k farm] w' Hp. apply elem_of_sorted_entries in Hp. unfold bind.
    cbn [fst snd]. by rewrite (saveFarm_kept P farm k w' (Hkey k farm Hp) (Hne k farm Hp)).
Qed.

Lemma import_expenses_run (m : gmap string Expense) w :
  keyed exp_id m →
  for_of (getAll m) saveExpense w
  = (Resolved tt,
     with_db (with_expenses (foldl (λ m' p, <[p.1 := p.2]> m') (st_expenses (db w))
                               (sorted_entries m)) (db w)) w).
Proof.
  intros Hkey. rewrite getAll_entries.
  rewrite (for_of_fold _ _ (λ p d, with_expenses (<[p.1 := p.2]> (st_expenses d)) d)).
  - by rewrite (foldl_with_expenses _ (λ p m', <[p.1 := p.2]> m')).
  - intros [k e] w' Hp. apply elem_of_sorted_entries in Hp.
    cbn [fst snd]. by rewrite (saveExpense_run e k w' (Hkey k e Hp)).
Qed.

Lemma restore_selection d :
  (if truthy (exported_selection d)
   then with_settings (<["selectedFarmId" := exported_selection d]> (st_settings d)) d
   else d) = d.
Proof.
  unfold exported_selection.
  destruct (st_settings d !! "selectedFarmId") as [r|] eqn:Hr; [|done].
  destruct (truthy r) eqn:Ht; [|done]. rewrite Ht.
  rewrite insert_id by done. apply with_settings_id.
Qed.

Lemma import_export_run w :
  db_ok (db w) →
  importAllData P
    (Some (mkBackup (JStr "1.0") (JStr (toISOString (clock P (ticks w))))
             (exported_selection (db w))
             (Some (getAll (st_farms (db w))))
             (Some (getAll (st_expenses (db w))))))
    (mkWorld (db w) (S (ticks w)))
  = (Resolved (mkStats (size (st_farms (db w))) (size (st_expenses (db w)))),
     mkWorld (db w) (S (ticks w))).
Proof.
  intros (Hkf & Hne & Hke).
  unfold importAllData. cbn [version truthy String.eqb negb farms expenses selectedFarmId].
  cbn [Ascii.eqb Bool.eqb]. cbn [negb].
  run.
  run_by ltac:(by apply import_farms_run).
  run_by ltac:(by apply import_expenses_run).
  cbn [db with_db st_farms st_expenses with_farms with_expenses st_farmInfo st_settings].
  rewrite !put_sorted_entries.
  cbn [option_fmap fmap default option_map]. rewrite !length_getAll.
  pose proof (restore_selection (db w)) as Hsel.
  destruct (truthy (exported_selection (db w))).
  - run. unfold ret. f_equal.
    unfold with_db. cbn [ticks db outofline_put st_farms st_expenses st_farmInfo
                         st_settings with_settings].
    f_equal. rewrite <- Hsel at 5. by destruct (db w).
  - run. unfold ret. f_equal.
    unfold with_db. cbn [ticks db]. f_equal. by destruct (db w).
Qed.

End Backup.

(** C1. On a well-formed store [exportAllData] resolves and leaves the
    database as it was; [importAllData] on the exported document then
    resolves with a database equal to the one before the export: the same
    farms and the same expenses, field by field, under the same ids, and
    the same selected farm. *)
Theorem export_import_round_trip (P : Platform) (w : World) :
  db_ok (db w) →
  ∃ doc w1 stats w2,
    exportAllData P w = (Resolved doc, w1)
    ∧ db w1 = db w
    ∧ importAllData P (Some doc) w1 = (Resolved stats, w2)
    ∧ st_farms (db w2) = st_farms (db w)
    ∧ st_expenses (db w2) = st_expenses (db w)
    ∧ (getSelectedFarmId w2).1 = (getSelectedFarmId w).1
    ∧ db w2 = db w.
Proof.
  intros Hok. do 4 eexists.
  split; [apply exportAllData_run|]. split; [reflexivity|].
  split; [by apply import_export_run|].
  split; [reflexivity|]. split; [reflexivity|]. split; [|reflexivity].
  unfold getSelectedFarmId, bind, read_db, ret. cbn [db].
  by destruct (st_settings (db w) !! "selectedFarmId").
Qed.

Lemma export_import_round_trip_witness :
  ∃ doc w1 stats w2,
    exportAllData manila (mkWorld sample_db 0) = (Resolved doc, w1)
    ∧ db w1 = sample_db
    ∧ importAllData manila (Some doc) w1 = (Resolved stats, w2)
    ∧ db w2 = sample_db.
Proof.
  assert (Hok : db_ok (db (mkWorld sample_db 0)))
    by (apply (bool_decide_unpack _); vm_compute; exact I).
  destruct (export_import_round_trip manila (mkWorld sample_db 0) Hok)
    as (doc & w1 & stats & w2 & H1 & H2 & H3 & _ & _ & _ & H4).
  exists doc, w1, stats, w2. repeat split; assumption.
Defined.

(** ** Migration of the legacy record *)

Section Migration.
Context (P : Platform).

Lemma getItem_pure key w : ∃ v, getItem P key w = (Resolved v, w).
Proof.
  unfold getItem, bind, read_db, ret.
  destruct (getStoreName key); try by eexists.
  - destruct (outofline_get FARM_INFO key (db w)) as [[]|]; try by eexists.
    all: destruct (JSON_parse P _); by eexists.
  - destruct (outofline_get SETTINGS key (db w)) as [[]|]; try by eexists.
    all: destruct (JSON_parse P _); by eexists.
Qed.

Lemma getItem_farmInfo w text legacy :
  st_farmInfo (db w) !! "farmInfo" = Some text → text ≠ JUndef →
  JSON_parse P text = Some legacy →
  getItem P "farmInfo" w = (Resolved legacy, w).
Proof.
  intros Ht Hu Hp. unfold getItem, bind, read_db, ret.
  change (getStoreName "farmInfo") with FARM_INFO. cbn [outofline_get].
  rewrite Ht. destruct text; try done; by rewrite Hp.
Qed.

(** Once a farm exists the migration does nothing. *)
Lemma migrateLegacyData_idle w :
  st_farms (db w) ≠ ∅ → migrateLegacyData P w = (Resolved tt, w).
Proof.
  intros Hne. unfold migrateLegacyData, try_catch.
  destruct (getItem_pure "farmInfo" w) as [v Hv].
  run_by ltac:(exact Hv).
  destruct (truthy v); [|reflexivity]. cbn [negb].
  run.
  rewrite length_getAll.
  destruct (size (st_farms (db w))) eqn:Hs; [|reflexivity].
  by apply map_size_empty_inv in Hs.
Qed.

Lemma relink_expenses_run newId (m : gmap string Expense) w :
  keyed exp_id m →
  for_of (getAll m)
    (λ expense, if negb (truthy_str (exp_farmId expense))
                then saveExpense (set_farmId newId expense)
                else ret tt) w
  = (Resolved tt,
     with_db (with_expenses
                (foldl (λ m' p, if negb (truthy_str (exp_farmId p.2))
                                then <[p.1 := set_farmId newId p.2]> m' else m')
                   (st_expenses (db w)) (sorted_entries m))
                (db w)) w).
Proof.
  intros Hkey. rewrite getAll_entries.
  rewrite (for_of_fold _ _
             (λ p d, with_expenses
                       (if negb (truthy_str (exp_farmId p.2))
                        then <[p.1 := set_farmId newId p.2]> (st_expenses d)
                        else st_expenses d) d)).
  - by rewrite (foldl_with_expenses _
                  (λ p m', if negb (truthy_str (exp_farmId p.2))
                           then <[p.1 := set_farmId newId p.2]> m' else m')).
  - intros [k e] w' Hp. apply elem_of_sorted_entries in Hp. cbn [fst snd].
    destruct (negb (truthy_str (exp_farmId e))).
    + apply saveExpense_run. destruct e. exact (Hkey k _ Hp).
    + unfold ret. by rewrite with_expenses_id, with_db_id.
Qed.

Lemma relinked_expenses newId (m : gmap string Expense) :
  foldl (λ m' p, if negb (truthy_str (exp_farmId p.2))
                 then <[p.1 := set_farmId newId p.2]> m' else m')
    m (sorted_entries m)
  = relink newId <$> m.
Proof.
  apply map_eq. intros k.
  rewrite (foldl_upd_lookup (λ e, negb (truthy_str (exp_farmId e))) (set_farmId newId))
    by apply NoDup_sorted_keys.
  rewrite list_to_map_sorted, lookup_fmap. unfold relink.
  destruct (m !! k) as [e|] eqn:Hk; [|done]. simpl.
  by destruct (truthy_str (exp_farmId e)).
Qed.

End Migration.

(** C3. With a legacy record, no farm, and well-formed expenses,
    [migrateLegacyData] leaves exactly one farm; it carries the name, size,
    start date and cropping of the legacy record and is the selected farm;
    every expense that had no [farmId] now has the id of that farm and the
    other expenses are as before; a second run changes nothing. *)
Theorem migrateLegacyData_links (P : Platform) (w : World) (text legacy : jsval) :
  st_farmInfo (db w) !! "farmInfo" = Some text → text ≠ JUndef →
  JSON_parse P text = Some legacy → truthy legacy = true →
  st_farms (db w) = ∅ → db_ok (db w) →
  let id := "farm_" +:+ pretty (clock P (ticks w)) in
  ∃ w1 newFarm,
    migrateLegacyData P w = (Resolved tt, w1)
    ∧ st_farms (db w1) = {[ id := newFarm ]}
    ∧ farm_id newFarm = Some id
    ∧ farm_name newFarm = get_prop legacy "name"
    ∧ farm_size newFarm = get_prop legacy "size"
    ∧ farm_startDate newFarm = get_prop legacy "startDate"
    ∧ farm_cropping newFarm = get_prop legacy "cropping"
    ∧ getSelectedFarmId w1 = (Resolved (JStr id), w1)
    ∧ st_expenses (db w1) = relink (Some id) <$> st_expenses (db w)
    ∧ (∀ k e, st_expenses (db w) !! k = Some e → truthy_str (exp_farmId e) = false →
         st_expenses (db w1) !! k = Some (set_farmId (Some id) e))
    ∧ (∀ k e, st_expenses (db w) !! k = Some e → truthy_str (exp_farmId e) = true →
         st_expenses (db w1) !! k = Some e)
    ∧ st_farmInfo (db w1) = st_farmInfo (db w)
    ∧ migrateLegacyData P w1 = (Resolved tt, w1).
Proof.
  intros Ht Hu Hp Hl Hf Hok id.
  destruct Hok as (_ & _ & Hke).
  set (newFarm := mkFarm (Some id) (get_prop legacy "name") (get_prop legacy "size")
                    (get_prop legacy "startDate") (get_prop legacy "cropping")
                    None None (Some (toISOString (clock P (S (ticks w))))) None None).
  set (w1 := mkWorld
               (mkDB {[ id := newFarm ]} (st_farmInfo (db w))
                  (relink (Some id) <$> st_expenses (db w))
                  (<["selectedFarmId" := JStr id]> (st_settings (db w))))
               (S (S (ticks w)))).
  assert (Hrun : migrateLegacyData P w = (Resolved tt, w1)).
  { unfold migrateLegacyData, try_catch.
    run_by ltac:(by apply (getItem_farmInfo P w text legacy)).
    rewrite Hl. cbn [negb].
    run.
    rewrite Hf, getAll_empty. cbn [length Nat.ltb Nat.leb].
    run.
    run_by ltac:(apply now_ISO_run).
    run_by ltac:(by apply saveFarm_kept).
    run.
    run.
    rewrite (relink_expenses_run (Some id)) by done.
    cbn [db with_db st_farms st_expenses st_farmInfo st_settings with_farms
           with_expenses with_settings outofline_put ticks].
    rewrite relinked_expenses, Hf. by rewrite insert_empty. }
  exists w1, newFarm. rewrite Hrun.
  do 7 (split; [reflexivity|]).
  split.
  { unfold getSelectedFarmId, bind, read_db, ret.
    cbn [db st_settings w1]. by rewrite lookup_insert_eq. }
  split; [reflexivity|].
  split.
  { intros k e Hk He. cbn [db st_expenses w1]. rewrite lookup_fmap, Hk. simpl.
    unfold relink. by rewrite He. }
  split.
  { intros k e Hk He. cbn [db st_expenses w1]. rewrite lookup_fmap, Hk. simpl.
    unfold relink. by rewrite He. }
  split; [reflexivity|].
  apply migrateLegacyData_idle. cbn [db st_farms w1].
  intros Hempty. apply (f_equal (λ m : gmap string Farm, m !! id)) in Hempty.
  by rewrite lookup_singleton_eq, lookup_empty in Hempty.
Qed.

Lemma migrateLegacyData_links_witness :
  ∃ w1 newFarm,
    migrateLegacyData manila (mkWorld legacy_db 0) = (Resolved tt, w1)
    ∧ st_farms (db w1) = {[ "farm_1762045261042" := newFarm ]}
    ∧ farm_name newFarm = JStr "Plot A"
    ∧ farm_size newFarm = JNum (3 # 2)
    ∧ farm_startDate newFarm = JStr "2025-01-01"
    ∧ farm_cropping newFarm = JStr "first"
    ∧ getSelectedFarmId w1 = (Resolved (JStr "farm_1762045261042"), w1)
    ∧ st_expenses (db w1) !! "e1" = Some (expense "e1" (Some "farm_1762045261042"))
    ∧ st_expenses (db w1) !! "e2" = Some (expense "e2" (Some "farm_1762045261042"))
    ∧ migrateLegacyData manila w1 = (Resolved tt, w1).
Proof.
  assert (Hok : db_ok (db (mkWorld legacy_db 0)))
    by (apply (bool_decide_unpack _); vm_compute; exact I).
  destruct (migrateLegacyData_links manila (mkWorld legacy_db 0) (JStr legacy_text)
              legacy_record)
    as (w1 & newFarm & Hrun & Hfarms & _ & Hn & Hs & Hd & Hc & Hsel & _ & Hnew & _ & _
        & Hagain);
    [reflexivity | discriminate | reflexivity | reflexivity | reflexivity | exact Hok |].
  exists w1, newFarm.
  split; [exact Hrun|]. split; [exact Hfarms|].
  split; [exact Hn|]. split; [exact Hs|]. split; [exact Hd|]. split; [exact Hc|].
  split; [exact Hsel|].
  split; [exact (Hnew "e1" (expense "e1" None) eq_refl eq_refl)|].
  split; [exact (Hnew "e2" (expense "e2" None) eq_refl eq_refl)|]. exact Hagain.
Defined.

(** ** Well-formedness is an invariant of the API *)

Lemma empty_db_ok : db_ok empty_db.
Proof. repeat split; apply map_Forall_empty. Qed.

Lemma keeps_ret {A} (a : A) : keeps_db_ok (ret a).
Proof. by intros w. Qed.

Lemma keeps_throw {A} e : keeps_db_ok (@throw A e).
Proof. by intros w. Qed.

Lemma keeps_bind {A B} (m : Async A) (k : A → Async B) :
  keeps_db_ok m → (∀ a, keeps_db_ok (k a)) → keeps_db_ok (bind m k).
Proof.
  intros Hm Hk w Hw. unfold bind. specialize (Hm w Hw).
  destruct (m w) as [[a|e] w']; [by apply Hk | done].
Qed.

Lemma keeps_try_catch {A} (m : Async A) (h : exn → Async A) :
  keeps_db_ok m → (∀ e, keeps_db_ok (h e)) → keeps_db_ok (try_catch m h).
Proof.
  intros Hm Hh w Hw. unfold try_catch. specialize (Hm w Hw).
  destruct (m w) as [[a|e] w']; [done | by apply Hh].
Qed.

Lemma keeps_for_of {A} (l : list A) (body : A → Async unit) :
  (∀ x, keeps_db_ok (body x)) → keeps_db_ok (for_of l body).
Proof.
  intros Hbody. induction l as [|x l IH]; [apply keeps_ret|].
  apply keeps_bind; [apply Hbody | done].
Qed.

Lemma keeps_write_db (f : DB → DB) :
  (∀ d, db_ok d → db_ok (f d)) → keeps_db_ok (write_db f).
Proof. intros Hf w Hw. by apply Hf. Qed.

Lemma db_ok_outofline_put s key value d : db_ok d → db_ok (outofline_put s key value d).
Proof. by destruct s. Qed.

Lemma db_ok_insert_expense d k e :
  db_ok d → exp_id e = Some k → db_ok (with_expenses (<[k := e]> (st_expenses d)) d).
Proof.
  intros (Hkey & Hne & Hexp) Hid. repeat split; try done.
  by apply map_Forall_insert_2.
Qed.

Lemma db_ok_delete_expense d k :
  db_ok d → db_ok (with_expenses (delete k (st_expenses d)) d).
Proof.
  intros (Hkey & Hne & Hexp). repeat split; try done. by apply map_Forall_delete.
Qed.

Lemma db_ok_delete_farm d k :
  db_ok d → db_ok (with_farms (delete k (st_farms d)) d).
Proof.
  intros (Hkey & Hne & Hexp). repeat split; try done; by apply map_Forall_delete.
Qed.

Lemma db_ok_cleared d : db_ok d → db_ok (with_expenses ∅ (with_farms ∅ d)).
Proof. intros _. repeat split; apply map_Forall_empty. Qed.

Section Invariant.
Context (P : Platform).

Lemma keeps_Date_now : keeps_db_ok (Date_now P).
Proof. by intros w. Qed.

Lemma keeps_now_ISO : keeps_db_ok (now_ISO P).
Proof. by intros w. Qed.

Lemma keeps_setItem key value : keeps_db_ok (setItem P key value).
Proof.
  unfold setItem. destruct (put_key_check _ _); [apply keeps_throw|].
  apply keeps_write_db. intros d. apply db_ok_outofline_put.
Qed.

Lemma keeps_removeItem key : keeps_db_ok (removeItem key).
Proof.
  apply keeps_write_db. intros d Hd.
  destruct (getStoreName key);
    [by apply db_ok_delete_farm | done | by apply db_ok_delete_expense | done].
Qed.

Lemma keeps_clearStore s : keeps_db_ok (clearStore s).
Proof.
  apply keeps_write_db. intros d (Hkey & Hne & Hexp).
  destruct s; repeat split; try done; apply map_Forall_empty.
Qed.

Lemma keeps_setSelectedFarmId v : keeps_db_ok (setSelectedFarmId v).
Proof. apply keeps_write_db. intros d. apply db_ok_outofline_put. Qed.

Lemma keeps_saveExpense e : keeps_db_ok (saveExpense e).
Proof.
  intros w Hw. unfold saveExpense, bind, read_db, put_inline.
  destruct (exp_id e) as [k|] eqn:Hid; [|done]. by apply db_ok_insert_expense.
Qed.

Lemma keeps_deleteExpense o : keeps_db_ok (deleteExpense o).
Proof.
  destruct o as [k|]; [|apply keeps_throw].
  apply keeps_write_db. intros d. apply db_ok_delete_expense.
Qed.

Lemma keeps_deleteFarm k : keeps_db_ok (deleteFarm k).
Proof. apply keeps_write_db. intros d. apply db_ok_delete_farm. Qed.

Lemma keeps_saveFarm farm : keeps_db_ok (saveFarm P farm).
Proof.
  intros w Hw. destruct (truthy_str (farm_id farm)) eqn:Hid.
  - destruct (truthy_str_true _ Hid) as (k & Hk & Hne).
    rewrite (saveFarm_kept P farm k w Hk Hne). by apply db_ok_insert_farm.
  - rewrite (saveFarm_fresh P farm w Hid).
    by apply db_ok_insert_farm.
Qed.

Lemma keeps_deleteExpensesByFarm fid : keeps_db_ok (deleteExpensesByFarm fid).
Proof.
  apply keeps_bind; [by intros w|]. intros l.
  apply keeps_for_of. intros e. apply keeps_deleteExpense.
Qed.

Lemma keeps_getItem key : keeps_db_ok (getItem P key).
Proof. intros w Hw. destruct (getItem_pure P key w) as [v ->]. done. Qed.

Lemma keeps_migrateLegacyData : keeps_db_ok (migrateLegacyData P).
Proof.
  apply keeps_try_catch; [|intros e; apply keeps_ret].
  apply keeps_bind; [apply keeps_getItem|]. intros legacy.
  destruct (negb (truthy legacy)); [apply keeps_ret|].
  apply keeps_bind; [by intros w|]. intros l.
  destruct (0 <? length l)%nat; [apply keeps_ret|].
  apply keeps_bind; [apply keeps_Date_now|]. intros t.
  apply keeps_bind; [apply keeps_now_ISO|]. intros c.
  apply keeps_bind; [apply keeps_saveFarm|]. intros i.
  apply keeps_bind; [apply keeps_setSelectedFarmId|]. intros _.
  apply keeps_bind; [by intros w|]. intros l'.
  apply keeps_for_of. intros e.
  destruct (negb (truthy_str (exp_farmId e))); [apply keeps_saveExpense | apply keeps_ret].
Qed.

Lemma keeps_importAllData data : keeps_db_ok (importAllData P data).
Proof.
  destruct data as [data|]; [|apply keeps_throw]. unfold importAllData.
  destruct (negb (truthy (version data))); [apply keeps_throw|].
  apply keeps_bind; [apply keeps_write_db; apply db_ok_cleared|]. intros _.
  apply keeps_bind.
  { destruct (farms data); [|apply keeps_ret]. apply keeps_for_of. intros f.
    apply keeps_bind; [apply keeps_saveFarm | intros; apply keeps_ret]. }
  intros _. apply keeps_bind.
  { destruct (expenses data); [|apply keeps_ret]. apply keeps_for_of.
    apply keeps_saveExpense. }
  intros _. apply keeps_bind; [|intros; apply keeps_ret].
  destruct (truthy (selectedFarmId data)); [apply keeps_setSelectedFarmId | apply keeps_ret].
Qed.

Lemma keeps_with_farm (k : Farm → Async unit) fid :
  (∀ farm, keeps_db_ok (k farm)) →
  keeps_db_ok (farm <- getFarm fid ;;
               match farm with Some farm => k farm | None => throw NotFound end).
Proof.
  intros Hk. apply keeps_bind; [by intros w|].
  intros [farm|]; [apply Hk | apply keeps_throw].
Qed.

Lemma keeps_markFarmCompleted fid : keeps_db_ok (markFarmCompleted P fid).
Proof.
  apply keeps_with_farm. intros farm.
  apply keeps_bind; [apply keeps_now_ISO|]. intros c.
  apply keeps_bind; [apply keeps_now_ISO|]. intros u.
  apply keeps_bind; [apply keeps_saveFarm | intros; apply keeps_ret].
Qed.

Lemma keeps_markFarmActive fid : keeps_db_ok (markFarmActive P fid).
Proof.
  apply keeps_with_farm. intros farm.
  apply keeps_bind; [apply keeps_now_ISO|]. intros u.
  apply keeps_bind; [apply keeps_saveFarm | intros; apply keeps_ret].
Qed.

Lemma keeps_saveTaskCompletion fid si ti sd cd :
  keeps_db_ok (saveTaskCompletion P fid si ti sd cd).
Proof.
  apply keeps_bind; [by intros w|]. intros [farm|]; [|apply keeps_throw].
  apply keeps_bind; [apply keeps_now_ISO|]. intros t.
  apply keeps_bind; [apply keeps_now_ISO|]. intros u.
  apply keeps_bind; [apply keeps_saveFarm | intros; apply keeps_ret].
Qed.

Lemma keeps_deleteTaskCompletion fid si ti :
  keeps_db_ok (deleteTaskCompletion P fid si ti).
Proof.
  apply keeps_bind; [by intros w|]. intros [farm|]; [|apply keeps_ret].
  destruct (farm_taskCompletions farm); [|apply keeps_ret].
  apply keeps_bind; [apply keeps_now_ISO|]. intros u.
  apply keeps_bind; [apply keeps_saveFarm | intros; apply keeps_ret].
Qed.

End Invariant.

(** * Further properties of the code *)

(** ** Active and completed farms *)

Lemma is_completed_true farm : is_completed farm = true ↔ farm_completed farm = Some true.
Proof.
  unfold is_completed. destruct (farm_completed farm) as [[]|]; simpl; split; congruence.
Qed.

Lemma filter_split_perm {A} (p : A → bool) (l : list A) :
  (List.filter (λ x, negb (p x)) l ++ List.filter p l)%list ≡ₚ l.
Proof.
  induction l as [|x l IH]; [done|]. simpl. destruct (p x); simpl.
  - rewrite <- Permutation_middle. by constructor.
  - by constructor.
Qed.

Lemma elem_of_List_filter {A} (p : A → bool) (l : list A) x :
  x ∈ List.filter p l ↔ x ∈ l ∧ p x = true.
Proof. rewrite !list_elem_of_In. apply filter_In. Qed.

(** X1. The active and the completed farms split the list of all farms:
    together they are a rearrangement of it, a farm is listed as completed
    exactly when its [completed] flag is true, and as active otherwise. *)
Theorem active_completed_partition (w : World) :
  ∃ all act comp,
    getAllFarms w = (Resolved all, w)
    ∧ getActiveFarms w = (Resolved act, w)
    ∧ getCompletedFarms w = (Resolved comp, w)
    ∧ (act ++ comp)%list ≡ₚ all
    ∧ (∀ f, f ∈ comp ↔ f ∈ all ∧ farm_completed f = Some true)
    ∧ (∀ f, f ∈ act ↔ f ∈ all ∧ farm_completed f ≠ Some true).
Proof.
  do 3 eexists. split; [reflexivity|]. split; [reflexivity|]. split; [reflexivity|].
  split; [apply filter_split_perm|]. split.
  - intros f. rewrite elem_of_List_filter. by rewrite is_completed_true.
  - intros f. rewrite elem_of_List_filter. rewrite negb_true_iff.
    rewrite <- is_completed_true.
    destruct (is_completed f); split; intros [? ?]; split; congruence.
Qed.

Lemma getFarms_after_put (m : gmap string Farm) fid farm' f :
  keyed farm_id m →
  f ∈ getAll (<[fid := farm']> m) →
  f = farm' ∨ (f ∈ getAll m ∧ farm_id f ≠ Some fid).
Proof.
  intros Hkey [k Hk]%elem_of_getAll.
  destruct (decide (fid = k)) as [->|Hne].
  - rewrite lookup_insert_eq in Hk. left. congruence.
  - rewrite lookup_insert_ne in Hk by done. right. split.
    + apply elem_of_getAll. by exists k.
    + rewrite (Hkey k f Hk). congruence.
Qed.

(** X2. Marking a farm completed moves it from the active to the completed
    list, and marking it active moves it back; the farm is listed under the
    same id both times. *)
Theorem markFarm_moves_between_lists (P : Platform) (w : World) (fid : string)
    (farm : Farm) :
  db_ok (db w) → st_farms (db w) !! fid = Some farm →
  ∃ w1 w2 act1 comp1 act2 comp2,
    markFarmCompleted P fid w = (Resolved tt, w1)
    ∧ getActiveFarms w1 = (Resolved act1, w1)
    ∧ getCompletedFarms w1 = (Resolved comp1, w1)
    ∧ (∃ f, f ∈ comp1 ∧ farm_id f = Some fid)
    ∧ (∀ f, f ∈ act1 → farm_id f ≠ Some fid)
    ∧ markFarmActive P fid w1 = (Resolved tt, w2)
    ∧ getActiveFarms w2 = (Resolved act2, w2)
    ∧ getCompletedFarms w2 = (Resolved comp2, w2)
    ∧ (∃ f, f ∈ act2 ∧ farm_id f = Some fid)
    ∧ (∀ f, f ∈ comp2 → farm_id f ≠ Some fid).
Proof.
  intros Hok Hf. destruct (db_ok_farm _ _ _ Hok Hf) as [Hid Hne].
  pose proof (markFarmCompleted_run P w fid farm Hok Hf) as Hrun1.
  set (f1 := set_updatedAt (Some (toISOString (clock P (S (ticks w)))))
               (set_completedDate (Some (toISOString (clock P (ticks w))))
                  (set_completed (Some true) farm))) in *.
  set (w1 := mkWorld (with_farms (<[fid := f1]> (st_farms (db w))) (db w))
               (S (S (ticks w)))) in *.
  assert (Hok1 : db_ok (db w1)) by (apply db_ok_insert_farm; [done | by destruct farm | done]).
  assert (Hf1 : st_farms (db w1) !! fid = Some f1) by apply lookup_insert_eq.
  pose proof (markFarmActive_run P w1 fid f1 Hok1 Hf1) as Hrun2.
  set (f2 := set_updatedAt (Some (toISOString (clock P (ticks w1))))
               (set_completedDate None (set_completed (Some false) f1))) in *.
  set (w2 := mkWorld (with_farms (<[fid := f2]> (st_farms (db w1))) (db w1))
               (S (ticks w1))) in *.
  destruct Hok as (Hkey & _ & _). destruct Hok1 as (Hkey1 & _ & _).
  exists w1, w2. do 4 eexists.
  split; [exact Hrun1|]. split; [reflexivity|]. split; [reflexivity|].
  split.
  { exists f1. split; [|by destruct farm].
    apply elem_of_List_filter. split; [|reflexivity].
    apply elem_of_getAll. by exists fid. }
  split.
  { intros f [Hin Hact]%elem_of_List_filter.
    destruct (getFarms_after_put _ _ _ _ Hkey Hin) as [-> | [_ ?]]; [done | done]. }
  split; [exact Hrun2|]. split; [reflexivity|]. split; [reflexivity|].
  split.
  { exists f2. split; [|by destruct farm].
    apply elem_of_List_filter. split; [|reflexivity].
    apply elem_of_getAll. exists fid. apply lookup_insert_eq. }
  intros f [Hin Hcomp]%elem_of_List_filter.
  destruct (getFarms_after_put _ _ _ _ Hkey1 Hin) as [-> | [_ ?]]; [done | done].
Qed.

Lemma markFarm_moves_between_lists_witness :
  ∃ w1 comp1,
    markFarmCompleted manila "farm_1700000000000" (mkWorld sample_db 0) = (Resolved tt, w1)
    ∧ getCompletedFarms w1 = (Resolved comp1, w1)
    ∧ ∃ f, f ∈ comp1 ∧ farm_id f = Some "farm_1700000000000".
Proof.
  assert (Hok : db_ok (db (mkWorld sample_db 0)))
    by (apply (bool_decide_unpack _); vm_compute; exact I).
  destruct (markFarm_moves_between_lists manila (mkWorld sample_db 0)
              "farm_1700000000000" plot_b Hok eq_refl)
    as (w1 & w2 & act1 & comp1 & act2 & comp2 & H1 & _ & H3 & H4 & _).
  exists w1, comp1. split; [exact H1|]. split; [exact H3 | exact H4].
Defined.

(** ** Deleting a farm *)

(** X3. [deleteFarm] removes the farm and nothing else: every other farm,
    every expense (those of the deleted farm included: nothing cascades)
    and the selected-farm setting are as before, so [getExpensesByFarm]
    still lists the expenses of the deleted farm and [getSelectedFarmId]
    may still name it.  A farm that is not there is deleted without
    error. *)
Theorem deleteFarm_no_cascade (w : World) (fid : string) :
  ∃ w',
    deleteFarm fid w = (Resolved tt, w')
    ∧ getFarm fid w' = (Resolved None, w')
    ∧ (∀ k, k ≠ fid → st_farms (db w') !! k = st_farms (db w) !! k)
    ∧ st_expenses (db w') = st_expenses (db w)
    ∧ (getExpensesByFarm fid w').1 = (getExpensesByFarm fid w).1
    ∧ (getSelectedFarmId w').1 = (getSelectedFarmId w).1
    ∧ (st_farms (db w) !! fid = None → w' = w).
Proof.
  eexists. split; [reflexivity|]. split.
  { unfold getFarm, bind, read_db, ret. simpl. by rewrite lookup_delete_eq. }
  split; [intros k Hk; simpl; by rewrite lookup_delete_ne|].
  split; [reflexivity|]. split; [reflexivity|]. split.
  { unfold getSelectedFarmId, bind, read_db, ret. simpl.
    by destruct (st_settings (db w) !! "selectedFarmId"). }
  intros Hnone. unfold write_db. simpl. rewrite delete_id by done.
  by rewrite with_farms_id, with_db_id.
Qed.

(** ** Saving, finding and deleting expenses *)

(** X4. [saveExpense] needs an id: without one it rejects with a DataError
    and writes nothing.  With one it stores the record under that id,
    replacing the record that was there, leaves every other expense and the
    other stores alone, and changes the number of expenses by one only if
    the id is new; saving the same record again changes nothing. *)
Theorem saveExpense_upsert (e : Expense) (w : World) :
  match exp_id e with
  | None => saveExpense e w = (Rejected DataError, w)
  | Some k =>
      ∃ w',
        saveExpense e w = (Resolved tt, w')
        ∧ st_expenses (db w') !! k = Some e
        ∧ (∀ k', k' ≠ k → st_expenses (db w') !! k' = st_expenses (db w) !! k')
        ∧ size (st_expenses (db w'))
          = match st_expenses (db w) !! k with
            | Some _ => size (st_expenses (db w))
            | None => S (size (st_expenses (db w)))
            end
        ∧ st_farms (db w') = st_farms (db w)
        ∧ st_settings (db w') = st_settings (db w)
        ∧ st_farmInfo (db w') = st_farmInfo (db w)
        ∧ saveExpense e w' = (Resolved tt, w')
  end.
Proof.
  destruct (exp_id e) as [k|] eqn:Hid.
  - eexists. split; [by apply saveExpense_run|].
    split; [apply lookup_insert_eq|].
    split; [intros k' Hk'; simpl; by rewrite lookup_insert_ne|].
    split.
    { simpl. rewrite map_size_insert. by destruct (st_expenses (db w) !! k). }
    do 3 (split; [reflexivity|]).
    rewrite (saveExpense_run e k _ Hid). f_equal.
    unfold with_db. simpl. by rewrite insert_insert_eq.
  - unfold saveExpense, bind, read_db, put_inline. simpl. by rewrite Hid.
Qed.

(** X5. Deleting an expense that was just added gives back the world as it
    was; deleting an id that is not stored succeeds and changes nothing;
    only a missing ([undefined]) id is refused. *)
Theorem deleteExpense_round_trip (e : Expense) (k : string) (w : World) :
  exp_id e = Some k → st_expenses (db w) !! k = None →
  (∃ w1, saveExpense e w = (Resolved tt, w1)
         ∧ deleteExpense (exp_id e) w1 = (Resolved tt, w))
  ∧ deleteExpense (Some k) w = (Resolved tt, w)
  ∧ deleteExpense None w = (Rejected DataError, w).
Proof.
  intros Hid Hnone. split; [|split].
  - eexists. split; [by apply saveExpense_run|].
    rewrite Hid. unfold deleteExpense, write_db. simpl.
    rewrite delete_insert_id by done.
    unfold with_db. simpl. destruct w as [d t]. simpl. by destruct d.
  - unfold deleteExpense, write_db. rewrite delete_id by done.
    by rewrite with_expenses_id, with_db_id.
  - reflexivity.
Qed.

Lemma deleteExpense_round_trip_witness :
  ∃ w1,
    saveExpense (expense "e9" None) (mkWorld sample_db 0) = (Resolved tt, w1)
    ∧ deleteExpense (Some "e9") w1 = (Resolved tt, mkWorld sample_db 0).
Proof.
  destruct (deleteExpense_round_trip (expense "e9" None) "e9" (mkWorld sample_db 0)
              eq_refl eq_refl) as [H _].
  exact H.
Defined.

Lemma getExpenses_after_put (m : gmap string Expense) k e x :
  keyed exp_id m →
  x ∈ getAll (<[k := e]> m) → x = e ∨ (x ∈ getAll m ∧ exp_id x ≠ Some k).
Proof.
  intros Hkey [k' Hk']%elem_of_getAll.
  destruct (decide (k = k')) as [->|Hne].
  - rewrite lookup_insert_eq in Hk'. left. congruence.
  - rewrite lookup_insert_ne in Hk' by done. right. split.
    + apply elem_of_getAll. by exists k'.
    + rewrite (Hkey k' x Hk'). congruence.
Qed.

(** X6. A saved expense is found through every listing: it is among all
    expenses, under its farm in [getExpensesByFarm] and under its category
    in [getExpensesByCategory], and under no other farm or category; the
    record it replaced is listed nowhere any more. *)
Theorem saveExpense_found (e : Expense) (k : string) (w : World) :
  db_ok (db w) → exp_id e = Some k →
  ∃ w',
    saveExpense e w = (Resolved tt, w')
    ∧ (∃ all, getAllExpenses w' = (Resolved all, w') ∧ e ∈ all
              ∧ ∀ x, x ∈ all → exp_id x = Some k → x = e)
    ∧ (∀ f, ∃ l, getExpensesByFarm f w' = (Resolved l, w')
                 ∧ (e ∈ l ↔ exp_farmId e = Some f)
                 ∧ ∀ x, x ∈ l → exp_id x = Some k → x = e)
    ∧ (∀ c, ∃ l, getExpensesByCategory c w' = (Resolved l, w')
                 ∧ (e ∈ l ↔ exp_category e = JStr c)
                 ∧ ∀ x, x ∈ l → exp_id x = Some k → x = e).
Proof.
  intros (_ & _ & Hkey) Hid. eexists. split; [by apply saveExpense_run|].
  set (m' := <[k := e]> (st_expenses (db w))).
  assert (He : e ∈ getAll m').
  { apply elem_of_getAll. exists k. apply lookup_insert_eq. }
  assert (Honly : ∀ x, x ∈ getAll m' → exp_id x = Some k → x = e).
  { intros x Hin Hx. destruct (getExpenses_after_put _ _ _ _ Hkey Hin) as [?|[_ ?]]; done. }
  split; [|split].
  - eexists. split; [reflexivity|]. by split.
  - intros f. eexists. split; [reflexivity|]. split.
    + rewrite list_elem_of_filter. fold m'. tauto.
    + intros x [_ Hin]%list_elem_of_filter. by apply Honly.
  - intros c. eexists. split; [reflexivity|]. split.
    + rewrite elem_of_List_filter. fold m'. split.
      * intros [_ Hc]. destruct (exp_category e); try done.
        by apply String.eqb_eq in Hc as ->.
      * intros ->. split; [done | apply String.eqb_refl].
    + intros x [Hin _]%elem_of_List_filter. by apply Honly.
Qed.

Lemma saveExpense_found_witness :
  ∃ w' l,
    saveExpense (expense "e1" (Some "farm_1600000000000")) (mkWorld sample_db 0)
    = (Resolved tt, w')
    ∧ getExpensesByFarm "farm_1600000000000" w' = (Resolved l, w')
    ∧ expense "e1" (Some "farm_1600000000000") ∈ l.
Proof.
  assert (Hok : db_ok (db (mkWorld sample_db 0)))
    by (apply (bool_decide_unpack _); vm_compute; exact I).
  destruct (saveExpense_found (expense "e1" (Some "farm_1600000000000")) "e1"
              (mkWorld sample_db 0) Hok eq_refl) as (w' & Hrun & _ & Hfarm & _).
  destruct (Hfarm "farm_1600000000000") as (l & Hl & Hin & _).
  exists w', l. split; [exact Hrun|]. split; [exact Hl|]. by apply Hin.
Defined.

(** What [deleteExpensesByFarm] leaves of the expenses. *)
Lemma deleteExpensesByFarm_lookup (w : World) (fid k : string) :
  db_ok (db w) →
  st_expenses (db (deleteExpensesByFarm fid w).2) !! k
  = match st_expenses (db w) !! k with
    | Some e => if decide (exp_farmId e = Some fid) then None else Some e
    | None => None
    end.
Proof.
  intros Hok. rewrite (deleteExpensesByFarm_run w fid Hok).
  cbn [snd db with_db st_expenses with_expenses]. rewrite foldl_delete_lookup.
  set (m := st_expenses (db w)).
  set (L := filter (λ p, exp_farmId p.2 = Some fid) (sorted_entries m)).
  destruct (m !! k) as [e|] eqn:Hk.
  - destruct (decide (exp_farmId e = Some fid)) as [He|He].
    + rewrite decide_True; [done|]. apply list_elem_of_fmap. exists (k, e).
      split; [done|]. apply list_elem_of_filter. split; [done|].
      by apply elem_of_sorted_entries.
    + rewrite decide_False; [done|].
      intros ([k' e'] & -> & [He' Hin]%list_elem_of_filter)%list_elem_of_fmap.
      apply elem_of_sorted_entries in Hin. simpl in *. congruence.
  - by destruct (decide (k ∈ L.*1)).
Qed.

(** X7. The cascade that removes a farm with its expenses:
    [deleteExpensesByFarm] followed by [deleteFarm] leaves no farm under
    the id and no expense of that farm, keeps every other farm and every
    other expense unchanged, and keeps the database well formed. *)
Theorem delete_farm_with_expenses (w : World) (fid : string) :
  db_ok (db w) →
  ∃ w1 w2,
    deleteExpensesByFarm fid w = (Resolved tt, w1)
    ∧ deleteFarm fid w1 = (Resolved tt, w2)
    ∧ getFarm fid w2 = (Resolved None, w2)
    ∧ getExpensesByFarm fid w2 = (Resolved [], w2)
    ∧ (∀ k, k ≠ fid → st_farms (db w2) !! k = st_farms (db w) !! k)
    ∧ (∀ k e, st_expenses (db w) !! k = Some e →
         st_expenses (db w2) !! k
         = if decide (exp_farmId e = Some fid) then None else Some e)
    ∧ (∀ k, st_expenses (db w) !! k = None → st_expenses (db w2) !! k = None)
    ∧ db_ok (db w2).
Proof.
  intros Hok.
  pose proof (deleteExpensesByFarm_run w fid Hok) as Hrun.
  pose proof (λ k, deleteExpensesByFarm_lookup w fid k Hok) as Hlook.
  pose proof (keeps_deleteExpensesByFarm fid w Hok) as Hok1.
  destruct (deleteExpensesByFarm fid w) as [r w1] eqn:Hw1.
  injection Hrun as -> Hw1'. cbn [snd] in Hlook, Hok1.
  exists w1. eexists. split; [reflexivity|]. split; [reflexivity|].
  split.
  { unfold getFarm, bind, read_db, ret. simpl. by rewrite lookup_delete_eq. }
  split.
  { unfold getExpensesByFarm, bind, read_db, ret. simpl. f_equal. f_equal.
    apply filter_none. intros e [k Hk]%elem_of_getAll He.
    rewrite Hlook in Hk. destruct (st_expenses (db w) !! k) as [e'|]; [|done].
    destruct (decide (exp_farmId e' = Some fid)); [done|]. congruence. }
  split.
  { intros k Hk. simpl. rewrite lookup_delete_ne by done. by rewrite Hw1'. }
  split.
  { intros k e Hk. simpl. by rewrite Hlook, Hk. }
  split.
  { intros k Hk. simpl. by rewrite Hlook, Hk. }
  by apply db_ok_delete_farm.
Qed.

Lemma delete_farm_with_expenses_witness :
  ∃ w1 w2,
    deleteExpensesByFarm "farm_1700000000000" (mkWorld sample_db 0) = (Resolved tt, w1)
    ∧ deleteFarm "farm_1700000000000" w1 = (Resolved tt, w2)
    ∧ getFarm "farm_1700000000000" w2 = (Resolved None, w2)
    ∧ getExpensesByFarm "farm_1700000000000" w2 = (Resolved [], w2)
    ∧ st_expenses (db w2) !! "e3" = Some (expense "e3" (Some "farm_1600000000000")).
Proof.
  assert (Hok : db_ok (db (mkWorld sample_db 0)))
    by (apply (bool_decide_unpack _); vm_compute; exact I).
  destruct (delete_farm_with_expenses (mkWorld sample_db 0) "farm_1700000000000" Hok)
    as (w1 & w2 & H1 & H2 & H3 & H4 & _ & H6 & _).
  exists w1, w2. do 4 (split; [assumption|]).
  exact (H6 "e3" (expense "e3" (Some "farm_1600000000000")) eq_refl).
Defined.

(** ** The key/value mode *)

Lemma outofline_get_put s key value d :
  keyPath s = None → outofline_get s key (outofline_put s key value d) = Some value.
Proof. destruct s; try done; intros _; simpl; apply lookup_insert_eq. Qed.

Lemma outofline_get_put_ne s s' key key' value d :
  key ≠ key' →
  outofline_get s' key' (outofline_put s key value d) = outofline_get s' key' d.
Proof.
  intros Hne. destruct s, s'; simpl; try done; by rewrite lookup_insert_ne.
Qed.

Lemma getStoreName_outofline key :
  getStoreName key ≠ EXPENSES → keyPath (getStoreName key) = None.
Proof.
  unfold getStoreName. destruct (String.eqb key "farmInfo"); [done|].
  by destruct (String.eqb key "expenseData" || String.prefix "expense" key).
Qed.

Lemma getItem_outofline (P : Platform) key w :
  getStoreName key ≠ EXPENSES →
  getItem P key w
  = (Resolved
       match outofline_get (getStoreName key) key (db w) with
       | None | Some JUndef => JNull
       | Some result => default JNull (JSON_parse P result)
       end, w).
Proof.
  intros Hs. unfold getItem, bind, read_db, ret.
  pose proof (getStoreName_outofline key Hs) as Hkp.
  destruct (getStoreName key); try done.
  - destruct (outofline_get FARM_INFO key (db w)) as [[]|]; try done;
      by destruct (JSON_parse P _).
  - destruct (outofline_get SETTINGS key (db w)) as [[]|]; try done;
      by destruct (JSON_parse P _).
Qed.

(** X8. For a key that is not routed to the expenses store, [setItem]
    followed by [getItem] returns what [JSON.parse] makes of the stored
    text, which is the value itself whenever it survives the JSON round
    trip, and [null] for [undefined]; the other keys read as before, farms
    and expenses are not touched, and after [removeItem] the key reads
    [null]. *)
Theorem setItem_getItem_round_trip (P : Platform) (key : string) (value : jsval)
    (w : World) :
  getStoreName key ≠ EXPENSES →
  ∃ w',
    setItem P key value w = (Resolved tt, w')
    ∧ getItem P key w'
      = (Resolved match JSON_stringify P value with
                  | JUndef => JNull
                  | _ => default JNull (JSON_parse P (JSON_stringify P value))
                  end, w')
    ∧ (JSON_stringify P value ≠ JUndef →
       JSON_parse P (JSON_stringify P value) = Some value →
       getItem P key w' = (Resolved value, w'))
    ∧ (∀ key', key' ≠ key → (getItem P key' w').1 = (getItem P key' w).1)
    ∧ st_farms (db w') = st_farms (db w)
    ∧ st_expenses (db w') = st_expenses (db w)
    ∧ ∃ w'', removeItem key w' = (Resolved tt, w'')
             ∧ getItem P key w'' = (Resolved JNull, w'').
Proof.
  intros Hs. pose proof (getStoreName_outofline key Hs) as Hkp.
  eexists. split; [by apply setItem_other_key_resolves|].
  set (text := JSON_stringify P value).
  set (w' := with_db (outofline_put (getStoreName key) key text (db w)) w).
  assert (Hget : getItem P key w'
                 = (Resolved match text with
                             | JUndef => JNull
                             | _ => default JNull (JSON_parse P text)
                             end, w')).
  { rewrite getItem_outofline by done. cbn [db with_db w'].
    rewrite outofline_get_put by done. by destruct text. }
  split; [exact Hget|]. split.
  { intros Hu Hp. rewrite Hget. fold text in Hu, Hp. rewrite Hp.
    by destruct text. }
  split.
  { intros key' Hne. destruct (getStoreName key') eqn:Hs'.
    1, 3: unfold getItem, bind, read_db, ret; by rewrite Hs'.
    all: rewrite !getItem_outofline by (rewrite Hs'; discriminate).
    all: cbn [fst db with_db w']; rewrite Hs'.
    all: by rewrite outofline_get_put_ne by done. }
  split; [by destruct (getStoreName key)|].
  split; [by destruct (getStoreName key)|].
  eexists. split; [reflexivity|].
  rewrite getItem_outofline by done. f_equal.
  unfold write_db. cbn [db with_db snd].
  destruct (getStoreName key); try done; simpl; by rewrite lookup_delete_eq.
Qed.

Lemma setItem_getItem_round_trip_witness :
  ∃ w',
    setItem manila_twelve "rowsPerPage" (JNum 12) (mkWorld sample_db 0) = (Resolved tt, w')
    ∧ getItem manila_twelve "rowsPerPage" w' = (Resolved (JNum 12), w').
Proof.
  destruct (setItem_getItem_round_trip manila_twelve "rowsPerPage" (JNum 12)
              (mkWorld sample_db 0)) as (w' & Hset & _ & Hget & _); [discriminate|].
  exists w'. split; [exact Hset|]. apply Hget; [discriminate | reflexivity].
Defined.

(** X9. On a key routed to the expenses store the key/value mode does not
    see its own data: [getItem] returns [null] whatever is stored, while
    [removeItem] deletes the expense whose id is the key and leaves the
    other expenses, the farms and the settings alone. *)
Theorem expense_key_getItem_removeItem (P : Platform) (key : string) (w : World) :
  getStoreName key = EXPENSES →
  getItem P key w = (Resolved JNull, w)
  ∧ ∃ w',
      removeItem key w = (Resolved tt, w')
      ∧ st_expenses (db w') !! key = None
      ∧ (∀ k, k ≠ key → st_expenses (db w') !! k = st_expenses (db w) !! k)
      ∧ st_farms (db w') = st_farms (db w)
      ∧ st_settings (db w') = st_settings (db w)
      ∧ st_farmInfo (db w') = st_farmInfo (db w).
Proof.
  intros Hs. split.
  - unfold getItem, bind, read_db, ret. by rewrite Hs.
  - eexists. split; [reflexivity|]. unfold write_db. cbn [db with_db snd]. rewrite Hs.
    split; [apply lookup_delete_eq|].
    split; [intros k Hk; simpl; by rewrite lookup_delete_ne|]. done.
Qed.

Lemma expense_key_getItem_removeItem_witness :
  st_expenses expense_key_db !! "expense1" = Some (expense "expense1" None)
  ∧ getItem manila "expense1" (mkWorld expense_key_db 0)
    = (Resolved JNull, mkWorld expense_key_db 0)
  ∧ ∃ w', removeItem "expense1" (mkWorld expense_key_db 0) = (Resolved tt, w')
          ∧ st_expenses (db w') !! "expense1" = None
          ∧ st_expenses (db w') !! "e2" = Some (expense "e2" None)
          ∧ st_farms (db w') = ∅.
Proof.
  destruct (expense_key_getItem_removeItem manila "expense1" (mkWorld expense_key_db 0)
              eq_refl)
    as (Hget & w' & Hrun & Hnone & Hkeep & Hfarms & _).
  split; [reflexivity|]. split; [exact Hget|].
  exists w'. split; [exact Hrun|]. split; [exact Hnone|]. split.
  - rewrite Hkeep by discriminate. reflexivity.
  - exact Hfarms.
Defined.

(** ** The selected farm *)

(** X10. [getSelectedFarmId] after [setSelectedFarmId] returns the id that
    was set, or [null] when that id is falsy; farms and expenses are not
    touched.  The setting is stored raw: [getItem] on the same key returns
    [null] unless the id happens to be JSON text, and after
    [setItem("selectedFarmId", v)] the selected farm reads as the JSON
    text of [v], not as [v]. *)
Theorem selectedFarmId_round_trip (P : Platform) (farmId : jsval) (w : World) :
  ∃ w',
    setSelectedFarmId farmId w = (Resolved tt, w')
    ∧ getSelectedFarmId w' = (Resolved (if truthy farmId then farmId else JNull), w')
    ∧ st_farms (db w') = st_farms (db w)
    ∧ st_expenses (db w') = st_expenses (db w)
    ∧ (JSON_parse P farmId = None → getItem P "selectedFarmId" w' = (Resolved JNull, w'))
    ∧ ∃ w'',
        setItem P "selectedFarmId" farmId w = (Resolved tt, w'')
        ∧ getSelectedFarmId w''
          = (Resolved (if truthy (JSON_stringify P farmId)
                       then JSON_stringify P farmId else JNull), w'').
Proof.
  eexists. split; [reflexivity|]. split.
  { unfold getSelectedFarmId, bind, read_db, ret. simpl. by rewrite lookup_insert_eq. }
  split; [reflexivity|]. split; [reflexivity|]. split.
  { intros Hp. rewrite getItem_outofline by done.
    change (getStoreName "selectedFarmId") with SETTINGS. simpl.
    rewrite lookup_insert_eq, Hp. by destruct farmId. }
  eexists. split; [reflexivity|].
  unfold getSelectedFarmId, bind, read_db, ret. simpl. by rewrite lookup_insert_eq.
Qed.

(** ** More on task completions *)

Lemma findIndex_None {A} (p : A → bool) (l : list A) :
  findIndex p l = None ↔ ∀ x, x ∈ l → p x = false.
Proof.
  induction l as [|y l IH]; simpl.
  - split; [intros _ x Hx; by apply elem_of_nil in Hx | done].
  - destruct (p y) eqn:Hy.
    + split; [done|]. intros H. specialize (H y (list_elem_of_here _ _)). congruence.
    + destruct (findIndex p l) as [i|]; simpl.
      * split; [done|]. intros H. assert (Some i = None) as Hi; [|done].
        apply IH. intros x Hx. apply H. by right.
      * split; [|done]. intros _ x [->|Hx]%elem_of_cons; [done|].
        by apply IH.
Qed.

Lemma findIndex_Some {A} (p : A → bool) (l : list A) i :
  findIndex p l = Some i → ∃ x, l !! i = Some x ∧ p x = true.
Proof.
  revert i. induction l as [|y l IH]; intros i; simpl; [done|].
  destruct (p y) eqn:Hy.
  - intros [= <-]. by exists y.
  - destruct (findIndex p l) as [j|]; simpl; [|done].
    intros [= <-]. by apply IH.
Qed.

Lemma same_task_false_key si ti tc : same_task si ti tc = false ↔ task_key tc ≠ (si, ti).
Proof.
  rewrite <- same_task_key. by destruct (same_task si ti tc).
Qed.

Lemma upsert_absent si ti c l :
  (∀ tc, tc ∈ l → task_key tc ≠ (si, ti)) → upsert si ti c l = (l ++ [c])%list.
Proof.
  intros H. unfold upsert.
  assert (findIndex (same_task si ti) l = None) as ->; [|done].
  apply findIndex_None. intros tc Hin. apply same_task_false_key. by apply H.
Qed.

Lemma upsert_keeps_others si ti c l j tc :
  l !! j = Some tc → task_key tc ≠ (si, ti) → upsert si ti c l !! j = Some tc.
Proof.
  intros Hj Hk. unfold upsert.
  destruct (findIndex (same_task si ti) l) as [i|] eqn:Hi.
  - destruct (findIndex_Some _ _ _ Hi) as (x & Hx & Hp).
    apply same_task_key in Hp. rewrite list_lookup_insert_ne; [done|].
    intros ->. congruence.
  - by apply lookup_app_l_Some.
Qed.

Lemma sublist_List_filter {A} (p : A → bool) (l : list A) : List.filter p l `sublist_of` l.
Proof.
  induction l as [|x l IH]; simpl; [done|].
  destruct (p x); [by apply sublist_skip | by apply sublist_cons].
Qed.

(** X11. [deleteTaskCompletion] on a farm with a completions list removes
    every completion of the pair and nothing else: the remaining
    completions are the others, in their old order, and distinct pairs stay
    distinct. *)
Theorem deleteTaskCompletion_removes_pair (P : Platform) (w : World)
    (fid : string) (si ti : Z) (farm : Farm) (l : list TaskCompletion) :
  db_ok (db w) → st_farms (db w) !! fid = Some farm →
  farm_taskCompletions farm = Some l →
  ∃ w' l',
    deleteTaskCompletion P fid si ti w = (Resolved tt, w')
    ∧ getTaskCompletions fid w' = (Resolved l', w')
    ∧ (∀ tc, tc ∈ l' ↔ tc ∈ l ∧ task_key tc ≠ (si, ti))
    ∧ l' `sublist_of` l
    ∧ (unique_tasks l → unique_tasks l')
    ∧ (∀ k, k ≠ fid → st_farms (db w') !! k = st_farms (db w) !! k)
    ∧ st_expenses (db w') = st_expenses (db w).
Proof.
  intros Hok Hf Hl. destruct (db_ok_farm _ _ _ Hok Hf) as [Hid Hne].
  set (l' := List.filter (λ tc, negb (same_task si ti tc)) l).
  assert (Hrun : deleteTaskCompletion P fid si ti w
                 = (Resolved tt,
                    mkWorld (with_farms
                               (<[fid := set_updatedAt (Some (toISOString (clock P (ticks w))))
                                           (set_taskCompletions (Some l') farm)]>
                                  (st_farms (db w))) (db w))
                            (S (ticks w)))).
  { unfold deleteTaskCompletion, getFarm, bind at 1 2, read_db, ret at 1.
    rewrite Hf, Hl. fold l'.
    run_by ltac:(apply now_ISO_run).
    run_by ltac:(apply saveFarm_kept; [by destruct farm | done]). reflexivity. }
  eexists. exists l'. split; [exact Hrun|]. split.
  { unfold getTaskCompletions, getFarm, bind, read_db, ret. simpl.
    by rewrite lookup_insert_eq. }
  split.
  { intros tc. unfold l'. rewrite elem_of_List_filter, negb_true_iff.
    by rewrite same_task_false_key. }
  split; [apply sublist_List_filter|].
  split; [apply unique_filter|].
  split; [intros k Hk; simpl; by rewrite lookup_insert_ne|]. reflexivity.
Qed.

Lemma deleteTaskCompletion_removes_pair_witness :
  ∃ w',
    deleteTaskCompletion manila "farm_1700000000000" 0 1 (mkWorld sample_db 0)
    = (Resolved tt, w')
    ∧ getTaskCompletions "farm_1700000000000" w' = (Resolved [], w').
Proof.
  assert (Hok : db_ok (db (mkWorld sample_db 0)))
    by (apply (bool_decide_unpack _); vm_compute; exact I).
  destruct (deleteTaskCompletion_removes_pair manila (mkWorld sample_db 0)
              "farm_1700000000000" 0 1 plot_b _ Hok eq_refl eq_refl)
    as (w' & l' & Hrun & Hget & Hin & _).
  exists w'. split; [exact Hrun|]. rewrite Hget. f_equal. f_equal.
  destruct l' as [|tc l']; [done|].
  destruct (proj1 (Hin tc) (list_elem_of_here _ _)) as [Htc Hk].
  apply list_elem_of_singleton in Htc as ->. by destruct Hk.
Defined.

(** X12. Undo: for a pair the farm has no completion of,
    [saveTaskCompletion] followed by [deleteTaskCompletion] gives back the
    list of completions the farm had (the empty list if it had none); the
    farm's other fields are as before except [updatedAt]. *)
Theorem saveTaskCompletion_undo (P : Platform) (w : World) (fid : string)
    (si ti : Z) (sd cd : string) (farm : Farm) :
  db_ok (db w) → st_farms (db w) !! fid = Some farm →
  (∀ tc, tc ∈ default [] (farm_taskCompletions farm) → task_key tc ≠ (si, ti)) →
  ∃ c w1 w2,
    saveTaskCompletion P fid si ti sd cd w = (Resolved c, w1)
    ∧ deleteTaskCompletion P fid si ti w1 = (Resolved tt, w2)
    ∧ getTaskCompletions fid w2
      = (Resolved (default [] (farm_taskCompletions farm)), w2)
    ∧ st_farms (db w2) !! fid
      = Some (set_updatedAt (Some (toISOString (clock P (S (S (ticks w))))))
                (set_taskCompletions (Some (default [] (farm_taskCompletions farm)))
                   farm)).
Proof.
  intros Hok Hf Habs. destruct (db_ok_farm _ _ _ Hok Hf) as [Hid Hne].
  pose proof (saveTaskCompletion_run P w fid si ti sd cd farm Hok Hf) as Hrun1.
  cbv zeta in Hrun1.
  set (l0 := default [] (farm_taskCompletions farm)) in *.
  set (c := mkTaskCompletion si ti sd cd (compute_delayDays P sd cd)
              (toISOString (clock P (ticks w)))) in *.
  rewrite (upsert_absent si ti c l0 Habs) in Hrun1.
  set (f1 := set_updatedAt (Some (toISOString (clock P (S (ticks w)))))
               (set_taskCompletions (Some (l0 ++ [c])%list) farm)) in *.
  set (w1 := mkWorld (with_farms (<[fid := f1]> (st_farms (db w))) (db w))
               (S (S (ticks w)))) in *.
  assert (Hfilter : List.filter (λ tc, negb (same_task si ti tc)) (l0 ++ [c])%list = l0).
  { rewrite List.filter_app. simpl.
    assert (same_task si ti c = true) as -> by (by apply same_task_key).
    simpl. rewrite app_nil_r. apply filter_none_matching.
    intros tc Hin. apply same_task_false_key. by apply Habs. }
  assert (Hrun2 : deleteTaskCompletion P fid si ti w1
                  = (Resolved tt,
                     mkWorld (with_farms
                                (<[fid := set_updatedAt
                                            (Some (toISOString (clock P (ticks w1))))
                                            (set_taskCompletions (Some l0) f1)]>
                                   (st_farms (db w1))) (db w1))
                             (S (ticks w1)))).
  { unfold deleteTaskCompletion, getFarm, bind at 1 2, read_db, ret at 1.
    cbn [db st_farms with_farms w1]. rewrite lookup_insert_eq.
    cbn [farm_taskCompletions f1 set_updatedAt set_taskCompletions]. rewrite Hfilter.
    run_by ltac:(apply now_ISO_run).
    run_by ltac:(apply saveFarm_kept; [by destruct farm | done]). reflexivity. }
  exists c, w1. eexists. split; [exact Hrun1|]. split; [exact Hrun2|]. split.
  - unfold getTaskCompletions, getFarm, bind, read_db, ret. simpl.
    by rewrite lookup_insert_eq.
  - simpl. rewrite lookup_insert_eq. by destruct farm.
Qed.

Lemma saveTaskCompletion_undo_witness :
  ∃ c w1 w2,
    saveTaskCompletion manila "farm_1700000000000" 3 0 "2025-03-10" "2025-03-13"
      (mkWorld sample_db 0) = (Resolved c, w1)
    ∧ deleteTaskCompletion manila "farm_1700000000000" 3 0 w1 = (Resolved tt, w2)
    ∧ getTaskCompletions "farm_1700000000000" w2
      = (Resolved [mkTaskCompletion 0 1 "2025-02-03" "2025-02-04" (Some 1)
                     "2025-02-04T09:00:00.000Z"], w2).
Proof.
  assert (Hok : db_ok (db (mkWorld sample_db 0)))
    by (apply (bool_decide_unpack _); vm_compute; exact I).
  destruct (saveTaskCompletion_undo manila (mkWorld sample_db 0) "farm_1700000000000"
              3 0 "2025-03-10" "2025-03-13" plot_b Hok eq_refl)
    as (c & w1 & w2 & H1 & H2 & H3 & _).
  { intros tc ->%list_elem_of_singleton. discriminate. }
  exists c, w1, w2. by repeat split.
Defined.

(** X13. [saveTaskCompletion] fails with the not-found error, writing
    nothing, when the farm does not exist.  Otherwise it touches only that
    farm's [taskCompletions] and [updatedAt]: every completion of another
    pair keeps its position, a pair that was not there is appended at the
    end, and the other farms, the expenses and the settings are as
    before. *)
Theorem saveTaskCompletion_frame (P : Platform) (w : World) (fid : string)
    (si ti : Z) (sd cd : string) :
  db_ok (db w) →
  match st_farms (db w) !! fid with
  | None => saveTaskCompletion P fid si ti sd cd w = (Rejected NotFound, w)
  | Some farm =>
      let l0 := default [] (farm_taskCompletions farm) in
      ∃ c w1 l1 stored,
        saveTaskCompletion P fid si ti sd cd w = (Resolved c, w1)
        ∧ getTaskCompletions fid w1 = (Resolved l1, w1)
        ∧ (∀ j tc, l0 !! j = Some tc → task_key tc ≠ (si, ti) → l1 !! j = Some tc)
        ∧ ((∀ tc, tc ∈ l0 → task_key tc ≠ (si, ti)) → l1 = (l0 ++ [c])%list)
        ∧ st_farms (db w1) !! fid = Some stored
        ∧ set_updatedAt (farm_updatedAt farm)
            (set_taskCompletions (farm_taskCompletions farm) stored) = farm
        ∧ (∀ k, k ≠ fid → st_farms (db w1) !! k = st_farms (db w) !! k)
        ∧ st_expenses (db w1) = st_expenses (db w)
        ∧ st_settings (db w1) = st_settings (db w)
  end.
Proof.
  intros Hok. destruct (st_farms (db w) !! fid) as [farm|] eqn:Hf;
    [|by apply saveTaskCompletion_not_found].
  intros l0. do 4 eexists.
  split; [by rewrite (saveTaskCompletion_run P w fid si ti sd cd farm Hok Hf)|].
  split.
  { unfold getTaskCompletions, getFarm, bind, read_db, ret. simpl.
    by rewrite lookup_insert_eq. }
  split; [intros j tc; apply upsert_keeps_others|].
  split; [apply upsert_absent|].
  split; [apply lookup_insert_eq|].
  split; [by destruct farm|].
  split; [intros k Hk; simpl; by rewrite lookup_insert_ne|]. done.
Qed.

Lemma saveTaskCompletion_frame_witness :
  saveTaskCompletion manila "farm_0" 3 0 "2025-03-10" "2025-03-13" (mkWorld sample_db 0)
  = (Rejected NotFound, mkWorld sample_db 0).
Proof.
  assert (Hok : db_ok (db (mkWorld sample_db 0)))
    by (apply (bool_decide_unpack _); vm_compute; exact I).
  exact (saveTaskCompletion_frame manila (mkWorld sample_db 0) "farm_0" 3 0
           "2025-03-10" "2025-03-13" Hok).
Defined.

(** ** Restoring an arbitrary backup *)

Lemma id_entries_snd {V} (key_of : V → option string) (l : list V) :
  (id_entries key_of l).*2 = l.
Proof.
  unfold id_entries. induction l as [|v l IH]; [done|].
  rewrite !fmap_cons. simpl. by rewrite IH.
Qed.

Lemma elem_of_id_entries {V} (key_of : V → option string) (l : list V) k v :
  Forall (λ v, is_Some (key_of v)) l →
  (k, v) ∈ id_entries key_of l ↔ v ∈ l ∧ key_of v = Some k.
Proof.
  intros Hall. unfold id_entries. rewrite list_elem_of_fmap. split.
  - intros (v' & [= -> ->] & Hin). split; [done|].
    rewrite Forall_forall in Hall. destruct (Hall v' Hin) as [k' Hk']. by rewrite Hk'.
  - intros [Hin Hk]. exists v. split; [by rewrite Hk | done].
Qed.


Lemma put_entries_elem {V} (l : list (string * V)) (m : gmap string V) k v :
  put_entries l m !! k = Some v → (k, v) ∈ l ∨ m !! k = Some v.
Proof.
  unfold put_entries. revert m. induction l as [|[k0 v0] l IH]; intros m; simpl.
  - by right.
  - intros [Hin|Hm]%IH; [left; by right|].
    destruct (decide (k0 = k)) as [->|Hne].
    + rewrite lookup_insert_eq in Hm. injection Hm as ->. left. by left.
    + rewrite lookup_insert_ne in Hm by done. by right.
Qed.

Lemma put_entries_notin {V} (l : list (string * V)) (m : gmap string V) k :
  k ∉ l.*1 → put_entries l m !! k = m !! k.
Proof.
  unfold put_entries. revert m. induction l as [|[k0 v0] l IH]; intros m Hk; [done|].
  rewrite fmap_cons in Hk. apply not_elem_of_cons in Hk as [Hne Hk].
  simpl. rewrite IH by done. by rewrite lookup_insert_ne.
Qed.

Lemma put_entries_key {V} (l : list (string * V)) (m : gmap string V) k v :
  (k, v) ∈ l → is_Some (put_entries l m !! k).
Proof.
  revert m v. induction l as [|[k0 v0] l IH]; intros m v Hin.
  - by apply elem_of_nil in Hin.
  - change (put_entries ((k0, v0) :: l) m) with (put_entries l (<[k0 := v0]> m)).
    destruct (decide (k ∈ l.*1)) as [Hk|Hk].
    + apply list_elem_of_fmap in Hk as ([k' v'] & -> & Hk). by apply (IH _ v').
    + rewrite put_entries_notin by done.
      apply elem_of_cons in Hin as [[= <- <-]|Hin].
      * rewrite lookup_insert_eq. by eexists.
      * exfalso. apply Hk. apply list_elem_of_fmap. by exists (k, v).
Qed.


Lemma for_of_app {A} (l1 l2 : list A) (body : A → Async unit) w :
  for_of (l1 ++ l2) body w = bind (for_of l1 body) (λ _, for_of l2 body) w.
Proof.
  revert w. induction l1 as [|x l1 IH]; intros w; [done|].
  simpl. unfold bind in *. destruct (body x w) as [[[]|e] w']; [apply IH | done].
Qed.

Section Restore.
Context (P : Platform).

Lemma restore_farms_run (fs : list Farm) w :
  Forall (λ f, truthy_str (farm_id f) = true) fs →
  for_of fs (λ farm, saveFarm P farm ;;; ret tt) w
  = (Resolved tt,
     with_db (with_farms (put_entries (id_entries farm_id fs) (st_farms (db w)))
                (db w)) w).
Proof.
  intros Hall. rewrite <- (id_entries_snd farm_id fs) at 1.
  rewrite (for_of_fold _ _ (λ p d, with_farms (<[p.1 := p.2]> (st_farms d)) d)).
  - by rewrite (foldl_with_farms _ (λ p m', <[p.1 := p.2]> m')).
  - intros [k f] w' Hp. unfold id_entries in Hp.
    apply list_elem_of_fmap in Hp as (f' & [= -> ->] & Hin).
    rewrite Forall_forall in Hall.
    destruct (truthy_str_true _ (Hall f' Hin)) as (k & Hk & Hne).
    cbn [fst snd]. rewrite Hk. simpl.
    by run_by ltac:(by apply saveFarm_kept).
Qed.

Lemma restore_expenses_run (es : list Expense) w :
  Forall (λ e, is_Some (exp_id e)) es →
  for_of es saveExpense w
  = (Resolved tt,
     with_db (with_expenses (put_entries (id_entries exp_id es) (st_expenses (db w)))
                (db w)) w).
Proof.
  intros Hall. rewrite <- (id_entries_snd exp_id es) at 1.
  rewrite (for_of_fold _ _ (λ p d, with_expenses (<[p.1 := p.2]> (st_expenses d)) d)).
  - by rewrite (foldl_with_expenses _ (λ p m', <[p.1 := p.2]> m')).
  - intros [k e] w' Hp. unfold id_entries in Hp.
    apply list_elem_of_fmap in Hp as (e' & [= -> ->] & Hin).
    rewrite Forall_forall in Hall. destruct (Hall e' Hin) as [k Hk].
    cbn [fst snd]. rewrite Hk. simpl. by apply saveExpense_run.
Qed.

Lemma importAllData_run (data : Backup) w :
  truthy (version data) = true →
  Forall (λ f, truthy_str (farm_id f) = true) (default [] (farms data)) →
  Forall (λ e, is_Some (exp_id e)) (default [] (expenses data)) →
  importAllData P (Some data) w
  = (Resolved (mkStats (length (default [] (farms data)))
                       (length (default [] (expenses data)))),
     with_db (restored data (db w)) w).
Proof.
  intros Hv Hfs Hes. unfold importAllData. rewrite Hv. cbn [negb].
  run.
  assert (Hfarms : ∀ w0,
    match farms data with
    | Some l => for_of l (λ farm, saveFarm P farm ;;; ret tt)
    | None => ret tt
    end w0
    = (Resolved tt,
       with_db (with_farms (put_entries (id_entries farm_id (default [] (farms data)))
                              (st_farms (db w0))) (db w0)) w0)).
  { intros w0. destruct (farms data) as [l|]; simpl in *.
    - by apply restore_farms_run.
    - unfold ret. by rewrite with_farms_id, with_db_id. }
  assert (Hexps : ∀ w0,
    match expenses data with
    | Some l => for_of l saveExpense
    | None => ret tt
    end w0
    = (Resolved tt,
       with_db (with_expenses (put_entries (id_entries exp_id (default [] (expenses data)))
                                 (st_expenses (db w0))) (db w0)) w0)).
  { intros w0. destruct (expenses data) as [l|]; simpl in *.
    - by apply restore_expenses_run.
    - unfold ret. by rewrite with_expenses_id, with_db_id. }
  run_by ltac:(apply Hfarms). run_by ltac:(apply Hexps).
  assert (default 0%nat (length <$> farms data) = length (default [] (farms data)))
    as -> by (by destruct (farms data)).
  assert (default 0%nat (length <$> expenses data) = length (default [] (expenses data)))
    as -> by (by destruct (expenses data)).
  unfold restored. destruct (truthy (selectedFarmId data)); run; reflexivity.
Qed.

End Restore.



(** X15. A restore that fails half way leaves a half-restored store.  When
    the farms of the document are in order and one expense has no id,
    [importAllData] rejects with a DataError after the wipe: the stored
    farms are farms of the document (every one of them is there), the
    stored expenses are expenses that precede the faulty one, nothing of
    the old farms and expenses is left, and the selected farm has not been
    restored. *)
Theorem importAllData_partial_failure (P : Platform) (data : Backup) (w : World)
    (fs : list Farm) (es1 es2 : list Expense) (bad : Expense) :
  truthy (version data) = true →
  farms data = Some fs →
  Forall (λ f, truthy_str (farm_id f) = true) fs →
  expenses data = Some (es1 ++ bad :: es2)%list →
  Forall (λ e, is_Some (exp_id e)) es1 →
  exp_id bad = None →
  ∃ w',
    importAllData P (Some data) w = (Rejected DataError, w')
    ∧ (∀ k f, st_farms (db w') !! k = Some f → f ∈ fs ∧ farm_id f = Some k)
    ∧ (∀ f, f ∈ fs → ∃ k, farm_id f = Some k ∧ is_Some (st_farms (db w') !! k))
    ∧ (∀ k e, st_expenses (db w') !! k = Some e → e ∈ es1 ∧ exp_id e = Some k)
    ∧ st_settings (db w') = st_settings (db w).
Proof.
  intros Hv Hfarms Hfs Hexps Hes1 Hbad.
  assert (Hfs' : Forall (λ f, is_Some (farm_id f)) fs).
  { eapply Forall_impl; [exact Hfs|]. intros f Hf.
    destruct (truthy_str_true _ Hf) as (k & -> & _). by eexists. }
  set (w1 := with_db (with_expenses ∅ (with_farms ∅ (db w))) w).
  set (w2 := with_db (with_farms (put_entries (id_entries farm_id fs) (st_farms (db w1)))
                        (db w1)) w1).
  set (w3 := with_db (with_expenses (put_entries (id_entries exp_id es1)
                                       (st_expenses (db w2))) (db w2)) w2).
  exists w3. split.
  { unfold importAllData. rewrite Hv, Hfarms, Hexps. cbn [negb].
    run. run_by ltac:(by apply restore_farms_run).
    apply bind_rejected. rewrite for_of_app.
    run_by ltac:(by apply restore_expenses_run).
    cbn [for_of]. apply bind_rejected.
    unfold saveExpense, bind, read_db, put_inline. simpl. by rewrite Hbad. }
  split.
  { intros k f Hk. cbn [db with_db st_farms with_farms with_expenses w1 w2 w3] in Hk.
    apply put_entries_elem in Hk as [Hin|Hk]; [|by rewrite lookup_empty in Hk].
    by apply elem_of_id_entries in Hin. }
  split.
  { intros f Hin. destruct (proj1 (Forall_forall _ _) Hfs' f Hin) as [k Hk].
    exists k. split; [done|].
    cbn [db with_db st_farms with_farms with_expenses w1 w2 w3].
    apply (put_entries_key _ _ k f). by apply elem_of_id_entries. }
  split.
  { intros k e Hk. cbn [db with_db st_expenses with_farms with_expenses w1 w2 w3] in Hk.
    apply put_entries_elem in Hk as [Hin|Hk]; [|by rewrite lookup_empty in Hk].
    by apply elem_of_id_entries in Hin. }
  reflexivity.
Qed.

Lemma importAllData_partial_failure_witness :
  ∃ w',
    importAllData manila (Some broken_backup) (mkWorld sample_db 0)
    = (Rejected DataError, w')
    ∧ st_expenses (db w') !! "e1" = None
    ∧ st_expenses (db w') !! "e9" = None.
Proof.
  destruct (importAllData_partial_failure manila broken_backup (mkWorld sample_db 0)
              [plot_b] [expense "e7" (Some "farm_1700000000000")] [expense "e9" None]
              (mkExpense None None (JStr "seeds") (JStr "inputs") (JNum 5) JUndef))
    as (w' & Hrun & _ & _ & Hexp & _).
  - reflexivity.
  - reflexivity.
  - repeat constructor.
  - reflexivity.
  - repeat constructor; by eexists.
  - reflexivity.
  - exists w'. split; [exact Hrun|]. split.
    + destruct (st_expenses (db w') !! "e1") as [e|] eqn:He; [|done].
      apply Hexp in He as [->%list_elem_of_singleton Hid]. discriminate.
    + destruct (st_expenses (db w') !! "e9") as [e|] eqn:He; [|done].
      apply Hexp in He as [->%list_elem_of_singleton Hid]. discriminate.
Defined.

(** X16. A restore can be run again: importing the same document a second
    time (every farm with a non-empty id, every expense with an id)
    resolves with the same counts and leaves the world exactly as the first
    import left it. *)
Theorem importAllData_idempotent (P : Platform) (data : Backup) (w : World) :
  truthy (version data) = true →
  Forall (λ f, truthy_str (farm_id f) = true) (default [] (farms data)) →
  Forall (λ e, is_Some (exp_id e)) (default [] (expenses data)) →
  ∃ stats w1,
    importAllData P (Some data) w = (Resolved stats, w1)
    ∧ importAllData P (Some data) w1 = (Resolved stats, w1).
Proof.
  intros Hv Hfs Hes. do 2 eexists.
  split; [by apply importAllData_run|].
  rewrite importAllData_run by done. f_equal.
  destruct w as [d t]. unfold with_db, restored. simpl. f_equal. f_equal.
  destruct (truthy (selectedFarmId data)); [|done]. by rewrite insert_insert_eq.
Qed.

Lemma importAllData_idempotent_witness :
  ∃ stats w1,
    importAllData manila (Some sample_backup) (mkWorld sample_db 0) = (Resolved stats, w1)
    ∧ importAllData manila (Some sample_backup) w1 = (Resolved stats, w1).
Proof.
  apply importAllData_idempotent.
  - reflexivity.
  - repeat constructor.
  - repeat constructor; by eexists.
Defined.

(** ** When the migration does nothing *)

(** X17. The migration at start-up is skipped, leaving the database and
    the clock untouched, whenever a farm is already stored or the legacy
    store holds no [farmInfo] record; it resolves in both cases. *)
Theorem migrateLegacyData_skips (P : Platform) (w : World) :
  st_farms (db w) ≠ ∅ ∨ st_farmInfo (db w) !! "farmInfo" = None →
  migrateLegacyData P w = (Resolved tt, w).
Proof.
  intros [Hne|Hnone]; [by apply migrateLegacyData_idle|].
  unfold migrateLegacyData, try_catch.
  assert (Hget : getItem P "farmInfo" w = (Resolved JNull, w)).
  { unfold getItem, bind, read_db, ret.
    change (getStoreName "farmInfo") with FARM_INFO. cbn [outofline_get].
    by rewrite Hnone. }
  run_by ltac:(exact Hget). reflexivity.
Qed.

Lemma migrateLegacyData_skips_witness :
  migrateLegacyData manila (mkWorld sample_db 0) = (Resolved tt, mkWorld sample_db 0)
  ∧ migrateLegacyData manila (mkWorld empty_db 0) = (Resolved tt, mkWorld empty_db 0).
Proof.
  split.
  - apply migrateLegacyData_skips. left. simpl. apply insert_non_empty.
  - apply migrateLegacyData_skips. right. reflexivity.
Defined.

(** ** Every reachable database is well formed *)

Lemma keeps_read_db : keeps_db_ok read_db.
Proof. by intros w. Qed.

Lemma keeps_getExpensesByDateRange s e : keeps_db_ok (getExpensesByDateRange s e).
Proof.
  unfold getExpensesByDateRange. apply keeps_try_catch; [|intros; apply keeps_ret].
  destruct s, e; try apply keeps_throw.
  destruct (String.ltb _ _); [apply keeps_throw|].
  apply keeps_bind; [apply keeps_read_db | intros; apply keeps_ret].
Qed.

Lemma keeps_exportAllData (P : Platform) : keeps_db_ok (exportAllData P).
Proof. intros w Hw. by rewrite exportAllData_run. Qed.

Lemma keeps_perform (P : Platform) (c : Call) (w : World) :
  db_ok (db w) → db_ok (db (perform P c w)).
Proof.
  destruct c; cbn [perform]; unfold settle.
  - apply keeps_setItem.
  - apply keeps_getItem.
  - apply keeps_removeItem.
  - apply keeps_clearStore.
  - done.
  - apply keeps_saveExpense.
  - apply keeps_deleteExpense.
  - done.
  - apply keeps_getExpensesByDateRange.
  - done.
  - apply keeps_deleteExpensesByFarm.
  - done.
  - done.
  - apply keeps_saveFarm.
  - apply keeps_deleteFarm.
  - unfold getSelectedFarmId, bind, read_db. by destruct (st_settings _ !! _).
  - apply keeps_setSelectedFarmId.
  - apply keeps_markFarmCompleted.
  - apply keeps_markFarmActive.
  - done.
  - done.
  - apply keeps_migrateLegacyData.
  - apply keeps_exportAllData.
  - apply keeps_importAllData.
  - apply keeps_saveTaskCompletion.
  - unfold getTaskCompletions, getFarm, bind, read_db, ret. by destruct (st_farms _ !! _).
  - apply keeps_deleteTaskCompletion.
Qed.

(** X18. Whatever sequence of exported functions is called, with whatever
    arguments and whether the calls resolve or reject, a database that
    started empty holds every farm and every expense under its own [id],
    and no farm under the empty id. *)
Theorem reachable_db_ok (P : Platform) (calls : list Call) (t : nat) :
  db_ok (db (run_calls P calls (mkWorld empty_db t))).
Proof.
  unfold run_calls.
  assert (H0 : db_ok (db (mkWorld empty_db t))) by apply empty_db_ok.
  revert H0. generalize (mkWorld empty_db t).
  induction calls as [|c calls IH]; intros w Hw; [done|].
  simpl. apply IH. by apply keeps_perform.
Qed.

Lemma perform_reads (P : Platform) (c : Call) (w : World) :
  reads c = true → db (perform P c w) = db w.
Proof.
  destruct c; try discriminate; intros _; cbn [perform]; unfold settle; try done.
  - by destruct (getItem_pure P key w) as [v ->].
  - unfold getExpensesByDateRange, try_catch.
    destruct startDate, endDate; try done. by destruct (String.ltb _ _).
  - unfold getSelectedFarmId, bind, read_db. by destruct (st_settings _ !! _).
  - by rewrite exportAllData_run.
  - unfold getTaskCompletions, getFarm, bind, read_db, ret. by destruct (st_farms _ !! _).
Qed.

(** X19. The reading functions ([getItem], the [get...] queries and
    [exportAllData]) never write: a sequence of such calls, on any
    database, leaves every store as it was. *)
Theorem reads_leave_db (P : Platform) (calls : list Call) (w : World) :
  forallb reads calls = true → db (run_calls P calls w) = db w.
Proof.
  unfold run_calls. revert w.
  induction calls as [|c calls IH]; intros w Hr; [done|].
  simpl in Hr. apply andb_prop in Hr as [Hc Hr].
  simpl. rewrite IH by done. by apply perform_reads.
Qed.

Lemma reads_leave_db_witness :
  db (run_calls manila
        [call_exportAllData; call_getItem "expenseData"; call_getActiveFarms;
         call_getExpensesByDateRange None (Some 0)] (mkWorld sample_db 0))
  = sample_db.
Proof. by apply reads_leave_db. Defined.

(** ** The indexed queries *)

(** X20. [getExpensesByCategory] resolves, without writing, with exactly
    the stored expenses whose [category] is the given string, in the order
    in which [getAllExpenses] lists them. *)
Theorem getExpensesByCategory_spec (category : string) (w : World) :
  ∃ l,
    getExpensesByCategory category w = (Resolved l, w)
    ∧ (∀ e, e ∈ l ↔ (∃ k, st_expenses (db w) !! k = Some e)
                     ∧ exp_category e = JStr category)
    ∧ l `sublist_of` getAll (st_expenses (db w)).
Proof.
  eexists. split; [reflexivity|]. split; [|apply sublist_List_filter].
  intros e. rewrite elem_of_List_filter, elem_of_getAll.
  split; intros [Hin Hc]; (split; [done|]).
  - destruct (exp_category e); try discriminate.
    apply String.eqb_eq in Hc. by subst.
  - rewrite Hc. apply String.eqb_refl.
Qed.

Lemma date_index_le_total : Total date_index_le.
Proof.
  intros a b. unfold date_index_le, date_index_leb.
  destruct (date_key a.2) as [da|], (date_key b.2) as [db|]; try by left.
  rewrite (String.compare_antisym db da).
  destruct (String.compare da db); simpl; [|by left|by right].
  apply String.leb_total.
Qed.

Lemma date_index_le_ordered a b : date_index_le a b → date_ordered a.2 b.2.
Proof.
  unfold date_index_le, date_index_leb, date_ordered, String.leb.
  destruct (date_key a.2) as [da|], (date_key b.2) as [db|]; try done.
  by destruct (String.compare da db).
Qed.

Lemma elem_of_date_range lower upper (m : gmap string Expense) x :
  x ∈ (merge_sort date_index_le
         (filter (λ p, in_bound lower upper p.2 = true) (map_to_list m))).*2
  ↔ ∃ k date, m !! k = Some x ∧ exp_date x = JStr date
              ∧ String.leb lower date = true ∧ String.leb date upper = true.
Proof.
  rewrite list_elem_of_fmap. split.
  - intros ([k e] & -> & Hin). rewrite merge_sort_Permutation in Hin.
    apply list_elem_of_filter in Hin as [Hb Hin]. apply elem_of_map_to_list in Hin.
    simpl in *. unfold in_bound, date_key in Hb.
    destruct (exp_date e) as [| | | |date| |] eqn:Hd; try discriminate.
    apply andb_prop in Hb as [H1 H2]. by exists k, date.
  - intros (k & date & Hk & Hd & H1 & H2). exists (k, x). split; [done|].
    rewrite merge_sort_Permutation. apply list_elem_of_filter. split.
    + simpl. unfold in_bound, date_key. by rewrite Hd, H1, H2.
    + by apply elem_of_map_to_list.
Qed.

Lemma getExpensesByDateRange_run (startDate endDate : option Z) (w : World) :
  getExpensesByDateRange startDate endDate w
  = (Resolved
       match startDate, endDate with
       | Some s, Some e =>
           if String.ltb (toISOString e) (toISOString s) then []
           else (merge_sort date_index_le
                   (filter (λ p, in_bound (toISOString s) (toISOString e) p.2 = true)
                      (map_to_list (st_expenses (db w))))).*2
       | _, _ => []
       end, w).
Proof.
  unfold getExpensesByDateRange, try_catch.
  destruct startDate as [s|], endDate as [e|]; try reflexivity.
  by destruct (String.ltb (toISOString e) (toISOString s)).
Qed.

(** X21. [getExpensesByDateRange] never rejects and never writes.  It
    returns an expense exactly when both dates are valid, the start is not
    after the end (as ISO strings), and the expense is stored with a string
    [date] that lies, in string order, between the ISO timestamps of the
    two bounds, both included; an invalid date or an inverted range gives
    the empty list.  The result is in the order of the dates. *)
Theorem getExpensesByDateRange_spec (startDate endDate : option Z) (w : World) :
  ∃ l,
    getExpensesByDateRange startDate endDate w = (Resolved l, w)
    ∧ (∀ x, x ∈ l ↔
         ∃ s e k date,
           startDate = Some s ∧ endDate = Some e
           ∧ String.ltb (toISOString e) (toISOString s) = false
           ∧ st_expenses (db w) !! k = Some x ∧ exp_date x = JStr date
           ∧ String.leb (toISOString s) date = true
           ∧ String.leb date (toISOString e) = true)
    ∧ Sorted date_ordered l.
Proof.
  eexists. split; [apply getExpensesByDateRange_run|].
  destruct startDate as [s|], endDate as [e|];
    try (split; [|constructor];
         intros x; split; [by intros ?%elem_of_nil | by intros (? & ? & ? & ? & ? & ? & _)]).
  destruct (String.ltb (toISOString e) (toISOString s)) eqn:Hinv.
  - split; [|constructor].
    intros x. split; [by intros ?%elem_of_nil|].
    intros (s' & e' & ? & ? & [= <-] & [= <-] & Hlt & _). congruence.
  - split.
    + intros x. rewrite elem_of_date_range. split.
      * intros (k & date & ? & ? & ? & ?). by exists s, e, k, date.
      * intros (s' & e' & k & date & [= <-] & [= <-] & _ & ? & ? & ? & ?).
        by exists k, date.
    + eapply Sorted_fmap; [apply date_index_le_ordered|].
      apply Sorted_merge_sort, date_index_le_total.
Qed.

Lemma ascii_compare_refl (c : ascii) : Ascii.compare c c = Eq.
Proof.
  pose proof (Ascii.compare_antisym c c) as H.
  destruct (Ascii.compare c c); simpl in H; congruence.
Qed.

Lemma compare_proper_prefix (date rest : string) :
  rest ≠ "" → String.compare (date +:+ rest) date = Gt.
Proof.
  intros Hrest. induction date as [|c date IH].
  - rewrite append_empty. by destruct rest.
  - rewrite append_String. simpl. by rewrite ascii_compare_refl.
Qed.

(** X22. The bounds of the date range are full ISO timestamps, compared as
    strings with the stored [date]: an expense dated with a proper prefix
    of the start timestamp (the date-only form [YYYY-MM-DD] of the start
    day, for one) sorts before the lower bound and is never returned. *)
Theorem getExpensesByDateRange_excludes_start_day (s : Z) (endDate : option Z)
    (w : World) (x : Expense) (date rest : string) :
  toISOString s = date +:+ rest → rest ≠ "" → exp_date x = JStr date →
  ∃ l, getExpensesByDateRange (Some s) endDate w = (Resolved l, w) ∧ x ∉ l.
Proof.
  intros Hiso Hrest Hdate.
  eexists. split; [apply getExpensesByDateRange_run|].
  destruct endDate as [e|]; [|by intros ?%elem_of_nil].
  destruct (String.ltb (toISOString e) (toISOString s)); [by intros ?%elem_of_nil|].
  intros Hin. apply elem_of_date_range in Hin as (k & date' & _ & Hd & Hlow & _).
  rewrite Hdate in Hd. injection Hd as <-.
  unfold String.leb in Hlow. rewrite Hiso in Hlow.
  by rewrite compare_proper_prefix in Hlow.
Qed.

Lemma getExpensesByDateRange_excludes_start_day_witness :
  ∃ l,
    getExpensesByDateRange (Some 1738454400000) (Some 1738540800000)
      (mkWorld sample_db 0) = (Resolved l, mkWorld sample_db 0)
    ∧ expense "e1" (Some "farm_1700000000000") ∉ l.
Proof.
  apply (getExpensesByDateRange_excludes_start_day 1738454400000 (Some 1738540800000)
           (mkWorld sample_db 0) _ "2025-02-02" "T00:00:00.000Z").
  - vm_compute. reflexivity.
  - discriminate.
  - reflexivity.
Defined.

(** ** The schema upgrade *)

Lemma create_if_missing_lookup name spec stores name' :
  create_if_missing name spec stores !! name'
  = match stores !! name' with
    | Some s => Some s
    | None => if decide (name = name') then Some spec else None
    end.
Proof.
  unfold create_if_missing. destruct (decide (name = name')) as [<-|Hne].
  - destruct (stores !! name) eqn:E; [by rewrite E|].
    by rewrite lookup_insert_eq.
  - destruct (stores !! name) eqn:E; [by destruct (stores !! name')|].
    rewrite lookup_insert_ne by done. by destruct (stores !! name').
Qed.

(** X23. The schema upgrade only adds what is missing.  Afterwards each of
    the four stores exists; a store that existed before, whatever its key
    path and indexes, is left as it was; no store is created under another
    name; and running the upgrade again changes nothing. *)
Theorem onupgradeneeded_adds_missing (stores : gmap string StoreSpec) :
  (∀ s : STORES, is_Some (onupgradeneeded stores !! store_name s))
  ∧ stores ⊆ onupgradeneeded stores
  ∧ (∀ name, is_Some (onupgradeneeded stores !! name) →
       is_Some (stores !! name) ∨ ∃ s, name = store_name s)
  ∧ onupgradeneeded (onupgradeneeded stores) = onupgradeneeded stores.
Proof.
  assert (Hlook : ∀ stores name,
    onupgradeneeded stores !! name
    = match stores !! name with
      | Some s => Some s
      | None =>
          if decide ("farms" = name)
          then Some (mkStore (Some "id") [mkIndex "name" "name" false])
          else if decide ("farmInfo" = name) then Some (mkStore None [])
          else if decide ("expenses" = name)
          then Some (mkStore (Some "id")
                  [mkIndex "date" "date" false; mkIndex "category" "category" false;
                   mkIndex "farmId" "farmId" false])
          else if decide ("settings" = name) then Some (mkStore None [])
          else None
      end).
  { intros st name. unfold onupgradeneeded. rewrite !create_if_missing_lookup.
    destruct (st !! name); [done|].
    repeat (case_decide; [done|]). done. }
  split.
  { intros s. rewrite Hlook. destruct (stores !! store_name s); [by eexists|].
    destruct s; simpl; repeat (case_decide; [by eexists|]); done. }
  split.
  { apply map_subseteq_spec. intros name spec Hs. by rewrite Hlook, Hs. }
  split.
  { intros name. rewrite Hlook. destruct (stores !! name); [left; by eexists|].
    intros Hsome. right.
    repeat (case_decide;
            [subst; first [by exists FARMS | by exists FARM_INFO
                          | by exists EXPENSES | by exists SETTINGS]|]).
    by destruct Hsome. }
  apply map_eq. intros name. rewrite (Hlook (onupgradeneeded stores)).
  destruct (onupgradeneeded stores !! name) eqn:E; [done|].
  rewrite Hlook in E. destruct (stores !! name); [done|].
  repeat (case_decide; [done|]). done.
Qed.

(** X24. A store that the upgrade has to create gets the key path the
    operations of this file rely on: in-line keys at [id] for farms and
    expenses, out-of-line keys for [farmInfo] and [settings]; the expenses
    store then has the three indexes the queries use. *)
Theorem onupgradeneeded_key_paths (stores : gmap string StoreSpec) (s : STORES) :
  stores !! store_name s = None →
  ∃ spec,
    onupgradeneeded stores !! store_name s = Some spec
    ∧ store_keyPath spec = keyPath s
    ∧ (s = EXPENSES →
       index_name <$> store_indexes spec = ["date"; "category"; "farmId"]).
Proof.
  intros Hnone. unfold onupgradeneeded.
  destruct s; simpl in Hnone |- *; rewrite !create_if_missing_lookup, Hnone;
    repeat (case_decide; try done); eexists; (split; [reflexivity|]); by split.
Qed.

Lemma onupgradeneeded_key_paths_witness :
  ∃ spec,
    onupgradeneeded ∅ !! "expenses" = Some spec
    ∧ store_keyPath spec = Some "id"
    ∧ (EXPENSES = EXPENSES →
       index_name <$> store_indexes spec = ["date"; "category"; "farmId"]).
Proof. apply (onupgradeneeded_key_paths ∅ EXPENSES). reflexivity. Defined.

(** ** The current stage *)

Lemma forEach_stage_last (stages : list Stage) (index : nat) (daysElapsed : option Z)
    (currentIdx : nat) :
  (forEach_stage stages index daysElapsed currentIdx = currentIdx
   ∧ ∀ stage, stage ∈ stages → reached daysElapsed stage = false)
  ∨ ∃ k stage,
      forEach_stage stages index daysElapsed currentIdx = (index + k)%nat
      ∧ stages !! k = Some stage ∧ reached daysElapsed stage = true
      ∧ ∀ k' later, (k < k')%nat → stages !! k' = Some later →
          reached daysElapsed later = false.
Proof.
  revert index currentIdx. induction stages as [|stage rest IH]; intros index cur.
  - left. split; [done|]. by intros ? ?%elem_of_nil.
  - simpl.
    destruct (IH (S index) (if reached daysElapsed stage then index else cur))
      as [[Hr Hnone]|(k & st & Hr & Hk & Hreach & Hlater)].
    + destruct (reached daysElapsed stage) eqn:Hs.
      * right. exists 0%nat, stage. rewrite Hr. split; [lia|]. split; [done|].
        split; [done|]. intros [|k'] later Hlt Hl; [lia|].
        apply Hnone. by eapply list_elem_of_lookup_2.
      * left. split; [done|]. intros st [->|Hin]%elem_of_cons; [done | by apply Hnone].
    + right. exists (S k), st. rewrite Hr. split; [lia|]. split; [done|].
      split; [done|]. intros [|k'] later Hlt Hl; [lia|].
      apply (Hlater k'); [lia | done].
Qed.

(** X25. [getCurrentStageIndex] reads the clock once and returns the index
    of the last stage whose offset has been reached: with [d] the whole
    days elapsed since the start date, not less than 0, the stage at the
    returned index has an offset of at most [d] and every later stage a
    larger one.  For a start date in the future this is the first stage,
    and so it is for a start date that reads as the Invalid Date. *)
Theorem getCurrentStageIndex_spec (P : Platform) (startDate : string) (w : World) :
  ∃ i stage,
    getCurrentStageIndex P startDate w = (Resolved i, mkWorld (db w) (S (ticks w)))
    ∧ RICE_CULTIVATION_STAGES !! i = Some stage
    ∧ match Date_parse P startDate with
      | Some start =>
          let d := Z.max 0 ((clock P (ticks w) - start) / MS_PER_DAY) in
          stage_offset stage <= d
          ∧ (∀ j later, (i < j)%nat → RICE_CULTIVATION_STAGES !! j = Some later →
               d < stage_offset later)
          ∧ (clock P (ticks w) < start → i = 0%nat)
      | None => i = 0%nat
      end.
Proof.
  unfold getCurrentStageIndex, bind, Date_now, ret.
  destruct (Date_parse P startDate) as [start|]; cbn [days_elapsed].
  - set (d := Z.max 0 ((clock P (ticks w) - start) / MS_PER_DAY)).
    destruct (forEach_stage_last RICE_CULTIVATION_STAGES 0 (Some d) 0)
      as [[_ Hnone]|(k & st & Hr & Hk & Hreach & Hlater)].
    + exfalso. specialize (Hnone _ (list_elem_of_here _ _)).
      simpl in Hnone. apply Z.leb_gt in Hnone. lia.
    + exists k, st. rewrite Hr. split; [done|]. split; [done|].
      simpl in Hreach. apply Z.leb_le in Hreach. split; [done|].
      assert (Hl : ∀ j later, (k < j)%nat → RICE_CULTIVATION_STAGES !! j = Some later →
                     d < stage_offset later).
      { intros j later Hlt Hj. specialize (Hlater j later Hlt Hj).
        simpl in Hlater. by apply Z.leb_gt in Hlater. }
      split; [exact Hl|].
      intros Hfuture. destruct k as [|k]; [done|]. exfalso.
      assert (Hd0 : d = 0).
      { unfold d, MS_PER_DAY. apply Z.max_l. Z.div_mod_to_equations. lia. }
      assert (Hoff : 3 <= stage_offset st).
      { do 5 (destruct k as [|k]; [injection Hk as <-; simpl; lia|]).
        discriminate. }
      lia.
  - destruct (forEach_stage_last RICE_CULTIVATION_STAGES 0 None 0)
      as [[Hr _]|(k & st & _ & _ & Hreach & _)]; [|discriminate].
    exists 0%nat. eexists. rewrite Hr. by split.
Qed.

(** ** Reminders *)

Section ReminderRuns.
Context (P : Platform).

Lemma upcoming_stages_window farmName startDate stages w :
  ∃ l,
    upcoming_stages P farmName startDate stages w
    = (Resolved l, mkWorld (db w) (ticks w + length stages))
    ∧ Forall (λ u, 0 <= up_daysUntil u <= 3 ∧ up_farmName u = farmName) l
    ∧ (up_stage <$> l) `sublist_of` stages.
Proof.
  revert w. induction stages as [|stage rest IH]; intros w.
  - exists []. destruct w as [d t]. simpl. rewrite Nat.add_0_r.
    split; [reflexivity|]. by split; [constructor|].
  - cbn [upcoming_stages]. unfold daysUntil at 1. unfold bind at 1 2. unfold Date_now, ret at 1.
    destruct (IH (mkWorld (db w) (S (ticks w)))) as (l & Hrun & Hall & Hsub).
    unfold bind at 1. rewrite Hrun. cbn [db ticks length].
    replace (S (ticks w) + length rest)%nat with (ticks w + S (length rest))%nat by lia.
    match goal with
    | |- context [match ?days with Some _ => _ | None => _ end _] =>
        destruct days as [n|]
    end.
    + destruct (Z.leb_spec 0 n), (Z.leb_spec n 3); cbn [andb].
      * eexists. split; [reflexivity|]. split.
        -- constructor; [simpl; split; [lia|done] | done].
        -- rewrite fmap_cons. by apply sublist_skip.
      * exists l. split; [reflexivity|]. split; [done | by apply sublist_cons].
      * exists l. split; [reflexivity|]. split; [done | by apply sublist_cons].
      * exists l. split; [reflexivity|]. split; [done | by apply sublist_cons].
    + exists l. split; [reflexivity|]. split; [done | by apply sublist_cons].
Qed.

End ReminderRuns.

(** X26. [getUpcomingStages] lists stages of the list it is given, in the
    order of that list, each with a number of days between 0 and 3 and
    with the name of the farm; it reads the clock once for every stage.
    Without a farm or without a start date it returns the empty list and
    does not read the clock. *)
Theorem getUpcomingStages_window (P : Platform) (farmInfo : option FarmDates)
    (stages : list Stage) (w : World) :
  ∃ l w',
    getUpcomingStages P farmInfo stages w = (Resolved l, w')
    ∧ Forall (λ u, 0 <= up_daysUntil u <= 3
                   ∧ Some (up_farmName u) = fd_name <$> farmInfo) l
    ∧ (up_stage <$> l) `sublist_of` stages
    ∧ db w' = db w
    ∧ if match farmInfo with
         | Some f => truthy_str (fd_startDate f)
         | None => false
         end
      then ticks w' = (ticks w + length stages)%nat
      else l = [] ∧ ticks w' = ticks w.
Proof.
  unfold getUpcomingStages. destruct farmInfo as [f|].
  - destruct (truthy_str (fd_startDate f)); cbn [negb].
    + destruct (upcoming_stages_window P (fd_name f)
                  (Date_parse P (default "" (fd_startDate f))) stages w)
        as (l & Hrun & Hall & Hsub).
      exists l. eexists. split; [exact Hrun|]. split.
      { eapply Forall_impl; [exact Hall|]. intros u [? ->]. done. }
      done.
    + exists [], w. split; [done|]. split; [constructor|].
      split; [apply sublist_nil_l|]. done.
  - exists [], w. split; [done|]. split; [constructor|].
    split; [apply sublist_nil_l|]. done.
Qed.

Section ConstantOffset.
Context (P : Platform) (off : Z).
Hypothesis Hoff : ∀ t b, LocalTZA P t b = off.
Hypothesis Hoff_day : - msPerDay <= off <= msPerDay.

Lemma addDays_constant_offset t n :
  four_digit_year t → -1000 <= n <= 1000 →
  addDays (LocalTZA P) t n = Some (t + n * msPerDay).
Proof.
  unfold four_digit_year. intros Ht Hn. unfold addDays, UTC, LocalTime.
  rewrite !Hoff. rewrite TimeClip_in_range by (unfold msPerDay; lia).
  f_equal. lia.
Qed.

Lemma atMidnight_constant_offset t :
  -300000000000000 <= t <= 300000000000000 →
  atMidnight (LocalTZA P) (Some t) = Some (Day (t + off) * msPerDay - off).
Proof.
  intros Ht. unfold atMidnight. rewrite (setHours0_constant_offset P off) by exact Hoff.
  apply TimeClip_in_range. revert Hoff_day.
  unfold Day, msPerDay. intros ?. Z.div_mod_to_equations. lia.
Qed.

Lemma upcoming_stages_constant_offset farmName start today stages w :
  four_digit_year start →
  Forall (λ stage, -1000 <= stage_offset stage <= 1000) stages →
  (∀ i, (i < length stages)%nat →
     four_digit_year (clock P (ticks w + i))
     ∧ Day (clock P (ticks w + i) + off) = today) →
  upcoming_stages P farmName (Some start) stages w
  = (Resolved
       (omap (λ stage,
                let n := Day (start + off) + stage_offset stage - today in
                if (0 <=? n) && (n <=? 3)
                then Some (mkUpcoming stage
                             (Some (start + stage_offset stage * msPerDay)) n farmName)
                else None) stages),
     mkWorld (db w) (ticks w + length stages)).
Proof.
  intros Hstart Hall. revert w.
  induction Hall as [|stage rest Hstage Hall IH]; intros w Hclock.
  - destruct w as [d t]. simpl. by rewrite Nat.add_0_r.
  - cbn [upcoming_stages omap list_omap].
    rewrite addDays_constant_offset by done.
    unfold daysUntil at 1. unfold bind at 1 2. unfold Date_now, ret at 1.
    destruct (Hclock 0%nat ltac:(simpl; lia)) as [Hnow Htoday].
    rewrite Nat.add_0_r in Hnow, Htoday.
    assert (Hrange : -300000000000000 <= start + stage_offset stage * msPerDay
                     <= 300000000000000)
      by (unfold four_digit_year, msPerDay in *; lia).
    rewrite !atMidnight_constant_offset
      by (try exact Hrange; unfold four_digit_year in Hnow; lia).
    rewrite Htoday.
    assert (Hdays :
      (Day (start + stage_offset stage * msPerDay + off) * msPerDay - off
       - (today * msPerDay - off)) / (1000 * 60 * 60 * 24)
      = Day (start + off) + stage_offset stage - today).
    { unfold Day, msPerDay. Z.div_mod_to_equations. lia. }
    rewrite Hdays.
    unfold bind at 1. rewrite IH.
    2:{ intros i Hi. cbn [ticks].
        replace (S (ticks w) + i)%nat with (ticks w + S i)%nat by lia.
        apply Hclock. simpl. lia. }
    cbn [db ticks length].
    replace (S (ticks w) + length rest)%nat with (ticks w + S (length rest))%nat by lia.
    by destruct ((0 <=? Day (start + off) + stage_offset stage - today)
                 && (Day (start + off) + stage_offset stage - today <=? 3)).
Qed.

End ConstantOffset.

(** X27. In a time zone with a constant offset from UTC, and while the
    clock stays on one local day, [getUpcomingStages] lists exactly the
    stages whose local day, the local day of the start date plus the
    offset of the stage, is today or one of the next three days, each with
    that number of days and with the start instant moved by whole days as
    its date. *)
Theorem getUpcomingStages_constant_offset (P : Platform) (off today start : Z)
    (farm : FarmDates) (startDate : string) (stages : list Stage) (w : World) :
  (∀ t b, LocalTZA P t b = off) → - msPerDay <= off <= msPerDay →
  fd_startDate farm = Some startDate → startDate ≠ "" →
  Date_parse P startDate = Some start → four_digit_year start →
  Forall (λ stage, -1000 <= stage_offset stage <= 1000) stages →
  (∀ i, (i < length stages)%nat →
     four_digit_year (clock P (ticks w + i))
     ∧ Day (clock P (ticks w + i) + off) = today) →
  getUpcomingStages P (Some farm) stages w
  = (Resolved
       (omap (λ stage,
                let n := Day (start + off) + stage_offset stage - today in
                if (0 <=? n) && (n <=? 3)
                then Some (mkUpcoming stage
                             (Some (start + stage_offset stage * msPerDay)) n
                             (fd_name farm))
                else None) stages),
     mkWorld (db w) (ticks w + length stages)).
Proof.
  intros Hoff Hoff_day Hfd Hne Hparse Hstart Hall Hclock.
  unfold getUpcomingStages. rewrite Hfd, truthy_str_Some by done.
  cbn [negb]. change (default "" (Some startDate)) with startDate. rewrite Hparse.
  by apply upcoming_stages_constant_offset.
Qed.

Lemma getUpcomingStages_constant_offset_witness :
  ∃ l,
    getUpcomingStages manila (Some (mkFarmDates (JStr "Plot B") (Some "2025-10-04")))
      RICE_CULTIVATION_STAGES (mkWorld empty_db 0)
    = (Resolved l, mkWorld empty_db 6)
    ∧ (stage_title ∘ up_stage) <$> l
      = ["3. Pre-Transplantation (Field Treatment)"; "4. Transplanting"]
    ∧ up_daysUntil <$> l = [1; 2].
Proof.
  eexists. split.
  - apply (getUpcomingStages_constant_offset manila (8 * msPerHour) 20394 1759536000000
             _ "2025-10-04").
    + reflexivity.
    + unfold msPerDay, msPerHour. lia.
    + reflexivity.
    + discriminate.
    + vm_compute. reflexivity.
    + unfold four_digit_year. lia.
    + repeat constructor; simpl; lia.
    + intros i Hi. simpl in Hi.
      do 6 (destruct i as [|i];
            [split; [unfold four_digit_year; vm_compute; split; [discriminate|reflexivity]
                    | vm_compute; reflexivity]|]).
      lia.
  - vm_compute. split; reflexivity.
Defined.

Lemma toISOString_nonempty t : four_digit_year t → toISOString t ≠ "".
Proof.
  intros Ht Hempty.
  pose proof (Date_Time_String_Format_toISOString (λ _ _, 0) t Ht) as Hp.
  rewrite Hempty in Hp. discriminate.
Qed.

(** X28. After [markCheckedToday] the next [shouldCheckToday] answers
    whether the local calendar day has changed since: false while the
    clock is still on the local day of the mark, true from the next local
    day on.  The mark touches no other entry of [localStorage]. *)
Theorem markCheckedToday_shouldCheckToday (P : Platform)
    (localStorage : gmap string string) (w : World) :
  four_digit_year (clock P (ticks w)) →
  ∃ localStorage' w1,
    markCheckedToday P localStorage w = (Resolved localStorage', w1)
    ∧ shouldCheckToday P localStorage' w1
      = (Resolved (negb (Day (LocalTime (LocalTZA P) (clock P (S (ticks w))))
                         =? Day (LocalTime (LocalTZA P) (clock P (ticks w))))),
         mkWorld (db w) (S (S (ticks w))))
    ∧ (∀ k, k ≠ "lastNotificationCheck" → localStorage' !! k = localStorage !! k).
Proof.
  intros Ht. do 2 eexists. split; [reflexivity|]. split.
  - unfold shouldCheckToday. rewrite lookup_insert_eq.
    destruct (String.eqb_spec (toISOString (clock P (ticks w))) "") as [He|_];
      [by apply toISOString_nonempty in He|].
    unfold bind, Date_now. cbn [ticks db].
    by rewrite Date_parse_toISOString.
  - intros k Hk. by rewrite lookup_insert_ne.
Qed.

Lemma markCheckedToday_shouldCheckToday_witness :
  ∃ localStorage' w1,
    markCheckedToday manila ∅ (mkWorld empty_db 0) = (Resolved localStorage', w1)
    ∧ shouldCheckToday manila localStorage' w1 = (Resolved false, mkWorld empty_db 2).
Proof.
  destruct (markCheckedToday_shouldCheckToday manila ∅ (mkWorld empty_db 0))
    as (ls & w1 & Hmark & Hcheck & _).
  - unfold four_digit_year. vm_compute. split; [discriminate|reflexivity].
  - exists ls, w1. split; [exact Hmark|]. exact Hcheck.
Defined.
